(** * VitalGuard secure channel: a shallow embedding

    The two modules of [vitalguard-software/security] that carry the
    protocol logic, [quantum_crypto.py] and [bb84_qkd.py], written as Rocq
    functions, followed by the properties the design document states about
    them.

    Layout: Python values and exceptions; the library calls the code makes
    ([base64], [hashlib], [hmac], [struct], floats, [random], [os.urandom],
    [time.time], the one-qubit circuits handed to the simulator); the four
    classes of [quantum_crypto.py]; [BB84KeyExchange], [EveInterceptor]
    and [qkd_key_exchange]; the functions of [quantum_demo.py] that work
    on raw bytes; then the theorems. *)

From Stdlib Require Import ZArith NArith Lia List Bool.
From Stdlib Require Import Strings.String Strings.Ascii Strings.Byte.
From Stdlib Require Import Floats.SpecFloat.
From stdpp Require Import base option gmap strings list.
Import ListNotations.

#[local] Open Scope string_scope.
#[local] Open Scope list_scope.
#[local] Set Warnings "-register-all".

(* ===================================================================== *)
(** ** Python values, exceptions, results *)
(* ===================================================================== *)

(** A [bytes] object. *)
Abbreviation bytes := (list byte).

(** The bytes of an ASCII literal such as [b"kyber_public"]. *)
Definition b (s : string) : bytes := list_byte_of_string s.

(** The Python objects that occur in the dictionaries the code builds and
    receives.  A [str] is a sequence of code points below 256; characters
    at or above 128 stand for the non-ASCII ones. *)
Inductive pyval : Type :=
  | PNone
  | PBool (v : bool)
  | PInt (z : Z)
  | PFloat (f : spec_float)
  | PStr (s : string)
  | PBytes (bs : bytes)
  | PList (l : list pyval)
  | PDict (d : gmap string pyval).

(** A [dict] with string keys. *)
Abbreviation dict := (gmap string pyval).

(** The exceptions the modelled code can raise. *)
Inductive exn : Type :=
  | KeyError (key : string)
  | TypeError
  | ValueError
  | OverflowError
  | ZeroDivisionError
  | BinasciiError
  | StructError
  | RuntimeError (msg : string)
  | JSONDecodeError
  | UnicodeDecodeError
  | IndexError.

(** Outcome of a call: a returned value, a raised exception, or no
    outcome at all ([Diverge], a loop that does not end). *)
Inductive result (A : Type) : Type :=
  | Ok (a : A)
  | Raise (e : exn)
  | Diverge.
Arguments Ok {A} a.
Arguments Raise {A} e.
Arguments Diverge {A}.

Definition rbind {A B} (r : result A) (k : A -> result B) : result B :=
  match r with
  | Ok a => k a
  | Raise e => Raise e
  | Diverge => Diverge
  end.

(** Code that reads and writes a state [St] and may raise.  A raised
    exception keeps the state reached so far, as assignments made before a
    [raise] persist in Python. *)
Definition prog (St A : Type) : Type := St -> result A * St.

Definition ret {St A} (a : A) : prog St A := fun s => (Ok a, s).
Definition raise {St A} (e : exn) : prog St A := fun s => (Raise e, s).
Definition bind {St A B} (m : prog St A) (k : A -> prog St B) : prog St B :=
  fun s =>
    match m s with
    | (Ok a, s') => k a s'
    | (Raise e, s') => (Raise e, s')
    | (Diverge, s') => (Diverge, s')
    end.
Definition diverge {St A} : prog St A := fun s => (Diverge, s).
Definition lift {St A} (r : result A) : prog St A := fun s => (r, s).

#[global] Instance result_ret : MRet result := @Ok.
#[global] Instance result_bind : MBind result := fun A B k r => rbind r k.
#[global] Instance prog_ret {St} : MRet (prog St) := @ret St.
#[global] Instance prog_bind {St} : MBind (prog St) :=
  fun A B k m => bind m k.

(** [obj[key]]: subscripting a dictionary raises [KeyError] on a missing
    key; every other object of [pyval] subscripted by a string raises
    [TypeError]. *)
Definition getitem (obj : pyval) (key : string) : result pyval :=
  match obj with
  | PDict d =>
      match d !! key with
      | Some v => Ok v
      | None => Raise (KeyError key)
      end
  | _ => Raise TypeError
  end.

(** Truth value of an object, as [if obj:] and [not obj] take it. *)
Definition truthy (v : pyval) : bool :=
  match v with
  | PNone => false
  | PBool v => v
  | PInt z => negb (z =? 0)%Z
  | PFloat f =>
      match f with
      | S754_zero _ => false
      | _ => true
      end
  | PStr s => negb (String.length s =? 0)%nat
  | PBytes bs => negb (length bs =? 0)%nat
  | PList l => negb (length l =? 0)%nat
  | PDict d => negb (bool_decide (d = ∅))
  end.

(* ===================================================================== *)
(** ** Bytes *)
(* ===================================================================== *)

(** The byte with value [n mod 256]. *)
Definition byte_of_N (n : N) : byte :=
  match Byte.of_N (n mod 256) with
  | Some x => x
  | None => x00
  end.

(** [a ^ b] on two byte values. *)
Definition byte_xor (a c : byte) : byte :=
  byte_of_N (N.lxor (Byte.to_N a) (Byte.to_N c)).

(** [bytes(a ^ b for a, b in zip(xs, ys))]: [zip] stops at the shorter
    argument. *)
Fixpoint xor_zip (xs ys : bytes) : bytes :=
  match xs, ys with
  | x :: xs', y :: ys' => byte_xor x y :: xor_zip xs' ys'
  | _, _ => []
  end.

(** The byte values, for checks that run over all of them. *)
Definition range256 : list N := List.map N.of_nat (seq 0 256).

(** [bs[i:]]: a slice never raises, it is empty past the end. *)
Definition slice_from (i : nat) (bs : bytes) : bytes := drop i bs.

(** [bs[:n]]. *)
Definition slice_to (n : nat) (bs : bytes) : bytes := take n bs.

(* ===================================================================== *)
(** ** [base64] *)
(* ===================================================================== *)

Module base64.

Definition table_b2a : list ascii :=
  list_ascii_of_string
    "ABCDEFGHIJKLMNOPQRSTUVWXYZabcdefghijklmnopqrstuvwxyz0123456789+/".

(** The character of a six-bit value. *)
Definition b2a (i : N) : ascii := nth (N.to_nat i) table_b2a "A"%char.

Fixpoint index_of (c : ascii) (tbl : list ascii) (i : N) : option N :=
  match tbl with
  | [] => None
  | x :: tbl' => if Ascii.eqb c x then Some i else index_of c tbl' (i + 1)
  end.

(** The six-bit value of a character of the alphabet, [None] for every
    other character. *)
Definition a2b (c : ascii) : option N := index_of c table_b2a 0.

(** The four six-bit groups of three bytes. *)
Definition sextet0 (n0 : N) : N := N.shiftr n0 2.
Definition sextet1 (n0 n1 : N) : N :=
  N.lor (N.shiftl (N.land n0 3) 4) (N.shiftr n1 4).
Definition sextet2 (n1 n2 : N) : N :=
  N.lor (N.shiftl (N.land n1 15) 2) (N.shiftr n2 6).
Definition sextet3 (n2 : N) : N := N.land n2 63.

(** The arithmetic of one group, checked on all pairs of byte values. *)
Definition group_check (n0 n1 : N) : bool :=
  (sextet0 n0 <? 64)%N && (sextet1 n0 n1 <? 64)%N
  && (sextet2 n0 n1 <? 64)%N && (sextet3 n0 <? 64)%N
  && N.eqb (N.lor (N.shiftl (sextet0 n0) 2) (N.shiftr (sextet1 n0 n1) 4)) n0
  && N.eqb (N.land (sextet1 n0 n1) 15) (N.shiftr n1 4)
  && N.eqb (N.shiftr (sextet2 n0 n1) 2) (N.land n0 15)
  && N.eqb (N.lor (N.shiftl (N.shiftr n0 4) 4) (N.land n0 15)) n0
  && N.eqb (N.land (sextet2 n0 n1) 3) (N.shiftr n1 6)
  && N.eqb (N.lor (N.shiftl (N.shiftr n0 6) 6) (sextet3 n0)) n0.

(** [binascii.b2a_base64(bs, newline=False)]: three bytes to four
    characters; a tail of one or two bytes is encoded with zero bits
    for the missing ones and padded with [=]. *)
Fixpoint b2a_base64 (bs : bytes) : list ascii :=
  match bs with
  | [] => []
  | [b0] =>
      let n0 := Byte.to_N b0 in
      [ b2a (sextet0 n0); b2a (sextet1 n0 0); "="%char; "="%char ]
  | [b0; b1] =>
      let n0 := Byte.to_N b0 in
      let n1 := Byte.to_N b1 in
      [ b2a (sextet0 n0); b2a (sextet1 n0 n1); b2a (sextet2 n1 0);
        "="%char ]
  | b0 :: b1 :: b2 :: rest =>
      let n0 := Byte.to_N b0 in
      let n1 := Byte.to_N b1 in
      let n2 := Byte.to_N b2 in
      b2a (sextet0 n0) :: b2a (sextet1 n0 n1) :: b2a (sextet2 n1 n2)
      :: b2a (sextet3 n2) :: b2a_base64 rest
  end.

(** [binascii.a2b_base64] in its default, non-strict mode: characters
    outside the alphabet are skipped, a complete pad sequence ends the
    parse, and a quad left open at the end of the input is an error. *)
Fixpoint a2b_base64 (ascii_data : list ascii)
    (quad_pos leftchar pads : N) (bin_data : bytes) : result bytes :=
  match ascii_data with
  | [] => if (quad_pos =? 0)%N then Ok bin_data else Raise BinasciiError
  | this_ch :: rest =>
      if Ascii.eqb this_ch "="%char then
        if (2 <=? quad_pos)%N then
          if (4 <=? quad_pos + (pads + 1))%N then Ok bin_data
          else a2b_base64 rest quad_pos leftchar (pads + 1) bin_data
        else a2b_base64 rest quad_pos leftchar pads bin_data
      else
        match a2b this_ch with
        | None => a2b_base64 rest quad_pos leftchar pads bin_data
        | Some v =>
            if (quad_pos =? 0)%N then
              a2b_base64 rest 1 v 0 bin_data
            else if (quad_pos =? 1)%N then
              a2b_base64 rest 2 (N.land v 15) 0
                (bin_data
                 ++ [byte_of_N (N.lor (N.shiftl leftchar 2) (N.shiftr v 4))])
            else if (quad_pos =? 2)%N then
              a2b_base64 rest 3 (N.land v 3) 0
                (bin_data
                 ++ [byte_of_N (N.lor (N.shiftl leftchar 4) (N.shiftr v 2))])
            else
              a2b_base64 rest 0 0 0
                (bin_data ++ [byte_of_N (N.lor (N.shiftl leftchar 6) v)])
        end
  end.

Definition is_ascii (c : ascii) : bool := (N_of_ascii c <? 128)%N.

(** [b64encode(bs).decode()]: the encoding as a [str]. *)
Definition b64encode (bs : bytes) : string :=
  string_of_list_ascii (b2a_base64 bs).

(** [b64decode(s)]: a [str] must be pure ASCII ([ValueError] otherwise),
    a [bytes] object is taken as it is, anything else is a
    [TypeError]. *)
Definition b64decode (s : pyval) : result bytes :=
  match s with
  | PStr s =>
      let cs := list_ascii_of_string s in
      if forallb is_ascii cs then a2b_base64 cs 0 0 0 []
      else Raise ValueError
  | PBytes bs => a2b_base64 (List.map ascii_of_byte bs) 0 0 0 []
  | _ => Raise TypeError
  end.

End base64.

(* ===================================================================== *)
(** ** [hashlib]: SHA3-256 and SHA3-512 *)
(* ===================================================================== *)

Module hashlib.

(** The Keccak state: 25 lanes of 64 bits, lane [(x, y)] at index
    [x + 5 * y]. *)
Definition lane_mask : N := 18446744073709551615.

Definition round_constants : list N :=
  [ 0x0000000000000001; 0x0000000000008082; 0x800000000000808A;
    0x8000000080008000; 0x000000000000808B; 0x0000000080000001;
    0x8000000080008081; 0x8000000000008009; 0x000000000000008A;
    0x0000000000000088; 0x0000000080008009; 0x000000008000000A;
    0x000000008000808B; 0x800000000000008B; 0x8000000000008089;
    0x8000000000008003; 0x8000000000008002; 0x8000000000000080;
    0x000000000000800A; 0x800000008000000A; 0x8000000080008081;
    0x8000000000008080; 0x0000000080000001; 0x8000000080008008 ]%N.

Definition rotation_offsets : list N :=
  [ 0; 1; 62; 28; 27;   36; 44; 6; 55; 20;   3; 10; 43; 25; 39;
    41; 45; 15; 21; 8;   18; 2; 61; 56; 14 ]%N.

Definition lane (A : list N) (i : nat) : N := nth i A 0%N.

Definition rotl64 (x n : N) : N :=
  N.land (N.lor (N.shiftl x n) (N.shiftr x (64 - n))) lane_mask.

Definition theta (A : list N) : list N :=
  let C :=
    List.map (fun x => N.lxor (lane A x)
                    (N.lxor (lane A (x + 5))
                    (N.lxor (lane A (x + 10))
                    (N.lxor (lane A (x + 15)) (lane A (x + 20))))))
      (seq 0 5) in
  let D :=
    List.map (fun x => N.lxor (lane C ((x + 4) mod 5))
                         (rotl64 (lane C ((x + 1) mod 5)) 1))
      (seq 0 5) in
  List.map (fun i => N.lxor (lane A i) (lane D (i mod 5))) (seq 0 25).

(** Lane [(X, Y)] of the result is the rotated lane [(x, y)] with
    [X = y] and [Y = 2 x + 3 y mod 5], that is [x = X + 3 Y mod 5]. *)
Definition rho_pi (A : list N) : list N :=
  List.map (fun j =>
         let X := (j mod 5)%nat in
         let Y := (j / 5)%nat in
         let src := ((X + 3 * Y) mod 5 + 5 * X)%nat in
         rotl64 (lane A src) (lane rotation_offsets src))
    (seq 0 25).

Definition chi (B : list N) : list N :=
  List.map (fun j =>
         let X := (j mod 5)%nat in
         let Y := (j / 5)%nat in
         N.lxor (lane B j)
           (N.ldiff (lane B ((X + 2) mod 5 + 5 * Y))
                    (lane B ((X + 1) mod 5 + 5 * Y))))
    (seq 0 25).

Definition iota (rc : N) (A : list N) : list N :=
  match A with
  | a0 :: A' => N.lxor a0 rc :: A'
  | [] => []
  end.

Definition keccak_round (A : list N) (rc : N) : list N :=
  iota rc (chi (rho_pi (theta A))).

Definition keccak_f (A : list N) : list N :=
  fold_left keccak_round round_constants A.

(** SHA-3 padding: the suffix bits [01], then [10*1] up to the rate. *)
Definition pad (rate : nat) (msg : bytes) : bytes :=
  let q := (rate - length msg mod rate)%nat in
  if (q =? 1)%nat then msg ++ [x86]
  else msg ++ [x06] ++ repeat x00 (q - 2) ++ [x80].

(** Little-endian value of a run of bytes. *)
Fixpoint le_value (bs : bytes) : N :=
  match bs with
  | [] => 0
  | x :: bs' => Byte.to_N x + 256 * le_value bs'
  end.

Definition absorb_block (rate : nat) (A : list N) (block : bytes)
    : list N :=
  keccak_f
    (List.map (fun i =>
            if (i <? rate / 8)%nat
            then N.lxor (lane A i) (le_value (take 8 (drop (8 * i) block)))
            else lane A i)
       (seq 0 25)).

(** Absorbs [padded] one block of [rate] bytes at a time; [blocks] is
    the number of blocks. *)
Fixpoint absorb (rate blocks : nat) (A : list N) (padded : bytes)
    : list N :=
  match blocks with
  | O => A
  | S blocks' =>
      absorb rate blocks' (absorb_block rate A (take rate padded))
        (drop rate padded)
  end.

(** Byte [i] of the state, lanes little-endian. *)
Definition state_byte (A : list N) (i : nat) : byte :=
  byte_of_N (N.shiftr (lane A (i / 8)) (8 * N.of_nat (i mod 8))).

Definition sha3 (rate digest_size : nat) (msg : bytes) : bytes :=
  let padded := pad rate msg in
  let A := absorb rate (length padded / rate) (repeat 0%N 25) padded in
  List.map (state_byte A) (seq 0 digest_size).

(** [hashlib.sha3_256(msg).digest()]; [block_size] is 136. *)
Definition sha3_256 (msg : bytes) : bytes := sha3 136 32 msg.

(** [hashlib.sha3_512(msg).digest()]; [block_size] is 72. *)
Definition sha3_512 (msg : bytes) : bytes := sha3 72 64 msg.

End hashlib.

(* ===================================================================== *)
(** ** [hmac] *)
(* ===================================================================== *)

Module hmac.

(** [hmac.new(key, msg, digestmod).digest()] for a hash [H] with the
    given block size: a key longer than a block is hashed first, then
    zero-padded to a block. *)
Definition digest (H : bytes -> bytes) (block_size : nat)
    (key msg : bytes) : bytes :=
  let key0 := if (block_size <? length key)%nat then H key else key in
  let key1 := key0 ++ repeat x00 (block_size - length key0) in
  let inner := H (List.map (fun k => byte_xor k x36) key1 ++ msg) in
  H (List.map (fun k => byte_xor k x5c) key1 ++ inner).

Definition sha3_256 (key msg : bytes) : bytes :=
  digest hashlib.sha3_256 136 key msg.

Definition sha3_512 (key msg : bytes) : bytes :=
  digest hashlib.sha3_512 72 key msg.

Fixpoint bytes_eqb (xs ys : bytes) : bool :=
  match xs, ys with
  | [], [] => true
  | x :: xs', y :: ys' => Byte.eqb x y && bytes_eqb xs' ys'
  | _, _ => false
  end.

(** [hmac.compare_digest(a, b)] on two [bytes] objects: equality, in
    time independent of the contents. *)
Definition compare_digest (a c : bytes) : bool := bytes_eqb a c.

End hmac.

(* ===================================================================== *)
(** ** [struct] and hexadecimal *)
(* ===================================================================== *)

Module struct.

(** The four bytes of a 32-bit value, most significant first. *)
Definition be32 (n : N) : bytes :=
  [ byte_of_N (N.shiftr n 24); byte_of_N (N.shiftr n 16);
    byte_of_N (N.shiftr n 8); byte_of_N n ].

(** [struct.pack(">I", n)]: [struct.error] when [n] does not fit 32
    bits. *)
Definition pack_I_be (n : N) : result bytes :=
  if (n <? 4294967296)%N then Ok (be32 n) else Raise StructError.

End struct.

Definition hex_digit (n : N) : ascii :=
  nth (N.to_nat n) (list_ascii_of_string "0123456789abcdef") "0"%char.

(** [bs.hex()]. *)
Definition hex (bs : bytes) : string :=
  string_of_list_ascii
    (flat_map (fun x => [ hex_digit (N.shiftr (Byte.to_N x) 4);
                          hex_digit (N.land (Byte.to_N x) 15) ]) bs).

Definition hex_value (c : ascii) : option N :=
  let n := N_of_ascii c in
  if (48 <=? n)%N && (n <=? 57)%N then Some (n - 48)%N
  else if (97 <=? n)%N && (n <=? 102)%N then Some (n - 87)%N
  else if (65 <=? n)%N && (n <=? 70)%N then Some (n - 55)%N
  else None.

Definition is_space (c : ascii) : bool :=
  let n := N_of_ascii c in
  ((9 <=? n)%N && (n <=? 13)%N) || (n =? 32)%N.

(** [bytes.fromhex(s)]: pairs of hexadecimal digits, white space allowed
    between the pairs, [ValueError] on anything else. *)
Fixpoint fromhex_chars (cs : list ascii) : result bytes :=
  match cs with
  | [] => Ok []
  | c :: cs' =>
      if is_space c then fromhex_chars cs'
      else
        match cs' with
        | [] => Raise ValueError
        | d :: cs'' =>
            match hex_value c, hex_value d with
            | Some hi, Some lo =>
                rbind (fromhex_chars cs'')
                  (fun rest => Ok (byte_of_N (16 * hi + lo) :: rest))
            | _, _ => Raise ValueError
            end
        end
  end.

Definition fromhex (s : string) : result bytes :=
  fromhex_chars (list_ascii_of_string s).

(* ===================================================================== *)
(** ** [float]: IEEE 754 binary64 *)
(* ===================================================================== *)

Module pyfloat.

Definition prec : Z := 53.
Definition emax : Z := 1024.

Abbreviation float := spec_float.

Definition zero : float := S754_zero false.

(** The literals of the source, in canonical form (53-bit mantissa), as
    the comparisons of [SpecFloat] expect. *)
Definition lit_0_11 : float := S754_finite false 7926335344172073 (-56).
Definition lit_0_2 : float := S754_finite false 7205759403792794 (-55).

(** The least magnitude that rounds past the largest float,
    [2 ** 1024 - 2 ** 970]. *)
Definition overflow_threshold : Z := 2 ^ 1024 - 2 ^ 970.

(** A finite value in canonical form. *)
Definition is_number (f : float) : bool :=
  match f with
  | S754_zero _ => true
  | S754_finite _ _ _ => valid_binary prec emax f
  | _ => false
  end.

(** An integer as an exact, unrounded value. *)
Definition exact (z : Z) : float :=
  match z with
  | Z0 => S754_zero false
  | Zpos p => S754_finite false p 0
  | Zneg p => S754_finite true p 0
  end.

(** [float(z)]: rounded to nearest, [OverflowError] when the rounded
    value would pass the largest float. *)
Definition of_int (z : Z) : result float :=
  if (overflow_threshold <=? Z.abs z)%Z then Raise OverflowError
  else Ok (binary_normalize prec emax z 0 false).

(** [a / c] on two integers: the correctly rounded quotient,
    [OverflowError] when it would pass the largest float. *)
Definition int_truediv (a c : Z) : result float :=
  if (c =? 0)%Z then Raise ZeroDivisionError
  else if (overflow_threshold * Z.abs c <=? Z.abs a)%Z
  then Raise OverflowError
  else Ok (SFdiv prec emax (exact a) (exact c)).

Definition mul (x y : float) : float := SFmul prec emax x y.
Definition sub (x y : float) : float := SFsub prec emax x y.

(** [x < y] and [x > y]. *)
Definition ltb (x y : float) : bool := SFltb x y.
Definition gtb (x y : float) : bool := SFltb y x.

(** [int(f)]: truncation toward zero. *)
Definition to_int (f : float) : result Z :=
  match f with
  | S754_zero _ => Ok 0%Z
  | S754_infinity _ => Raise OverflowError
  | S754_nan => Raise ValueError
  | S754_finite s m e =>
      let v := if (0 <=? e)%Z then (Z.pos m * 2 ^ e)%Z
               else (Z.pos m / 2 ^ (- e))%Z in
      Ok (if s then (- v)%Z else v)
  end.

(** The integer nearest to [num / den], ties to even ([0 < den]). *)
Definition div_half_even (num den : Z) : Z :=
  let k := (num / den)%Z in
  let r := (num mod den)%Z in
  if (den <? 2 * r)%Z then (k + 1)%Z
  else if (2 * r =? den)%Z && Z.odd k then (k + 1)%Z
  else k.

(** [round(x, ndigits)] for [0 <= ndigits]: the exact value of [x] is
    rounded to [ndigits] decimals, ties to even, and the decimal
    converted back to the nearest float. *)
Definition round (x : float) (ndigits : Z) : float :=
  match x with
  | S754_finite s m e =>
      let k :=
        if (0 <=? e)%Z
        then (Z.pos m * 2 ^ e * 10 ^ ndigits)%Z
        else div_half_even (Z.pos m * 10 ^ ndigits) (2 ^ (- e)) in
      if (k =? 0)%Z then S754_zero s
      else SFdiv prec emax (exact (if s then (- k)%Z else k))
                           (exact (10 ^ ndigits)%Z)
  | _ => x
  end.

End pyfloat.

Abbreviation float := spec_float.

(* ===================================================================== *)
(** ** The outside world: entropy, pseudo-random draws, clock, simulator *)
(* ===================================================================== *)

(** Work done by the cipher, recorded so that what a call did not do can
    be stated. *)
Inductive op : Type :=
  | OpKeystreamBlock (counter : N)
  | OpXor (n : nat).

(** A reading of the system clock in seconds: a float that is a number,
    never an infinity or a NaN. *)
Record reading : Type := Reading {
  seconds : float;
  seconds_ok : pyfloat.is_number seconds = true
}.

Definition epoch : reading := Reading pyfloat.zero eq_refl.

(** Everything a call can read from outside the program, as tapes that
    are consumed from the head; an exhausted tape yields zeros. *)
Record world : Type := World {
  entropy : bytes;      (** the bytes [os.urandom] will return *)
  draws : list N;       (** the values the [random] module will draw *)
  shots : list bool;    (** the simulator's outcomes on superposed states *)
  clock : list reading; (** the clock readings to come *)
  oplog : list op       (** cipher work performed so far, oldest first *)
}.

Definition set_entropy (e : bytes) (w : world) : world :=
  World e (draws w) (shots w) (clock w) (oplog w).
Definition set_draws (d : list N) (w : world) : world :=
  World (entropy w) d (shots w) (clock w) (oplog w).
Definition set_shots (s : list bool) (w : world) : world :=
  World (entropy w) (draws w) s (clock w) (oplog w).
Definition set_clock (c : list reading) (w : world) : world :=
  World (entropy w) (draws w) (shots w) c (oplog w).
Definition set_oplog (l : list op) (w : world) : world :=
  World (entropy w) (draws w) (shots w) (clock w) l.

Definition log_op (o : op) : prog world unit :=
  fun w => (Ok tt, set_oplog (oplog w ++ [o]) w).

Module os.

Fixpoint take_padded (n : nat) (tape : bytes) : bytes :=
  match n with
  | O => []
  | S n' =>
      match tape with
      | [] => x00 :: take_padded n' []
      | x :: tape' => x :: take_padded n' tape'
      end
  end.

(** [os.urandom(n)]: the next [n] bytes of entropy. *)
Definition urandom (n : nat) : prog world bytes :=
  fun w => (Ok (take_padded n (entropy w)), set_entropy (drop n (entropy w)) w).

End os.

Module time.

(** [time.time()]: the next reading of the clock. *)
Definition time : prog world float :=
  fun w =>
    (Ok (seconds (hd epoch (clock w))), set_clock (tl (clock w)) w).

End time.

Module random.

(** The next value of the generator. *)
Definition next : prog world N :=
  fun w => (Ok (hd 0%N (draws w)), set_draws (tl (draws w)) w).

(** A draw below [n] ([0 < n]). *)
Definition randbelow (n : N) : prog world N :=
  d ← next; mret (d mod n)%N.

(** [random.randint(0, 1)]. *)
Definition randint_0_1 : prog world bool :=
  d ← randbelow 2; mret (N.eqb d 1).

(** [random.choice(seq)] on a non-empty list. *)
Definition choice {A} (default : A) (seq : list A) : prog world A :=
  d ← randbelow (N.of_nat (length seq)); mret (nth (N.to_nat d) seq default).

(** [random.random()]: a multiple of [2 ** -53] in [[0, 1)]. *)
Definition random : prog world float :=
  d ← randbelow 9007199254740992;
  mret (binary_normalize pyfloat.prec pyfloat.emax (Z.of_N d) (-53) false).

(** The selection loop of [random.sample]: draw a position of the pool,
    take its element, and move the last live element into the hole. *)
Fixpoint sample_loop (k i n : nat) (pool : list nat) (result : list nat)
    : prog world (list nat) :=
  match k with
  | O => mret result
  | S k' =>
      j ← randbelow (N.of_nat (n - i));
      let j := N.to_nat j in
      sample_loop k' (S i) n
        (<[j := nth (n - i - 1) pool 0%nat]> pool)
        (result ++ [nth j pool 0%nat])
  end.

(** [random.sample(range(n), k)]: [k] distinct members of [range(n)] in
    selection order; [ValueError] when [k] exceeds [n].  The library
    selects from a pool, as here, or by rejection against a set of the
    indices already chosen, depending on [n] and [k]; both yield [k]
    distinct indices. *)
Definition sample_range (n : nat) (k : Z) : prog world (list nat) :=
  if ((k <? 0) || (Z.of_nat n <? k))%Z then raise ValueError
  else sample_loop (Z.to_nat k) 0 n (seq 0 n) [].

End random.

(* ===================================================================== *)
(** ** [json] *)
(* ===================================================================== *)

(** The serialisation the channel applies to its payload.  The channel
    does not look inside it, so the development is parametric in the two
    calls. *)
Class Json : Type := {
  (** [json.dumps(data).encode("utf-8")] *)
  dumps_utf8 : pyval -> result bytes;
  (** [json.loads(plaintext.decode("utf-8"))] *)
  loads_utf8 : bytes -> result pyval
}.

(* ===================================================================== *)
(** ** [quantum_crypto.py] *)
(* ===================================================================== *)

Module QuantumKEM.

Definition ALGORITHM : string := "VitalGuard-Kyber768-Hybrid".
Definition SHARED_SECRET_BYTES : nat := 32.

Definition keygen : prog world dict :=
  private_seed ← os.urandom 64;
  let public_key := hashlib.sha3_512 (private_seed ++ b "kyber_public") in
  mret ({[ "public_key" := PStr (base64.b64encode public_key);
           "private_key" := PStr (base64.b64encode private_seed);
           "algorithm" := PStr ALGORITHM ]} : dict).

Definition encapsulate (public_key_b64 : pyval)
    : prog world (string * bytes) :=
  public_key ← lift (base64.b64decode public_key_b64);
  ephemeral ← os.urandom 32;
  let shared_secret :=
    hashlib.sha3_256 (public_key ++ ephemeral ++ b "kyber_shared_secret") in
  let ct_raw :=
    hashlib.sha3_512 (public_key ++ ephemeral ++ b "kyber_ciphertext")
    ++ ephemeral in
  let ciphertext := base64.b64encode ct_raw in
  mret (ciphertext, shared_secret).

Definition decapsulate (private_key_b64 ciphertext_b64 : pyval)
    : result bytes :=
  private_seed ← base64.b64decode private_key_b64;
  ct_raw ← base64.b64decode ciphertext_b64;
  let ephemeral := slice_from 64 ct_raw in
  let public_key := hashlib.sha3_512 (private_seed ++ b "kyber_public") in
  let shared_secret :=
    hashlib.sha3_256 (public_key ++ ephemeral ++ b "kyber_shared_secret") in
  Ok shared_secret.

End QuantumKEM.

Module QuantumCipher.

(** The [while len(stream) < length] loop.  Every pass appends one
    digest, so [length] passes always suffice; [fuel] counts them down
    and [Diverge] marks its exhaustion. *)
Fixpoint _key_stream_loop (fuel : nat) (key nonce : bytes) (length : nat)
    (stream : bytes) (counter : N) : prog world bytes :=
  if (List.length stream <? length)%nat then
    match fuel with
    | O => diverge
    | S fuel' =>
        packed ← lift (struct.pack_I_be counter);
        let block := hashlib.sha3_256 (key ++ nonce ++ packed) in
        log_op (OpKeystreamBlock counter);;
        _key_stream_loop fuel' key nonce length (stream ++ block)
          (counter + 1)
    end
  else mret (slice_to length stream).

Definition _key_stream (key nonce : bytes) (length : nat)
    : prog world bytes :=
  _key_stream_loop length key nonce length [] 0.

(** [bytes(a ^ b for a, b in zip(xs, ys))]. *)
Definition xor_bytes (xs ys : bytes) : prog world bytes :=
  log_op (OpXor (Nat.min (length xs) (length ys)));;
  mret (xor_zip xs ys).

Definition encrypt (plaintext shared_secret : bytes) : prog world dict :=
  let enc_key := hashlib.sha3_256 (shared_secret ++ b "enc_key") in
  let mac_key := hashlib.sha3_256 (shared_secret ++ b "mac_key") in
  nonce ← os.urandom 16;
  key_stream ← _key_stream enc_key nonce (length plaintext);
  ciphertext ← xor_bytes plaintext key_stream;
  let mac := hmac.sha3_256 mac_key (nonce ++ ciphertext) in
  now ← time.time;
  timestamp ← lift (pyfloat.to_int now);
  mret ({[ "ciphertext" := PStr (base64.b64encode ciphertext);
           "nonce" := PStr (base64.b64encode nonce);
           "mac" := PStr (base64.b64encode mac);
           "timestamp" := PInt timestamp;
           "algorithm" := PStr "VitalGuard-AE-SHA3-256" ]} : dict).

(** [b64decode(encrypted[key])]. *)
Definition field (encrypted : pyval) (key : string) : result bytes :=
  v ← getitem encrypted key; base64.b64decode v.

(** Returns [Some plaintext], or [None] when authentication fails. *)
Definition decrypt (encrypted : pyval) (shared_secret : bytes)
    : prog world (option bytes) :=
  ciphertext ← lift (field encrypted "ciphertext");
  nonce ← lift (field encrypted "nonce");
  mac ← lift (field encrypted "mac");
  let enc_key := hashlib.sha3_256 (shared_secret ++ b "enc_key") in
  let mac_key := hashlib.sha3_256 (shared_secret ++ b "mac_key") in
  let expected_mac := hmac.sha3_256 mac_key (nonce ++ ciphertext) in
  if negb (hmac.compare_digest mac expected_mac) then mret None
  else
    key_stream ← _key_stream enc_key nonce (length ciphertext);
    plaintext ← xor_bytes ciphertext key_stream;
    mret (Some plaintext).

End QuantumCipher.

Module QuantumSignature.

Definition keygen : prog world dict :=
  private_key ← os.urandom 64;
  let public_key :=
    hashlib.sha3_512 (private_key ++ b "dilithium_public") in
  mret ({[ "signing_key" := PStr (base64.b64encode private_key);
           "verify_key" := PStr (base64.b64encode public_key);
           "algorithm" := PStr "VitalGuard-Dilithium3-Hybrid" ]} : dict).

Definition sign (data : bytes) (signing_key_b64 : pyval) : result string :=
  sk ← base64.b64decode signing_key_b64;
  let sig := hmac.sha3_512 sk data in
  Ok (base64.b64encode sig).

Definition verify (data : bytes)
    (signature_b64 verify_key_b64 signing_key_b64 : pyval) : result bool :=
  sk ← base64.b64decode signing_key_b64;
  let expected := hmac.sha3_512 sk data in
  sig ← base64.b64decode signature_b64;
  Ok (hmac.compare_digest sig expected).

End QuantumSignature.

(** Methods: code over an object [S] and the world. *)
Definition call {S A} (m : prog world A) : prog (S * world) A :=
  fun sw => let '(r, w') := m sw.2 in (r, (sw.1, w')).
Definition self {S} : prog (S * world) S := fun sw => (Ok sw.1, sw).
Definition assign {S} (f : S -> S) : prog (S * world) unit :=
  fun sw => (Ok tt, (f sw.1, sw.2)).

(** [field[key]] on an attribute that holds [None] or a dictionary. *)
Definition subscript (field : option dict) (key : string) : result pyval :=
  match field with
  | Some d => getitem (PDict d) key
  | None => Raise TypeError
  end.

Definition opt_str (s : option string) : pyval :=
  match s with
  | Some s => PStr s
  | None => PNone
  end.

Module SecureChannel.

Record t : Type := Channel {
  kem_keys : option dict;
  sig_keys : option dict;
  shared_secret : option bytes;
  session_id : option string
}.

Definition set_kem_keys (v : option dict) (c : t) : t :=
  Channel v (sig_keys c) (shared_secret c) (session_id c).
Definition set_sig_keys (v : option dict) (c : t) : t :=
  Channel (kem_keys c) v (shared_secret c) (session_id c).
Definition set_shared_secret (v : option bytes) (c : t) : t :=
  Channel (kem_keys c) (sig_keys c) v (session_id c).
Definition set_session_id (v : option string) (c : t) : t :=
  Channel (kem_keys c) (sig_keys c) (shared_secret c) v.

Definition __init__ : t := Channel None None None None.

Definition init_server : prog (t * world) dict :=
  kk ← call QuantumKEM.keygen;
  assign (set_kem_keys (Some kk));;
  sk ← call QuantumSignature.keygen;
  assign (set_sig_keys (Some sk));;
  sid ← call (os.urandom 16);
  assign (set_session_id (Some (base64.b64encode sid)));;
  c ← self;
  public_key ← lift (subscript (kem_keys c) "public_key");
  verify_key ← lift (subscript (sig_keys c) "verify_key");
  mret ({[ "public_key" := public_key;
           "verify_key" := verify_key;
           "session_id" := opt_str (session_id c);
           "algorithm" := PStr QuantumKEM.ALGORITHM ]} : dict).

Definition init_client (server_public_key : pyval)
    : prog (t * world) dict :=
  r ← call (QuantumKEM.encapsulate server_public_key);
  let ciphertext := r.1 in
  assign (set_shared_secret (Some r.2));;
  sid ← call (os.urandom 16);
  assign (set_session_id (Some (base64.b64encode sid)));;
  c ← self;
  mret ({[ "ciphertext" := PStr ciphertext;
           "session_id" := opt_str (session_id c) ]} : dict).

Definition complete_handshake (ciphertext : pyval)
    : prog (t * world) unit :=
  c ← self;
  private_key ← lift (subscript (kem_keys c) "private_key");
  ss ← lift (QuantumKEM.decapsulate private_key ciphertext);
  assign (set_shared_secret (Some ss)).

(** [not self.shared_secret]: the attribute is [None] or empty. *)
Definition no_secret (c : t) : bool :=
  match shared_secret c with
  | Some (_ :: _) => false
  | _ => true
  end.

Definition the_secret (c : t) : bytes := default [] (shared_secret c).

(** [if self.sig_keys:], false on [None] and on an empty dictionary. *)
Definition has_sig_keys (c : t) : bool :=
  match sig_keys c with
  | Some d => truthy (PDict d)
  | None => false
  end.

Definition encrypt_patient_data `{Json} (data : pyval)
    : prog (t * world) dict :=
  c ← self;
  if no_secret c then raise (RuntimeError "Handshake not completed")
  else
    plaintext ← lift (dumps_utf8 data);
    c ← self;
    encrypted ← call (QuantumCipher.encrypt plaintext (the_secret c));
    c ← self;
    signature ←
      (if has_sig_keys c then
         c ← self;
         signing_key ← lift (subscript (sig_keys c) "signing_key");
         sg ← lift (QuantumSignature.sign plaintext signing_key);
         mret (PStr sg)
       else mret PNone);
    c ← self;
    mret ({[ "encrypted" := PDict encrypted;
             "signature" := signature;
             "session_id" := opt_str (session_id c);
             "data_type" := PStr "patient_monitoring";
             "pqc_version" := PStr "1.0" ]} : dict).

(** Returns the decoded payload, or [PNone] when authentication
    fails. *)
Definition decrypt_patient_data `{Json} (envelope : dict)
    : prog (t * world) pyval :=
  c ← self;
  if no_secret c then raise (RuntimeError "Handshake not completed")
  else
    encrypted ← lift (getitem (PDict envelope) "encrypted");
    c ← self;
    plaintext ← call (QuantumCipher.decrypt encrypted (the_secret c));
    match plaintext with
    | None => mret PNone
    | Some plaintext => lift (loads_utf8 plaintext)
    end.

End SecureChannel.

(* ===================================================================== *)
(** ** The simulator: one-qubit circuits of X, H and a measurement *)
(* ===================================================================== *)

Inductive gate : Type := GX | GH | GMeasure.

(** A [QuantumCircuit(1, 1)]: its instructions in the order appended. *)
Abbreviation circuit := (list gate).

(** The states such a circuit reaches from [|0>], up to a global phase. *)
Inductive qstate : Type := Q0 | Q1 | Qplus | Qminus.

Module aer.

Definition apply_x (q : qstate) : qstate :=
  match q with
  | Q0 => Q1
  | Q1 => Q0
  | Qplus => Qplus
  | Qminus => Qminus
  end.

Definition apply_h (q : qstate) : qstate :=
  match q with
  | Q0 => Qplus
  | Q1 => Qminus
  | Qplus => Q0
  | Qminus => Q1
  end.

Definition next_shot : prog world bool :=
  fun w => (Ok (hd false (shots w)), set_shots (tl (shots w)) w).

(** Runs the instructions on state [q] with classical bit [creg].  A
    measurement of [|0>] or [|1>] is certain; on [|+>] and [|->] the
    outcome is the simulator's to choose. *)
Fixpoint run_from (qc : circuit) (q : qstate) (creg : bool)
    : prog world bool :=
  match qc with
  | [] => mret creg
  | GX :: qc' => run_from qc' (apply_x q) creg
  | GH :: qc' => run_from qc' (apply_h q) creg
  | GMeasure :: qc' =>
      match q with
      | Q0 => run_from qc' Q0 false
      | Q1 => run_from qc' Q1 true
      | _ =>
          o ← next_shot;
          run_from qc' (if o : bool then Q1 else Q0) o
      end
  end.

(** [int(list(backend.run(transpile(qc, backend), shots=1).result()
    .get_counts().keys())[0])]: the bit read in one shot. *)
Definition measured_bit (qc : circuit) : prog world bool :=
  run_from qc Q0 false.

End aer.

(* ===================================================================== *)
(** ** [bb84_qkd.py] *)
(* ===================================================================== *)

(** The basis names ["Z"] and ["X"]. *)
Inductive basis : Type := Zbasis | Xbasis.

Definition basis_eqb (x y : basis) : bool :=
  match x, y with
  | Zbasis, Zbasis | Xbasis, Xbasis => true
  | _, _ => false
  end.

(** A key bit, the integer 0 or 1. *)
Abbreviation bit := bool.

(** [seq[i]] on a list: [IndexError] out of range. *)
Definition index {A} (l : list A) (i : nat) : result A :=
  match l !! i with
  | Some x => Ok x
  | None => Raise IndexError
  end.

(** [range(n)] for an integer [n], empty when [n <= 0]. *)
Definition range (n : Z) : list nat := seq 0 (Z.to_nat n).

(** [[f(x) for x in l]] for an effectful [f]. *)
Fixpoint for_each {St A B} (f : A -> prog St B) (l : list A)
    : prog St (list B) :=
  match l with
  | [] => mret []
  | x :: l' => y ← f x; ys ← for_each f l'; mret (y :: ys)
  end.

(** [for x in l: body(x)]. *)
Fixpoint for_loop {St A} (body : A -> prog St unit) (l : list A)
    : prog St unit :=
  match l with
  | [] => mret tt
  | x :: l' => body x;; for_loop body l'
  end.

Module BB84KeyExchange.

Record t : Type := BB84 {
  n_qubits : Z;
  noise_prob : float;
  alice_bits : list bit;
  alice_bases : list basis;
  bob_bases : list basis;
  bob_results : list bit;
  sifted_key : list bit;
  final_key : option bytes;
  error_rate : float;
  eavesdropper_detected : bool
}.

Definition set_alice_bits (v : list bit) (o : t) : t :=
  BB84 (n_qubits o) (noise_prob o) v (alice_bases o) (bob_bases o)
    (bob_results o) (sifted_key o) (final_key o) (error_rate o)
    (eavesdropper_detected o).
Definition set_alice_bases (v : list basis) (o : t) : t :=
  BB84 (n_qubits o) (noise_prob o) (alice_bits o) v (bob_bases o)
    (bob_results o) (sifted_key o) (final_key o) (error_rate o)
    (eavesdropper_detected o).
Definition set_bob_bases (v : list basis) (o : t) : t :=
  BB84 (n_qubits o) (noise_prob o) (alice_bits o) (alice_bases o) v
    (bob_results o) (sifted_key o) (final_key o) (error_rate o)
    (eavesdropper_detected o).
Definition set_bob_results (v : list bit) (o : t) : t :=
  BB84 (n_qubits o) (noise_prob o) (alice_bits o) (alice_bases o)
    (bob_bases o) v (sifted_key o) (final_key o) (error_rate o)
    (eavesdropper_detected o).
Definition set_sifted_key (v : list bit) (o : t) : t :=
  BB84 (n_qubits o) (noise_prob o) (alice_bits o) (alice_bases o)
    (bob_bases o) (bob_results o) v (final_key o) (error_rate o)
    (eavesdropper_detected o).
Definition set_final_key (v : option bytes) (o : t) : t :=
  BB84 (n_qubits o) (noise_prob o) (alice_bits o) (alice_bases o)
    (bob_bases o) (bob_results o) (sifted_key o) v (error_rate o)
    (eavesdropper_detected o).
Definition set_error_rate (v : float) (o : t) : t :=
  BB84 (n_qubits o) (noise_prob o) (alice_bits o) (alice_bases o)
    (bob_bases o) (bob_results o) (sifted_key o) (final_key o) v
    (eavesdropper_detected o).
Definition set_eavesdropper_detected (v : bool) (o : t) : t :=
  BB84 (n_qubits o) (noise_prob o) (alice_bits o) (alice_bases o)
    (bob_bases o) (bob_results o) (sifted_key o) (final_key o)
    (error_rate o) v.

Definition __init__ (n_qubits : Z) (noise_probability : float)
    : prog world t :=
  mret (BB84 n_qubits noise_probability [] [] [] [] [] None
          pyfloat.zero false).

(** The circuit of one qubit of Alice, before the channel noise. *)
Definition encode (basis_i : basis) (bit_i : bit) : circuit :=
  match basis_i with
  | Zbasis => if bit_i then [GX] else []
  | Xbasis => if bit_i then [GX; GH] else [GH]
  end.

Definition alice_prepare : prog (t * world) (list circuit) :=
  o ← self;
  bits ← call (for_each (fun _ => random.randint_0_1) (range (n_qubits o)));
  assign (set_alice_bits bits);;
  o ← self;
  bases ← call (for_each (fun _ => random.choice Zbasis [Zbasis; Xbasis])
                  (range (n_qubits o)));
  assign (set_alice_bases bases);;
  o ← self;
  for_each
    (fun i =>
       o ← self;
       basis_i ← lift (index (alice_bases o) i);
       bit_i ← lift (index (alice_bits o) i);
       let qc := encode basis_i bit_i in
       o ← self;
       flip ←
         (if pyfloat.gtb (noise_prob o) pyfloat.zero then
            r ← call random.random;
            o ← self;
            mret (pyfloat.ltb r (noise_prob o))
          else mret false);
       mret (if flip : bool then qc ++ [GX] else qc))
    (range (n_qubits o)).

Definition bob_measure (circuits : list circuit)
    : prog (t * world) (list bit) :=
  o ← self;
  bases ← call (for_each (fun _ => random.choice Zbasis [Zbasis; Xbasis])
                  (range (n_qubits o)));
  assign (set_bob_bases bases);;
  assign (set_bob_results []);;
  o ← self;
  for_loop
    (fun i =>
       qc ← lift (index circuits i);
       o ← self;
       basis_i ← lift (index (bob_bases o) i);
       let qc := if basis_eqb basis_i Xbasis then qc ++ [GH] else qc in
       let qc := qc ++ [GMeasure] in
       measured_bit ← call (aer.measured_bit qc);
       assign (fun o => set_bob_results (bob_results o ++ [measured_bit]) o))
    (range (n_qubits o));;
  o ← self;
  mret (bob_results o).

(** The loop of [sift_keys], the two local lists as accumulators. *)
Fixpoint sift_loop (o : t) (idxs : list nat) (alice_sifted bob_sifted : list bit)
    : result (list bit * list bit) :=
  match idxs with
  | [] => Ok (alice_sifted, bob_sifted)
  | i :: idxs' =>
      a ← index (alice_bases o) i;
      c ← index (bob_bases o) i;
      if basis_eqb a c then
        x ← index (alice_bits o) i;
        y ← index (bob_results o) i;
        sift_loop o idxs' (alice_sifted ++ [x]) (bob_sifted ++ [y])
      else sift_loop o idxs' alice_sifted bob_sifted
  end.

Definition sift_keys : prog (t * world) (list bit * list bit) :=
  o ← self;
  r ← lift (sift_loop o (range (n_qubits o)) [] []);
  assign (set_sifted_key r.1);;
  mret r.

(** [sum(1 for i in indices if alice_sifted[i] != bob_sifted[i])]. *)
Fixpoint count_errors (alice_sifted bob_sifted : list bit)
    (indices : list nat) : result Z :=
  match indices with
  | [] => Ok 0%Z
  | i :: indices' =>
      a ← index alice_sifted i;
      c ← index bob_sifted i;
      rest ← count_errors alice_sifted bob_sifted indices';
      Ok (if negb (Bool.eqb a c) then (1 + rest)%Z else rest)
  end.

(** [[l[i] for i in range(len(l)) if i not in set(indices)]]. *)
Definition without (l : list bit) (indices : list nat) : list bit :=
  omap (fun i => if bool_decide (i ∈ indices) then None else l !! i)
    (seq 0 (length l)).

(** [max(1, int(n * fraction))]. *)
Definition sample_size_of (n : nat) (fraction : float) : result Z :=
  nf ← pyfloat.of_int (Z.of_nat n);
  k ← pyfloat.to_int (pyfloat.mul nf fraction);
  Ok (Z.max 1 k).

Definition estimate_error (alice_sifted bob_sifted : list bit)
    (sample_fraction : float) : prog (t * world) dict :=
  let n := length alice_sifted in
  sample_size ← lift (sample_size_of n sample_fraction);
  indices ← call (random.sample_range n sample_size);
  errors ← lift (count_errors alice_sifted bob_sifted indices);
  rate ← lift (if (0 <? sample_size)%Z
               then pyfloat.int_truediv errors sample_size
               else Ok pyfloat.zero);
  assign (set_error_rate rate);;
  o ← self;
  assign (set_eavesdropper_detected
            (pyfloat.gtb (error_rate o) pyfloat.lit_0_11));;
  let remaining := without alice_sifted indices in
  o ← self;
  mret ({[ "error_rate" := PFloat (pyfloat.round (error_rate o) 4);
           "sample_size" := PInt sample_size;
           "errors_found" := PInt errors;
           "eavesdropper_detected" := PBool (eavesdropper_detected o);
           "remaining_key_bits" := PInt (Z.of_nat (length remaining));
           "secure" := PBool (negb (eavesdropper_detected o)) ]} : dict).

(** ["".join(str(b) for b in key_bits).encode("utf-8")]. *)
Definition bit_string (key_bits : list bit) : bytes :=
  List.map (fun x : bit => if x then x31 else x30) key_bits.

Definition privacy_amplification (key_bits : list bit) (target_bytes : Z)
    : prog (t * world) bytes :=
  let raw_bytes := bit_string key_bits in
  assign (set_final_key
            (Some (hashlib.sha3_256 (raw_bytes ++ b "vitalguard_qkd_pa"))));;
  o ← self;
  mret (default [] (final_key o)).

(** The comprehension of step 5 in [run_protocol]: its condition draws
    a sample each time it is evaluated, once per index. *)
Fixpoint remaining_of (alice_sifted : list bit) (idxs : list nat)
    : prog world (list bit) :=
  match idxs with
  | [] => mret []
  | i :: idxs' =>
      k ← lift (sample_size_of (length alice_sifted) pyfloat.lit_0_2);
      drawn ← random.sample_range (length alice_sifted) k;
      if bool_decide (i ∈ drawn) then remaining_of alice_sifted idxs'
      else
        x ← lift (index alice_sifted i);
        rest ← remaining_of alice_sifted idxs';
        mret (x :: rest)
  end.

Definition run_protocol : prog (t * world) dict :=
  start ← call time.time;
  circuits ← alice_prepare;
  bob_measure circuits;;
  sifted ← sift_keys;
  let alice_sifted := sifted.1 in
  let bob_sifted := sifted.2 in
  error_info ← estimate_error alice_sifted bob_sifted pyfloat.lit_0_2;
  detected ← lift (getitem (PDict error_info) "eavesdropper_detected");
  final_key ←
    (if negb (truthy detected) then
       remaining ← call (remaining_of alice_sifted
                           (seq 0 (length alice_sifted)));
       k ← privacy_amplification remaining 32;
       mret (Some k)
     else mret None);
  stop ← call time.time;
  let elapsed := pyfloat.sub stop start in
  o ← self;
  sift_rate ← lift (pyfloat.int_truediv (Z.of_nat (length alice_sifted))
                      (n_qubits o));
  detected ← lift (getitem (PDict error_info) "eavesdropper_detected");
  let has_key := truthy (from_option PBytes PNone final_key) in
  o ← self;
  mret ({[ "protocol" := PStr "BB84";
           "n_qubits" := PInt (n_qubits o);
           "noise_probability" := PFloat (noise_prob o);
           "sifted_key_length" := PInt (Z.of_nat (length alice_sifted));
           "sift_rate" := PFloat (pyfloat.round sift_rate 4);
           "error_estimation" := PDict error_info;
           "final_key_hex" :=
             (if has_key then PStr (hex (default [] final_key)) else PNone);
           "final_key_bits" := PInt (if has_key then 256 else 0);
           "secure" := PBool (negb (truthy detected));
           "elapsed_sec" := PFloat (pyfloat.round elapsed 3) ]} : dict).

End BB84KeyExchange.

(** Runs methods on a local object, which is dropped at the end. *)
Definition with_object {S A} (o : S) (m : prog (S * world) A)
    : prog world A :=
  fun w => let '(r, sw) := m (o, w) in (r, sw.2).

(** [qkd_key_exchange(n_qubits, noise)]: the key, or [None]. *)
Definition qkd_key_exchange (n_qubits : Z) (noise : float)
    : prog world (option bytes) :=
  bb84 ← BB84KeyExchange.__init__ n_qubits noise;
  with_object bb84
    (result ← BB84KeyExchange.run_protocol;
     secure ← lift (getitem (PDict result) "secure");
     if truthy secure then
       key_hex ← lift (getitem (PDict result) "final_key_hex");
       if truthy key_hex then
         match key_hex with
         | PStr s => key ← lift (fromhex s); mret (Some key)
         | _ => raise TypeError
         end
       else mret None
     else mret None).

(** [EveInterceptor]: the intercept-resend attack. *)
Module EveInterceptor.

Record t : Type := Eve {
  intercepted_bits : list bit
}.

Definition __init__ : prog world t := mret (Eve []).

(** Eve measures each circuit in a basis of her choice and prepares a new
    qubit from what she read. *)
Definition intercept (circuits : list circuit)
    : prog (t * world) (list circuit) :=
  assign (fun _ => Eve []);;
  for_each
    (fun qc : circuit =>
       eve_basis ← call (random.choice Zbasis [Zbasis; Xbasis]);
       let measure_qc :=
         if basis_eqb eve_basis Xbasis then qc ++ [GH] else qc in
       let measure_qc := measure_qc ++ [GMeasure] in
       eve_bit ← call (aer.measured_bit measure_qc);
       assign (fun e => Eve (intercepted_bits e ++ [eve_bit]));;
       mret (match eve_basis with
             | Zbasis => if eve_bit : bool then [GX] else []
             | Xbasis => if eve_bit : bool then [GX; GH] else [GH]
             end))
    circuits.

End EveInterceptor.

(* ===================================================================== *)
(** ** [quantum_demo.py]: the functions on raw bytes *)
(* ===================================================================== *)

(** [seq[i] = v]: [IndexError] out of range. *)
Definition setitem {A} (l : list A) (i : nat) (v : A) : result (list A) :=
  if (i <? length l)%nat then Ok (<[i := v]> l) else Raise IndexError.

Module quantum_demo.

Fixpoint key_stream_loop (fuel : nat) (key nonce : bytes) (length : nat)
    (stream : bytes) (ctr : N) : prog world bytes :=
  if (List.length stream <? length)%nat then
    match fuel with
    | O => diverge
    | S fuel' =>
        packed ← lift (struct.pack_I_be ctr);
        let block := hashlib.sha3_256 (key ++ nonce ++ packed) in
        log_op (OpKeystreamBlock ctr);;
        key_stream_loop fuel' key nonce length (stream ++ block) (ctr + 1)
    end
  else mret (slice_to length stream).

Definition key_stream (key nonce : bytes) (length : nat) : prog world bytes :=
  key_stream_loop length key nonce length [] 0.

(** Returns [(nonce, ciphertext, tag)]. *)
Definition encrypt_aead (plaintext shared_secret : bytes)
    : prog world (bytes * bytes * bytes) :=
  let enc_key := hashlib.sha3_256 (shared_secret ++ b "enc_key") in
  let mac_key := hashlib.sha3_256 (shared_secret ++ b "mac_key") in
  nonce ← os.urandom 16;
  ks ← key_stream enc_key nonce (length plaintext);
  ciphertext ← QuantumCipher.xor_bytes plaintext ks;
  let tag := hmac.sha3_256 mac_key (nonce ++ ciphertext) in
  mret (nonce, ciphertext, tag).

Definition decrypt_aead (nonce ciphertext tag shared_secret : bytes)
    : prog world (option bytes) :=
  let enc_key := hashlib.sha3_256 (shared_secret ++ b "enc_key") in
  let mac_key := hashlib.sha3_256 (shared_secret ++ b "mac_key") in
  let expected := hmac.sha3_256 mac_key (nonce ++ ciphertext) in
  if negb (hmac.compare_digest tag expected) then mret None
  else
    ks ← key_stream enc_key nonce (length ciphertext);
    plaintext ← QuantumCipher.xor_bytes ciphertext ks;
    mret (Some plaintext).

(** Returns [(sk, pk)]. *)
Definition kyber_keygen : prog world (bytes * bytes) :=
  sk ← os.urandom 64;
  let pk := hashlib.sha3_512 (sk ++ b "kyber_public") in
  mret (sk, pk).

(** Returns [(ct, ss)]. *)
Definition kyber_encap (pk : bytes) : prog world (bytes * bytes) :=
  eph ← os.urandom 32;
  let ss := hashlib.sha3_256 (pk ++ eph ++ b "kyber_shared_secret") in
  let ct := hashlib.sha3_512 (pk ++ eph ++ b "kyber_ciphertext") ++ eph in
  mret (ct, ss).

Definition kyber_decap (sk ct : bytes) : bytes :=
  let eph := slice_from 64 ct in
  let pk := hashlib.sha3_512 (sk ++ b "kyber_public") in
  hashlib.sha3_256 (pk ++ eph ++ b "kyber_shared_secret").

(** The loop of Eve in [bb84_sim]: where her basis differs from Alice's
    the transmitted bit is replaced by a random one. *)
Fixpoint eve_loop (e_bases a_bases : list basis) (idxs : list nat)
    (tx : list bit) : prog world (list bit) :=
  match idxs with
  | [] => mret tx
  | i :: idxs' =>
      e ← lift (index e_bases i);
      a ← lift (index a_bases i);
      if negb (basis_eqb e a) then
        r ← random.randint_0_1;
        tx' ← lift (setitem tx i r);
        eve_loop e_bases a_bases idxs' tx'
      else eve_loop e_bases a_bases idxs' tx
  end.

(** The sifting loop of [bb84_sim]. *)
Fixpoint sift (a_bases b_bases : list basis) (a_bits b_bits : list bit)
    (idxs : list nat) (sA sB : list bit) : result (list bit * list bit) :=
  match idxs with
  | [] => Ok (sA, sB)
  | i :: idxs' =>
      a ← index a_bases i;
      c ← index b_bases i;
      if basis_eqb a c then
        x ← index a_bits i;
        y ← index b_bits i;
        sift a_bases b_bases a_bits b_bits idxs' (sA ++ [x]) (sB ++ [y])
      else sift a_bases b_bases a_bits b_bits idxs' sA sB
  end.

(** Returns [(qber, key, len(sA), len(rem))]. *)
Definition bb84_sim (n : Z) (eve : bool)
    : prog world (float * bytes * nat * nat) :=
  a_bits ← for_each (fun _ => random.randint_0_1) (range n);
  a_bases ← for_each (fun _ => random.choice Zbasis [Zbasis; Xbasis])
              (range n);
  tx ←
    (if eve then
       e_bases ← for_each (fun _ => random.choice Zbasis [Zbasis; Xbasis])
                   (range n);
       eve_loop e_bases a_bases (range n) a_bits
     else mret a_bits);
  b_bases ← for_each (fun _ => random.choice Zbasis [Zbasis; Xbasis])
              (range n);
  b_bits ←
    for_each
      (fun i =>
         c ← lift (index b_bases i);
         a ← lift (index a_bases i);
         if basis_eqb c a then lift (index tx i) else random.randint_0_1)
      (range n);
  s ← lift (sift a_bases b_bases a_bits b_bits (range n) [] []);
  let sA := s.1 in
  let sB := s.2 in
  ss ← lift (BB84KeyExchange.sample_size_of (length sA) pyfloat.lit_0_2);
  idx ← random.sample_range (length sA) ss;
  errs ← lift (BB84KeyExchange.count_errors sA sB idx);
  qber ← lift (pyfloat.int_truediv errs ss);
  let rem := BB84KeyExchange.without sA idx in
  let key :=
    hashlib.sha3_256 (BB84KeyExchange.bit_string rem ++ b "vitalguard") in
  mret (qber, key, length sA, length rem).

End quantum_demo.

(* ===================================================================== *)
(** ** Concrete inputs, for the examples *)
(* ===================================================================== *)

(** A codec for the JSON literals [null], [true] and [false]; it refuses
    every other object and text, and stands in for [json] where a run
    needs one and the payload is one of the three. *)
#[local] Instance literal_json : Json := {|
  dumps_utf8 v :=
    match v with
    | PNone => Ok (b "null")
    | PBool true => Ok (b "true")
    | PBool false => Ok (b "false")
    | _ => Raise TypeError
    end;
  loads_utf8 bs :=
    if hmac.bytes_eqb bs (b "null") then Ok PNone
    else if hmac.bytes_eqb bs (b "true") then Ok (PBool true)
    else if hmac.bytes_eqb bs (b "false") then Ok (PBool false)
    else Raise JSONDecodeError
|}.

(** A private key as [keygen] encodes it: the Base64 of 64 zero bytes. *)
Definition zero_seed_b64 : string := base64.b64encode (repeat x00 64).

(** A 32-byte shared secret. *)
Definition secret_B : bytes := repeat x42 32.

(** A world with 200 bytes of entropy [A] and the clock at 1700000000.5
    seconds. *)
Definition world_A : world :=
  World (repeat x41 200) []  []
    [Reading (S754_finite false 7130316802097152 (-22)) eq_refl] [].

(** The envelope [encrypt] makes of [b"hello"] under [secret_B] with the
    nonce of [world_A], and the same with the first byte of the MAC
    changed. *)
Definition hello_encrypted : dict :=
  {[ "ciphertext" := PStr "oU1HyP8=";
     "nonce" := PStr "QUFBQUFBQUFBQUFBQUFBQQ==";
     "mac" := PStr "Ogx950VKbEpL/ZZS3/nh5iOLHnsL0HRdLeDo8wCv03U=";
     "timestamp" := PInt 1700000000;
     "algorithm" := PStr "VitalGuard-AE-SHA3-256" ]}.

Definition hello_tampered : dict :=
  <["mac" := PStr "Owx950VKbEpL/ZZS3/nh5iOLHnsL0HRdLeDo8wCv03U="]>
    hello_encrypted.

(** A world for a run of four qubits: the draws give Alice the bits
    [1, 0, 1, 1] in the bases [Z, X, Z, X] and Bob the bases
    [Z, X, X, X]; the one undetermined measurement (qubit 2) yields 1.
    The remaining draws are those of the samples. *)
Definition qkd_world : world :=
  World []
    [1; 0; 1; 1;  0; 1; 0; 1;  0; 1; 1; 1;  0;  1; 0; 0]%N
    [true]
    [Reading (S754_finite false 7130316802097152 (-22)) eq_refl;
     Reading (S754_finite false 7130316805242880 (-22)) eq_refl]
    [].

(** A world for a run of one qubit over a noisy channel: Alice sends bit
    1 in basis [Z], [random.random()] returns 0.0 and the qubit is
    flipped, Bob measures in basis [Z] and reads 0. *)
Definition noisy_world : world :=
  World [] [1; 0; 0; 0; 0]%N []
    [Reading (S754_finite false 7130316802097152 (-22)) eq_refl;
     Reading (S754_finite false 7130316805242880 (-22)) eq_refl]
    [].

(** A noise probability of one half. *)
Definition one_half : float := S754_finite false 4503599627370496 (-53).

(** The steps of [run_protocol] up to and including the sifting. *)
Definition run_until_sifted
    : prog (BB84KeyExchange.t * world) (list bit * list bit) :=
  start ← call time.time;
  circuits ← BB84KeyExchange.alice_prepare;
  BB84KeyExchange.bob_measure circuits;;
  BB84KeyExchange.sift_keys.

(* ===================================================================== *)
(** ** Vocabulary of the properties *)
(* ===================================================================== *)

(** The three binary fields of an encrypted record, decoded. *)
Definition envelope_fields (encrypted : pyval) (ciphertext nonce mac : bytes)
    : Prop :=
  QuantumCipher.field encrypted "ciphertext" = Ok ciphertext
  /\ QuantumCipher.field encrypted "nonce" = Ok nonce
  /\ QuantumCipher.field encrypted "mac" = Ok mac.

(** The MAC [decrypt] expects for a ciphertext and nonce under a shared
    secret. *)
Definition expected_mac (shared_secret nonce ciphertext : bytes) : bytes :=
  hmac.sha3_256 (hashlib.sha3_256 (shared_secret ++ b "mac_key"))
    (nonce ++ ciphertext).

(** A method leaves the part [proj] of its object as it was, whatever the
    outcome. *)
Definition frames {S T A} (proj : S -> T) (m : prog (S * world) A) : Prop :=
  forall s w, proj (m (s, w)).2.1 = proj s.

(** The verdict agrees with the error rate: [eavesdropper_detected] is
    [error_rate > 0.11]. *)
Definition verdict_ok (o : BB84KeyExchange.t) : Prop :=
  BB84KeyExchange.eavesdropper_detected o
  = pyfloat.gtb (BB84KeyExchange.error_rate o) pyfloat.lit_0_11.

(** The fields the verdict is read from, and the qubit count. *)
Definition verdict_fields (o : BB84KeyExchange.t) : Z * float * bool :=
  (BB84KeyExchange.n_qubits o, BB84KeyExchange.error_rate o,
   BB84KeyExchange.eavesdropper_detected o).

(** What a run of the protocol guarantees, from object [o] to object [o']
    with outcome [r]. *)
Definition run_post (o : BB84KeyExchange.t) (r : result dict)
    (o' : BB84KeyExchange.t) : Prop :=
  verdict_ok o'
  /\ (forall d, r = Ok d ->
        d !! "secure"
        = Some (PBool (negb (BB84KeyExchange.eavesdropper_detected o')))
        /\ (BB84KeyExchange.eavesdropper_detected o' = true ->
            d !! "final_key_hex" = Some PNone
            /\ d !! "final_key_bits" = Some (PInt 0)))
  /\ (BB84KeyExchange.eavesdropper_detected o' = true ->
      BB84KeyExchange.eavesdropper_detected o = false ->
      exists d, r = Ok d).

(** The first [n] blocks of the key stream from block [counter] on. *)
Fixpoint key_stream_blocks (key nonce : bytes) (n : nat) (counter : N)
    : bytes :=
  match n with
  | O => []
  | S n' =>
      hashlib.sha3_256 (key ++ nonce ++ struct.be32 counter)
      ++ key_stream_blocks key nonce n' (counter + 1)
  end.

(** What the two handshake messages, both sent in the clear, determine. *)
Definition secret_from_transcript (public_key_b64 ciphertext_b64 : pyval)
    : result bytes :=
  public_key ← base64.b64decode public_key_b64;
  ct_raw ← base64.b64decode ciphertext_b64;
  Ok (hashlib.sha3_256
        (public_key ++ slice_from 64 ct_raw ++ b "kyber_shared_secret")).

(** The circuit Bob runs on a received qubit: a Hadamard gate before the
    measurement when his basis is [X]. *)
Definition bob_circuit (basis_i : basis) (qc : circuit) : circuit :=
  (if basis_eqb basis_i Xbasis then qc ++ [GH] else qc) ++ [GMeasure].

(** The qubit Bob receives: Alice's encoding, with an X gate appended
    when the channel flipped it. *)
Definition sent (basis_i : basis) (bit_i : bit) (flipped : bool) : circuit :=
  if flipped then BB84KeyExchange.encode basis_i bit_i ++ [GX] else BB84KeyExchange.encode basis_i bit_i.

(** The steps of [bb84_sim] up to and including the sifting: the two
    lists [sA] and [sB]. *)
Definition bb84_sim_until_sifted (n : Z) (eve : bool)
    : prog world (list bit * list bit) :=
  a_bits ← for_each (fun _ => random.randint_0_1) (range n);
  a_bases ← for_each (fun _ => random.choice Zbasis [Zbasis; Xbasis])
              (range n);
  tx ←
    (if eve then
       e_bases ← for_each (fun _ => random.choice Zbasis [Zbasis; Xbasis])
                   (range n);
       quantum_demo.eve_loop e_bases a_bases (range n) a_bits
     else mret a_bits);
  b_bases ← for_each (fun _ => random.choice Zbasis [Zbasis; Xbasis])
              (range n);
  b_bits ←
    for_each
      (fun i =>
         c ← lift (index b_bases i);
         a ← lift (index a_bases i);
         if basis_eqb c a then lift (index tx i) else random.randint_0_1)
      (range n);
  lift (quantum_demo.sift a_bases b_bases a_bits b_bits (range n) [] []).

(* ===================================================================== *)
(** * Properties *)
(* ===================================================================== *)

(** ** The library models against the interpreter

    Values computed by CPython 3.11 for the same calls. *)

Example sha3_256_empty :
  hex (hashlib.sha3_256 [])
  = "a7ffc6f8bf1ed76651c14756a061d662f580ff4de43b49fa82d80a4b80f8434a".
Proof. vm_compute. reflexivity. Qed.

Example sha3_512_abc :
  hex (hashlib.sha3_512 (b "abc"))
  = "b751850b1a57168a5693cd924b6b096e08f621827444f70d884f5d0240d2712e10e116e9192af3c91a7ec57647e3934057340b4cf408d5a56592f8274eec53f0".
Proof. vm_compute. reflexivity. Qed.

Example sha3_256_three_blocks :
  hex (hashlib.sha3_256 (repeat x61 300))
  = "8a5720b2ca0cae7b89ad399c5daab22c29f5c72bcf30ab81e807d9bda95b4580".
Proof. vm_compute. reflexivity. Qed.

Example hmac_sha3_256_fox :
  hex (hmac.sha3_256 (b "key") (b "The quick brown fox"))
  = "f7005cd351f68062dae84960737be699fae731135019ae6455f44ad4b874fe67".
Proof. vm_compute. reflexivity. Qed.

Example hmac_sha3_512_long_key :
  hex (hmac.sha3_512 (repeat x62 100) (b "The quick brown fox"))
  = "9763ad7dc606a75a75548896a9619397ff6768b25cba59959948ccf9cb10a25bfa347d7d8358b0364114d25b42cb3ab4622f567cfbb7b98ca0a5df7e2aa40ce3".
Proof. vm_compute. reflexivity. Qed.

Example b64_examples :
  base64.b64encode (b "hello world!!") = "aGVsbG8gd29ybGQhIQ=="
  /\ base64.b64decode (PStr "aGVsbG8gd29ybGQhIQ==") = Ok (b "hello world!!")
  /\ base64.b64decode (PStr "AAA=") = Ok [x00; x00]
  /\ base64.b64decode (PStr "A") = Raise BinasciiError
  /\ base64.b64decode (PStr "AA=") = Raise BinasciiError
  /\ base64.b64decode (PStr "====") = Ok []
  /\ base64.b64decode PNone = Raise TypeError.
Proof. vm_compute. auto 10. Qed.

Example float_examples :
  pyfloat.int_truediv 11 100 = Ok pyfloat.lit_0_11
  /\ pyfloat.int_truediv 1 5 = Ok pyfloat.lit_0_2
  /\ BB84KeyExchange.sample_size_of 15 pyfloat.lit_0_2 = Ok 3%Z
  /\ BB84KeyExchange.sample_size_of 4 pyfloat.lit_0_2 = Ok 1%Z
  /\ pyfloat.round (S754_finite false 6004799503160661 (-54)) 4
     = S754_finite false 6004199023210345 (-54)
  /\ pyfloat.gtb pyfloat.lit_0_11 pyfloat.lit_0_11 = false
  /\ struct.pack_I_be 258 = Ok [x00; x00; x01; x02]
  /\ fromhex "00ff 1a" = Ok [x00; xff; x1a].
Proof. vm_compute. auto 10. Qed.

(** ** Bytes and byte-wise XOR *)

Lemma in_range256 (n : N) : (n < 256)%N -> In n range256.
Proof.
  intros Hn. unfold range256.
  apply in_map_iff. exists (N.to_nat n). split.
  - apply N2Nat.id.
  - apply in_seq. lia.
Qed.

(** A check that passes on all byte values holds of each. *)
Lemma forall_range256 (P : N -> bool) :
  forallb P range256 = true -> forall n, (n < 256)%N -> P n = true.
Proof.
  intros H n Hn. rewrite forallb_forall in H. apply H, in_range256, Hn.
Qed.

Lemma to_N_lt_256 (x : byte) : (Byte.to_N x < 256)%N.
Proof. pose proof (Byte.to_N_bounded x). lia. Qed.

Lemma byte_of_to_N (x : byte) : byte_of_N (Byte.to_N x) = x.
Proof.
  unfold byte_of_N. rewrite N.mod_small by apply to_N_lt_256.
  now rewrite Byte.of_to_N.
Qed.

Lemma to_N_byte_of_N (n : N) : (n < 256)%N -> Byte.to_N (byte_of_N n) = n.
Proof.
  intros Hn. unfold byte_of_N. rewrite N.mod_small by exact Hn.
  destruct (Byte.of_N n) as [x|] eqn:E.
  - now apply Byte.to_of_N.
  - apply Byte.of_N_None_iff in E. lia.
Qed.

(** A check on pairs of byte values. *)
Lemma forall_range256_2 (P : N -> N -> bool) :
  forallb (fun m => forallb (P m) range256) range256 = true ->
  forall m n, (m < 256)%N -> (n < 256)%N -> P m n = true.
Proof.
  intros H m n Hm Hn.
  apply (forall_range256 (P m)); [|exact Hn].
  apply (forall_range256 (fun m => forallb (P m) range256) H m Hm).
Qed.

Lemma lxor_lt_256 (m n : N) :
  (m < 256)%N -> (n < 256)%N -> (N.lxor m n < 256)%N.
Proof.
  intros Hm Hn. apply N.ltb_lt.
  apply (forall_range256_2 (fun m n => (N.lxor m n <? 256)%N));
    [vm_compute; reflexivity|exact Hm|exact Hn].
Qed.

(** XOR with the same byte twice gives the byte back. *)
Lemma byte_xor_cancel (a k : byte) : byte_xor (byte_xor a k) k = a.
Proof.
  unfold byte_xor.
  rewrite to_N_byte_of_N
    by (apply lxor_lt_256; apply to_N_lt_256).
  rewrite N.lxor_assoc, N.lxor_nilpotent, N.lxor_0_r.
  apply byte_of_to_N.
Qed.

Lemma xor_zip_length (xs ys : bytes) :
  length (xor_zip xs ys) = Nat.min (length xs) (length ys).
Proof.
  revert ys. induction xs as [|x xs IH]; intros [|y ys]; simpl; auto.
Qed.

Lemma xor_zip_cancel (xs ks : bytes) :
  length xs = length ks -> xor_zip (xor_zip xs ks) ks = xs.
Proof.
  revert ks. induction xs as [|x xs IH]; intros [|k ks] Hlen;
    simpl in *; try discriminate; auto.
  rewrite byte_xor_cancel. f_equal. apply IH. lia.
Qed.

Lemma bytes_eqb_eq (xs ys : bytes) : hmac.bytes_eqb xs ys = true <-> xs = ys.
Proof.
  revert ys. induction xs as [|x xs IH]; intros [|y ys]; simpl;
    try (split; [discriminate|congruence]); try tauto.
  rewrite andb_true_iff, IH. split.
  - intros [Hx ->]. f_equal. now apply Byte.byte_dec_bl.
  - intros [= -> ->]. split; [now apply Byte.byte_dec_lb|reflexivity].
Qed.

Lemma compare_digest_refl (xs : bytes) : hmac.compare_digest xs xs = true.
Proof. now apply bytes_eqb_eq. Qed.

Lemma compare_digest_neq (xs ys : bytes) :
  xs <> ys -> hmac.compare_digest xs ys = false.
Proof.
  intros Hne. destruct (hmac.compare_digest xs ys) eqn:E; [|reflexivity].
  apply bytes_eqb_eq in E. contradiction.
Qed.

(** ** Base64: decoding an encoding gives the bytes back *)

Section Base64.
Import base64.

Lemma b2a_spec (i : N) :
  (i < 64)%N ->
  a2b (b2a i) = Some i /\ Ascii.eqb (b2a i) "="%char = false
  /\ is_ascii (b2a i) = true.
Proof.
  intros Hi.
  pose (P := fun i : N =>
    (64 <=? i)%N
    || (match a2b (b2a i) with Some j => N.eqb j i | None => false end
        && negb (Ascii.eqb (b2a i) "="%char) && is_ascii (b2a i))).
  assert (H : P i = true).
  { apply (forall_range256 P); [vm_compute; reflexivity|lia]. }
  unfold P in H. apply orb_true_iff in H as [H|H].
  { apply N.leb_le in H. lia. }
  apply andb_true_iff in H as [H H3]. apply andb_true_iff in H as [H1 H2].
  destruct (a2b (b2a i)) as [j|]; [|discriminate].
  apply N.eqb_eq in H1. subst j.
  apply negb_true_iff in H2. auto.
Qed.

Lemma group_check_ok (n0 n1 : N) :
  (n0 < 256)%N -> (n1 < 256)%N -> group_check n0 n1 = true.
Proof.
  apply (forall_range256_2 group_check). vm_compute. reflexivity.
Qed.

Lemma group_facts (n0 n1 : N) :
  (n0 < 256)%N -> (n1 < 256)%N ->
  (sextet0 n0 < 64)%N /\ (sextet1 n0 n1 < 64)%N
  /\ (sextet2 n0 n1 < 64)%N /\ (sextet3 n0 < 64)%N
  /\ N.lor (N.shiftl (sextet0 n0) 2) (N.shiftr (sextet1 n0 n1) 4) = n0
  /\ N.land (sextet1 n0 n1) 15 = N.shiftr n1 4
  /\ N.shiftr (sextet2 n0 n1) 2 = N.land n0 15
  /\ N.lor (N.shiftl (N.shiftr n0 4) 4) (N.land n0 15) = n0
  /\ N.land (sextet2 n0 n1) 3 = N.shiftr n1 6
  /\ N.lor (N.shiftl (N.shiftr n0 6) 6) (sextet3 n0) = n0.
Proof.
  intros H0 H1. pose proof (group_check_ok n0 n1 H0 H1) as H.
  unfold group_check in H.
  repeat (apply andb_true_iff in H as [H ?]).
  repeat match goal with
         | E : (_ <? _)%N = true |- _ => apply N.ltb_lt in E
         | E : N.eqb _ _ = true |- _ => apply N.eqb_eq in E
         end.
  tauto.
Qed.

Lemma a2b_base64_cons ch rest q l p out :
  a2b_base64 (ch :: rest) q l p out =
  if Ascii.eqb ch "="%char then
    if (2 <=? q)%N then
      if (4 <=? q + (p + 1))%N then Ok out
      else a2b_base64 rest q l (p + 1) out
    else a2b_base64 rest q l p out
  else
    match a2b ch with
    | None => a2b_base64 rest q l p out
    | Some v =>
        if (q =? 0)%N then a2b_base64 rest 1 v 0 out
        else if (q =? 1)%N then
          a2b_base64 rest 2 (N.land v 15) 0
            (out ++ [byte_of_N (N.lor (N.shiftl l 2) (N.shiftr v 4))])
        else if (q =? 2)%N then
          a2b_base64 rest 3 (N.land v 3) 0
            (out ++ [byte_of_N (N.lor (N.shiftl l 4) (N.shiftr v 2))])
        else
          a2b_base64 rest 0 0 0
            (out ++ [byte_of_N (N.lor (N.shiftl l 6) v)])
    end.
Proof. reflexivity. Qed.

(** One step of the decoder on a character of the alphabet. *)
Lemma a2b_base64_data i rest q l p out :
  (i < 64)%N ->
  a2b_base64 (b2a i :: rest) q l p out =
  if (q =? 0)%N then a2b_base64 rest 1 i 0 out
  else if (q =? 1)%N then
    a2b_base64 rest 2 (N.land i 15) 0
      (out ++ [byte_of_N (N.lor (N.shiftl l 2) (N.shiftr i 4))])
  else if (q =? 2)%N then
    a2b_base64 rest 3 (N.land i 3) 0
      (out ++ [byte_of_N (N.lor (N.shiftl l 4) (N.shiftr i 2))])
  else
    a2b_base64 rest 0 0 0 (out ++ [byte_of_N (N.lor (N.shiftl l 6) i)]).
Proof.
  intros Hi. destruct (b2a_spec i Hi) as (Ha & He & _).
  rewrite a2b_base64_cons, He, Ha. reflexivity.
Qed.

(** The first two characters of a group give back its first byte. *)
Lemma decode_first b0 n1 rest l p out :
  (n1 < 256)%N ->
  a2b_base64 (b2a (sextet0 (Byte.to_N b0))
              :: b2a (sextet1 (Byte.to_N b0) n1) :: rest) 0 l p out =
  a2b_base64 rest 2 (N.shiftr n1 4) 0 (out ++ [b0]).
Proof.
  intros H1.
  destruct (group_facts (Byte.to_N b0) n1 (to_N_lt_256 b0) H1)
    as (S0 & S1 & _ & _ & E0 & E1 & _).
  rewrite a2b_base64_data by exact S0. cbn [N.eqb].
  rewrite a2b_base64_data by exact S1. cbn [N.eqb Pos.eqb].
  now rewrite E0, E1, byte_of_to_N.
Qed.

(** The third character gives back the second byte. *)
Lemma decode_second b1 n2 rest p out :
  (n2 < 256)%N ->
  a2b_base64 (b2a (sextet2 (Byte.to_N b1) n2) :: rest) 2
    (N.shiftr (Byte.to_N b1) 4) p out =
  a2b_base64 rest 3 (N.shiftr n2 6) 0 (out ++ [b1]).
Proof.
  intros H2.
  destruct (group_facts (Byte.to_N b1) n2 (to_N_lt_256 b1) H2)
    as (_ & _ & S2 & _ & _ & _ & E2 & E3 & E4 & _).
  rewrite a2b_base64_data by exact S2. cbn [N.eqb Pos.eqb].
  now rewrite E2, E3, E4, byte_of_to_N.
Qed.

(** The fourth character gives back the third byte. *)
Lemma decode_third b2 rest p out :
  a2b_base64 (b2a (sextet3 (Byte.to_N b2)) :: rest) 3
    (N.shiftr (Byte.to_N b2) 6) p out =
  a2b_base64 rest 0 0 0 (out ++ [b2]).
Proof.
  destruct (group_facts (Byte.to_N b2) 0 (to_N_lt_256 b2) eq_refl)
    as (_ & _ & _ & S3 & _ & _ & _ & _ & _ & E5).
  rewrite a2b_base64_data by exact S3. cbn [N.eqb Pos.eqb].
  now rewrite E5, byte_of_to_N.
Qed.

(** Induction on a list three elements at a time. *)
Lemma list_ind3 {A} (P : list A -> Prop) :
  P [] -> (forall a, P [a]) -> (forall a c, P [a; c]) ->
  (forall a c d l, P l -> P (a :: c :: d :: l)) ->
  forall l, P l.
Proof.
  intros H0 H1 H2 H3 l.
  assert (H : P l /\ (forall a, P (a :: l)) /\ (forall a c, P (a :: c :: l))).
  { induction l as [|x l (IH0 & IH1 & IH2)]; auto. }
  apply H.
Qed.

Lemma a2b_b2a_base64 (bs : bytes) : forall l p out,
  a2b_base64 (b2a_base64 bs) 0 l p out = Ok (out ++ bs).
Proof.
  induction bs as [|b0|b0 b1|b0 b1 b2 rest IH] using list_ind3;
    intros l p out.
  - cbn. now rewrite app_nil_r.
  - cbn [b2a_base64].
    rewrite decode_first by reflexivity. reflexivity.
  - cbn [b2a_base64].
    rewrite decode_first by apply to_N_lt_256.
    rewrite decode_second by reflexivity.
    cbn. now rewrite <- app_assoc.
  - cbn [b2a_base64].
    rewrite decode_first by apply to_N_lt_256.
    rewrite decode_second by apply to_N_lt_256.
    rewrite decode_third, IH.
    now rewrite <- !app_assoc.
Qed.

Lemma b2a_base64_is_ascii (bs : bytes) :
  forallb is_ascii (b2a_base64 bs) = true.
Proof.
  assert (Hs : forall n0 n1, (n0 < 256)%N -> (n1 < 256)%N ->
            is_ascii (b2a (sextet0 n0)) = true
            /\ is_ascii (b2a (sextet1 n0 n1)) = true
            /\ is_ascii (b2a (sextet2 n0 n1)) = true
            /\ is_ascii (b2a (sextet3 n0)) = true).
  { intros n0 n1 H0 H1.
    destruct (group_facts n0 n1 H0 H1) as (S0 & S1 & S2 & S3 & _).
    repeat split; now apply b2a_spec. }
  induction bs as [|b0|b0 b1|b0 b1 b2 rest IH] using list_ind3.
  - reflexivity.
  - cbn [b2a_base64 forallb].
    destruct (Hs (Byte.to_N b0) 0%N (to_N_lt_256 b0) eq_refl)
      as (-> & -> & _).
    reflexivity.
  - cbn [b2a_base64 forallb].
    destruct (Hs (Byte.to_N b0) (Byte.to_N b1) (to_N_lt_256 _)
                (to_N_lt_256 _)) as (-> & -> & _).
    destruct (Hs (Byte.to_N b1) 0%N (to_N_lt_256 _) eq_refl)
      as (_ & _ & -> & _).
    reflexivity.
  - cbn [b2a_base64 forallb].
    destruct (Hs (Byte.to_N b0) (Byte.to_N b1) (to_N_lt_256 _)
                (to_N_lt_256 _)) as (-> & -> & _).
    destruct (Hs (Byte.to_N b1) (Byte.to_N b2) (to_N_lt_256 _)
                (to_N_lt_256 _)) as (_ & _ & -> & _).
    destruct (Hs (Byte.to_N b2) 0%N (to_N_lt_256 _) eq_refl)
      as (_ & _ & _ & ->).
    exact IH.
Qed.

(** [b64decode(b64encode(bs).decode()) == bs]. *)
Lemma b64decode_b64encode (bs : bytes) :
  b64decode (PStr (b64encode bs)) = Ok bs.
Proof.
  unfold b64decode, b64encode.
  rewrite list_ascii_of_string_of_list_ascii, b2a_base64_is_ascii.
  apply (a2b_b2a_base64 bs 0%N 0%N []).
Qed.

End Base64.

(** ** Digests, entropy, and the monad of effects *)

#[global] Arguments hashlib.sha3_256 : simpl never.
#[global] Arguments hashlib.sha3_512 : simpl never.
#[global] Arguments hmac.sha3_256 : simpl never.
#[global] Arguments hmac.sha3_512 : simpl never.
#[global] Arguments base64.b64encode : simpl never.
#[global] Arguments base64.b64decode : simpl never.

Lemma sha3_256_length (msg : bytes) : length (hashlib.sha3_256 msg) = 32%nat.
Proof.
  unfold hashlib.sha3_256, hashlib.sha3.
  now rewrite List.length_map, List.length_seq.
Qed.

Lemma sha3_512_length (msg : bytes) : length (hashlib.sha3_512 msg) = 64%nat.
Proof.
  unfold hashlib.sha3_512, hashlib.sha3.
  now rewrite List.length_map, List.length_seq.
Qed.

Lemma take_padded_length (n : nat) (tape : bytes) :
  length (os.take_padded n tape) = n.
Proof.
  revert tape. induction n as [|n IH]; intros [|x tape]; simpl; auto.
Qed.

(** Unfolds the plumbing of [prog]: binds, returns, lifts, method calls. *)
Ltac prog_unfold :=
  unfold mbind, mret, prog_bind, prog_ret, result_bind, result_ret,
    bind, ret, raise, diverge, lift, call, self, assign, with_object,
    log_op in *.

Ltac prog_simpl := prog_unfold; cbn beta iota zeta in *.

Lemma set_oplog_app_nil (w : world) : set_oplog (oplog w ++ []) w = w.
Proof. destruct w. unfold set_oplog. cbn. now rewrite app_nil_r. Qed.

Lemma set_oplog_twice (w : world) (l1 l2 : list op) :
  set_oplog (oplog (set_oplog (oplog w ++ l1) w) ++ l2)
    (set_oplog (oplog w ++ l1) w)
  = set_oplog (oplog w ++ l1 ++ l2) w.
Proof. destruct w. unfold set_oplog. cbn. now rewrite app_assoc. Qed.

(** ** The key stream *)

Lemma pack_I_be_ok (n : N) :
  (n < 4294967296)%N -> struct.pack_I_be n = Ok (struct.be32 n).
Proof.
  intros Hn. unfold struct.pack_I_be.
  apply N.ltb_lt in Hn. now rewrite Hn.
Qed.

Lemma pack_I_be_overflow (n : N) :
  (4294967296 <= n)%N -> struct.pack_I_be n = Raise StructError.
Proof.
  intros Hn. unfold struct.pack_I_be.
  apply N.ltb_ge in Hn. now rewrite Hn.
Qed.

Lemma key_stream_loop_unfold fuel key nonce len stream counter :
  QuantumCipher._key_stream_loop fuel key nonce len stream counter =
  if (length stream <? len)%nat then
    match fuel with
    | O => diverge
    | S fuel' =>
        packed ← lift (struct.pack_I_be counter);
        let block := hashlib.sha3_256 (key ++ nonce ++ packed) in
        log_op (OpKeystreamBlock counter);;
        QuantumCipher._key_stream_loop fuel' key nonce len (stream ++ block)
          (counter + 1)
    end
  else mret (slice_to len stream).
Proof. destruct fuel; reflexivity. Qed.

(** Within the range of the 32-bit counter the loop ends with a stream of
    exactly the length asked for; the stream depends on the key, the nonce
    and the length alone, and the world changes by the log of the blocks
    hashed. *)
Lemma key_stream_loop_ok key nonce len : forall k fuel stream counter,
  (k <= fuel)%nat ->
  (len <= length stream + 32 * k)%nat ->
  (counter + N.of_nat k <= 4294967296)%N ->
  exists ks log,
    length ks = len
    /\ forall w,
        QuantumCipher._key_stream_loop fuel key nonce len stream counter w
        = (Ok ks, set_oplog (oplog w ++ log) w).
Proof.
  induction k as [|k IH]; intros fuel stream counter Hfuel Hlen Hctr;
    rewrite key_stream_loop_unfold.
  - assert (E : (length stream <? len)%nat = false)
      by (apply Nat.ltb_ge; lia).
    rewrite E. exists (slice_to len stream), [].
    split; [unfold slice_to; rewrite length_take; lia|].
    intros w. prog_simpl. now rewrite set_oplog_app_nil.
  - destruct (length stream <? len)%nat eqn:E.
    + destruct fuel as [|fuel]; [lia|].
      rewrite pack_I_be_ok by lia.
      pose (block := hashlib.sha3_256 (key ++ nonce ++ struct.be32 counter)).
      destruct (IH fuel (stream ++ block) (counter + 1)%N) as (ks & log & Hks & Hrun).
      * lia.
      * rewrite length_app. subst block. rewrite sha3_256_length. lia.
      * lia.
      * exists ks, (OpKeystreamBlock counter :: log). split; [exact Hks|].
        intros w. prog_simpl. fold block. rewrite Hrun.
        now rewrite set_oplog_twice.
    + exists (slice_to len stream), [].
      apply Nat.ltb_ge in E.
      split; [unfold slice_to; rewrite length_take; lia|].
      intros w. prog_simpl. now rewrite set_oplog_app_nil.
Qed.

Lemma key_stream_ok key nonce len :
  (N.of_nat len <= 137438953472)%N ->
  exists ks log,
    length ks = len
    /\ forall w,
        QuantumCipher._key_stream key nonce len w
        = (Ok ks, set_oplog (oplog w ++ log) w).
Proof.
  intros Hlen. unfold QuantumCipher._key_stream.
  apply (key_stream_loop_ok key nonce len ((len + 31) / 32)).
  - pose proof (Nat.div_mod_eq (len + 31) 32).
    pose proof (Nat.mod_upper_bound (len + 31) 32). lia.
  - pose proof (Nat.div_mod_eq (len + 31) 32).
    pose proof (Nat.mod_upper_bound (len + 31) 32). cbn [length]. lia.
  - pose proof (Nat.div_mod_eq (len + 31) 32).
    pose proof (Nat.mod_upper_bound (len + 31) 32). lia.
Qed.

(** Past that range the counter no longer packs into four bytes and the
    loop raises [struct.error]. *)
Lemma key_stream_loop_overflow key nonce len : forall k fuel stream counter w,
  (k < fuel)%nat ->
  (length stream + 32 * k < len)%nat ->
  (counter + N.of_nat k = 4294967296)%N ->
  (QuantumCipher._key_stream_loop fuel key nonce len stream counter w).1
  = Raise StructError.
Proof.
  induction k as [|k IH]; intros fuel stream counter w Hfuel Hlen Hctr;
    rewrite key_stream_loop_unfold;
    (assert (E : (length stream <? len)%nat = true)
      by (apply Nat.ltb_lt; lia));
    rewrite E; (destruct fuel as [|fuel]; [lia|]).
  - rewrite pack_I_be_overflow by lia. reflexivity.
  - rewrite pack_I_be_ok by lia.
    pose (block := hashlib.sha3_256 (key ++ nonce ++ struct.be32 counter)).
    prog_simpl. fold block. apply IH.
    + lia.
    + rewrite length_app. subst block. rewrite sha3_256_length. lia.
    + lia.
Qed.

Lemma key_stream_overflow key nonce len w :
  (137438953472 < N.of_nat len)%N ->
  (QuantumCipher._key_stream key nonce len w).1 = Raise StructError.
Proof.
  intros Hlen. unfold QuantumCipher._key_stream.
  apply (key_stream_loop_overflow key nonce len (N.to_nat 4294967296)).
  - lia.
  - cbn [length]. lia.
  - lia.
Qed.

(** ** Key encapsulation *)

Lemma keygen_run (w : world) :
  QuantumKEM.keygen w =
  (Ok ({[ "public_key" :=
            PStr (base64.b64encode
                    (hashlib.sha3_512 (os.take_padded 64 (entropy w)
                                       ++ b "kyber_public")));
          "private_key" :=
            PStr (base64.b64encode (os.take_padded 64 (entropy w)));
          "algorithm" := PStr QuantumKEM.ALGORITHM ]} : dict),
   set_entropy (drop 64 (entropy w)) w).
Proof. reflexivity. Qed.

Lemma encapsulate_run (public_key : bytes) (w : world) :
  let ephemeral := os.take_padded 32 (entropy w) in
  QuantumKEM.encapsulate (PStr (base64.b64encode public_key)) w =
  (Ok (base64.b64encode
         (hashlib.sha3_512 (public_key ++ ephemeral ++ b "kyber_ciphertext")
          ++ ephemeral),
       hashlib.sha3_256 (public_key ++ ephemeral ++ b "kyber_shared_secret")),
   set_entropy (drop 32 (entropy w)) w).
Proof.
  intros ephemeral. unfold QuantumKEM.encapsulate. prog_simpl.
  now rewrite b64decode_b64encode.
Qed.

(** What [decapsulate] returns once its two arguments decode: the hash
    over whatever follows the 64th byte of the ciphertext. *)
Lemma decapsulate_run (private_key_b64 ciphertext_b64 : pyval)
    (private_seed ct_raw : bytes) :
  base64.b64decode private_key_b64 = Ok private_seed ->
  base64.b64decode ciphertext_b64 = Ok ct_raw ->
  QuantumKEM.decapsulate private_key_b64 ciphertext_b64 =
  Ok (hashlib.sha3_256
        (hashlib.sha3_512 (private_seed ++ b "kyber_public")
         ++ drop 64 ct_raw ++ b "kyber_shared_secret")).
Proof.
  intros Hk Hc. unfold QuantumKEM.decapsulate. prog_simpl.
  now rewrite Hk, Hc.
Qed.

Lemma decapsulate_encapsulated (private_seed ephemeral : bytes) :
  let public_key := hashlib.sha3_512 (private_seed ++ b "kyber_public") in
  QuantumKEM.decapsulate
    (PStr (base64.b64encode private_seed))
    (PStr (base64.b64encode
             (hashlib.sha3_512 (public_key ++ ephemeral ++ b "kyber_ciphertext")
              ++ ephemeral)))
  = Ok (hashlib.sha3_256 (public_key ++ ephemeral ++ b "kyber_shared_secret")).
Proof.
  intros public_key.
  erewrite decapsulate_run by apply b64decode_b64encode.
  now rewrite drop_app_length' by (symmetry; apply sha3_512_length).
Qed.

Lemma init_server_run (A0 : SecureChannel.t) (wa : world) :
  let private_seed := os.take_padded 64 (entropy wa) in
  exists (info kk sk : dict) sid wa1,
    SecureChannel.init_server (A0, wa) =
    (Ok info,
     (SecureChannel.Channel (Some kk) (Some sk)
        (SecureChannel.shared_secret A0) (Some sid), wa1))
    /\ info !! "public_key" =
       Some (PStr (base64.b64encode
                     (hashlib.sha3_512 (private_seed ++ b "kyber_public"))))
    /\ kk !! "private_key" = Some (PStr (base64.b64encode private_seed)).
Proof.
  intros private_seed. do 5 eexists.
  split; [reflexivity|]. split; reflexivity.
Qed.

Lemma init_client_run (public_key : bytes) (B0 : SecureChannel.t)
    (wb : world) :
  let ephemeral := os.take_padded 32 (entropy wb) in
  exists (resp : dict) sid wb1,
    SecureChannel.init_client (PStr (base64.b64encode public_key)) (B0, wb) =
    (Ok resp,
     (SecureChannel.Channel (SecureChannel.kem_keys B0)
        (SecureChannel.sig_keys B0)
        (Some (hashlib.sha3_256
                 (public_key ++ ephemeral ++ b "kyber_shared_secret")))
        (Some sid), wb1))
    /\ resp !! "ciphertext" =
       Some (PStr (base64.b64encode
                     (hashlib.sha3_512
                        (public_key ++ ephemeral ++ b "kyber_ciphertext")
                      ++ ephemeral))).
Proof.
  intros ephemeral. unfold SecureChannel.init_client. prog_simpl.
  rewrite encapsulate_run. do 3 eexists.
  split; reflexivity.
Qed.

Lemma complete_handshake_run (A1 : SecureChannel.t) (w : world)
    (kk : dict) (sk ct : pyval) (ss : bytes) :
  SecureChannel.kem_keys A1 = Some kk ->
  kk !! "private_key" = Some sk ->
  QuantumKEM.decapsulate sk ct = Ok ss ->
  SecureChannel.complete_handshake ct (A1, w) =
  (Ok tt, (SecureChannel.set_shared_secret (Some ss) A1, w)).
Proof.
  intros Hk Hsk Hd. unfold SecureChannel.complete_handshake. prog_simpl.
  unfold subscript, getitem. cbn [fst snd]. now rewrite Hk, Hsk, Hd.
Qed.

(** C1. KEM correctness.  For every key pair [keygen] produces (in any
    world [w]) and every ephemeral value [encapsulate] draws under its
    public key (in any world [w']), [decapsulate] with the private key
    returns, from the ciphertext of that call, the very shared secret the
    call returned.  Hence after [init_server] on A, [init_client] on B
    with A's public key and [complete_handshake] on A with B's ciphertext,
    the two channels hold the same shared secret. *)
Theorem kem_correctness :
  (forall w w' : world,
     exists (keys : dict) w1 pk sk ct ss w2,
       QuantumKEM.keygen w = (Ok keys, w1)
       /\ keys !! "public_key" = Some pk
       /\ keys !! "private_key" = Some sk
       /\ QuantumKEM.encapsulate pk w' = (Ok (ct, ss), w2)
       /\ QuantumKEM.decapsulate sk (PStr ct) = Ok ss)
  /\ (forall (A0 B0 : SecureChannel.t) (wa wb : world),
        exists (info resp : dict) A1 wa1 pk B1 wb1 ct A2 wa2 ss,
          SecureChannel.init_server (A0, wa) = (Ok info, (A1, wa1))
          /\ info !! "public_key" = Some pk
          /\ SecureChannel.init_client pk (B0, wb) = (Ok resp, (B1, wb1))
          /\ resp !! "ciphertext" = Some ct
          /\ SecureChannel.complete_handshake ct (A1, wa1)
             = (Ok tt, (A2, wa2))
          /\ SecureChannel.shared_secret A2 = Some ss
          /\ SecureChannel.shared_secret B1 = Some ss).
Proof.
  split.
  - intros w w'. rewrite keygen_run.
    do 2 eexists. eexists (PStr _), (PStr _). do 3 eexists.
    split; [reflexivity|].
    split; [reflexivity|].
    split; [reflexivity|].
    rewrite encapsulate_run.
    split; [reflexivity|].
    apply decapsulate_encapsulated.
  - intros A0 B0 wa wb.
    destruct (init_server_run A0 wa)
      as (info & kk & sk & sid & wa1 & HA & Hpk & Hsk).
    destruct (init_client_run
                (hashlib.sha3_512 (os.take_padded 64 (entropy wa)
                                   ++ b "kyber_public")) B0 wb)
      as (resp & sid' & wb1 & HB & Hct).
    do 11 eexists.
    split; [exact HA|]. split; [exact Hpk|].
    split; [exact HB|]. split; [exact Hct|].
    split.
    { eapply complete_handshake_run; [reflexivity|exact Hsk|].
      apply decapsulate_encapsulated. }
    split; reflexivity.
Qed.

(** C6, as the code behaves.  A ciphertext that decodes to fewer than 96
    bytes (here the 3 bytes [ABC]) is not rejected: [decapsulate] returns
    a 32-byte secret, computed with an empty ephemeral value. *)
Lemma decapsulate_accepts_short_ciphertext :
  base64.b64decode (PStr "QUJD") = Ok [x41; x42; x43]
  /\ QuantumKEM.decapsulate (PStr zero_seed_b64) (PStr "QUJD") =
     Ok (hashlib.sha3_256
           (hashlib.sha3_512 (repeat x00 64 ++ b "kyber_public")
            ++ b "kyber_shared_secret"))
  /\ rbind (QuantumKEM.decapsulate (PStr zero_seed_b64) (PStr "QUJD"))
       (fun ss => Ok (hex ss)) =
     Ok "9606f7d0c687492dedbede3a8613f8652d93f00799182687af33d81f4c44e068".
Proof. vm_compute. auto. Qed.

(** C6, amended.  [decapsulate] has no check on the length of the
    ciphertext.  Whenever its two arguments decode from Base64 it returns
    a 32-byte secret, the hash over whatever follows the 64th byte of the
    decoded ciphertext; when that has at most 64 bytes the ephemeral value
    is empty and the secret is the same for all such ciphertexts.  The
    only exceptions it raises are those of the Base64 decoder. *)
Theorem decapsulate_has_no_length_check (private_key_b64 ciphertext_b64 : pyval) :
  (forall private_seed ct_raw : bytes,
     base64.b64decode private_key_b64 = Ok private_seed ->
     base64.b64decode ciphertext_b64 = Ok ct_raw ->
     exists ss,
       QuantumKEM.decapsulate private_key_b64 ciphertext_b64 = Ok ss
       /\ length ss = 32%nat
       /\ ss = hashlib.sha3_256
                 (hashlib.sha3_512 (private_seed ++ b "kyber_public")
                  ++ drop 64 ct_raw ++ b "kyber_shared_secret")
       /\ ((length ct_raw <= 64)%nat ->
           ss = hashlib.sha3_256
                  (hashlib.sha3_512 (private_seed ++ b "kyber_public")
                   ++ b "kyber_shared_secret")))
  /\ (forall e,
        QuantumKEM.decapsulate private_key_b64 ciphertext_b64 = Raise e ->
        base64.b64decode private_key_b64 = Raise e
        \/ base64.b64decode ciphertext_b64 = Raise e)
  /\ QuantumKEM.decapsulate private_key_b64 ciphertext_b64 <> Diverge.
Proof.
  split; [|split].
  - intros private_seed ct_raw Hk Hc.
    eexists. split; [apply (decapsulate_run _ _ _ _ Hk Hc)|].
    split; [apply sha3_256_length|]. split; [reflexivity|].
    intros Hshort. now rewrite drop_ge by exact Hshort.
  - intros e. unfold QuantumKEM.decapsulate. prog_simpl. unfold rbind.
    destruct (base64.b64decode private_key_b64); [|intros [= ->]; auto|discriminate].
    destruct (base64.b64decode ciphertext_b64); [discriminate|intros [= ->]; auto|discriminate].
  - assert (Hno : forall v, base64.b64decode v <> Diverge).
    { intros v. unfold base64.b64decode.
      assert (Hl : forall cs q l p out, base64.a2b_base64 cs q l p out <> Diverge).
      { induction cs as [|c cs IH]; intros q l p out; cbn.
        - destruct (q =? 0)%N; discriminate.
        - repeat match goal with
                 | |- context [if ?c then _ else _] => destruct c
                 | |- context [match base64.a2b ?c with _ => _ end] =>
                     destruct (base64.a2b c)
                 end; try discriminate; apply IH. }
      destruct v; try discriminate; [|apply Hl].
      destruct (forallb _ _); [apply Hl|discriminate]. }
    unfold QuantumKEM.decapsulate. prog_simpl. unfold rbind.
    pose proof (Hno private_key_b64). pose proof (Hno ciphertext_b64).
    destruct (base64.b64decode private_key_b64); [|discriminate|contradiction].
    destruct (base64.b64decode ciphertext_b64); [discriminate|discriminate|contradiction].
Qed.

Lemma decapsulate_has_no_length_check_witness :
  exists ss,
    QuantumKEM.decapsulate (PStr zero_seed_b64) (PStr "QUJD") = Ok ss
    /\ length ss = 32%nat
    /\ ss = hashlib.sha3_256
              (hashlib.sha3_512 (repeat x00 64 ++ b "kyber_public")
               ++ drop 64 [x41; x42; x43] ++ b "kyber_shared_secret")
    /\ ((length [x41; x42; x43] <= 64)%nat ->
        ss = hashlib.sha3_256
               (hashlib.sha3_512 (repeat x00 64 ++ b "kyber_public")
                ++ b "kyber_shared_secret")).
Proof.
  apply (proj1 (decapsulate_has_no_length_check
                  (PStr zero_seed_b64) (PStr "QUJD"))
           (repeat x00 64) [x41; x42; x43]).
  - vm_compute. reflexivity.
  - vm_compute. reflexivity.
Defined.

(** ** Signatures *)

(** C8, as the code behaves.  [verify] decodes the signature before it
    compares.  The strings ["A"] and ["QQ="] are no Base64 and so differ
    from every MAC, yet [verify] does not return false on them: it raises
    [binascii.Error]; on [None] it raises [TypeError]. *)
Lemma verify_raises_on_undecodable_signature :
  base64.b64decode (PStr "A") = Raise BinasciiError
  /\ QuantumSignature.verify (b "vitals") (PStr "A") (PStr "")
       (PStr (base64.b64encode (repeat x6b 64)))
     = Raise BinasciiError
  /\ QuantumSignature.verify (b "vitals") (PStr "QQ=") (PStr "")
       (PStr (base64.b64encode (repeat x6b 64)))
     = Raise BinasciiError
  /\ QuantumSignature.verify (b "vitals") PNone (PStr "")
       (PStr (base64.b64encode (repeat x6b 64)))
     = Raise TypeError.
Proof. vm_compute. auto. Qed.

(** C8, amended.  For a signing key that decodes from Base64 to the bytes
    [sk], [sign] is a function of the data and the signing key alone: it
    returns the Base64 of [HMAC-SHA3-512(sk, data)], whatever the world.
    [verify] accepts that signature, whatever verify key is passed, and
    returns false on every signature that decodes from Base64 to other
    bytes than that MAC. *)
Theorem sign_deterministic_verify_roundtrip
    (data : bytes) (signing_key_b64 : pyval) (sk : bytes) :
  base64.b64decode signing_key_b64 = Ok sk ->
  QuantumSignature.sign data signing_key_b64
  = Ok (base64.b64encode (hmac.sha3_512 sk data))
  /\ (forall sg verify_key_b64,
        QuantumSignature.sign data signing_key_b64 = Ok sg ->
        QuantumSignature.verify data (PStr sg) verify_key_b64 signing_key_b64
        = Ok true)
  /\ (forall signature_b64 sig verify_key_b64,
        base64.b64decode signature_b64 = Ok sig ->
        sig <> hmac.sha3_512 sk data ->
        QuantumSignature.verify data signature_b64 verify_key_b64
          signing_key_b64
        = Ok false).
Proof.
  intros Hsk.
  assert (Hsign : QuantumSignature.sign data signing_key_b64
                  = Ok (base64.b64encode (hmac.sha3_512 sk data))).
  { unfold QuantumSignature.sign. prog_simpl. now rewrite Hsk. }
  split; [exact Hsign|]. split.
  - intros sg vk Hsg. rewrite Hsign in Hsg. injection Hsg as <-.
    unfold QuantumSignature.verify. prog_simpl.
    rewrite Hsk. cbn [rbind]. rewrite b64decode_b64encode. cbn [rbind].
    now rewrite compare_digest_refl.
  - intros signature_b64 sig vk Hsig Hne.
    unfold QuantumSignature.verify. prog_simpl.
    rewrite Hsk. cbn [rbind]. rewrite Hsig. cbn [rbind].
    now rewrite compare_digest_neq.
Qed.

Lemma sign_deterministic_verify_roundtrip_witness :
  QuantumSignature.sign (b "vitals")
    (PStr (base64.b64encode (repeat x6b 64)))
  = Ok (base64.b64encode (hmac.sha3_512 (repeat x6b 64) (b "vitals")))
  /\ (forall sg verify_key_b64,
        QuantumSignature.sign (b "vitals")
          (PStr (base64.b64encode (repeat x6b 64))) = Ok sg ->
        QuantumSignature.verify (b "vitals") (PStr sg) verify_key_b64
          (PStr (base64.b64encode (repeat x6b 64)))
        = Ok true)
  /\ (forall signature_b64 sig verify_key_b64,
        base64.b64decode signature_b64 = Ok sig ->
        sig <> hmac.sha3_512 (repeat x6b 64) (b "vitals") ->
        QuantumSignature.verify (b "vitals") signature_b64 verify_key_b64
          (PStr (base64.b64encode (repeat x6b 64)))
        = Ok false).
Proof.
  apply (sign_deterministic_verify_roundtrip (b "vitals")
           (PStr (base64.b64encode (repeat x6b 64))) (repeat x6b 64)).
  vm_compute. reflexivity.
Defined.

(** ** Authenticated encryption *)

Lemma to_int_number (f : float) :
  pyfloat.is_number f = true -> exists z, pyfloat.to_int f = Ok z.
Proof. destruct f; cbn; try discriminate; eauto. Qed.

Lemma encrypt_run (plaintext shared_secret : bytes) (w : world) :
  (N.of_nat (length plaintext) <= 137438953472)%N ->
  let enc_key := hashlib.sha3_256 (shared_secret ++ b "enc_key") in
  let nonce := os.take_padded 16 (entropy w) in
  exists key_stream log timestamp w1,
    length key_stream = length plaintext
    /\ (forall w',
          QuantumCipher._key_stream enc_key nonce (length plaintext) w'
          = (Ok key_stream, set_oplog (oplog w' ++ log) w'))
    /\ QuantumCipher.encrypt plaintext shared_secret w =
       (Ok ({[ "ciphertext" :=
                 PStr (base64.b64encode (xor_zip plaintext key_stream));
               "nonce" := PStr (base64.b64encode nonce);
               "mac" :=
                 PStr (base64.b64encode
                         (expected_mac shared_secret nonce
                            (xor_zip plaintext key_stream)));
               "timestamp" := PInt timestamp;
               "algorithm" := PStr "VitalGuard-AE-SHA3-256" ]} : dict),
        w1).
Proof.
  intros Hlen enc_key nonce.
  destruct (key_stream_ok enc_key nonce (length plaintext) Hlen)
    as (ks & log & Hks & Hrun).
  destruct (to_int_number (seconds (hd epoch (clock w)))
              (seconds_ok _)) as (ts & Hts).
  exists ks, log, ts. eexists. split; [exact Hks|]. split; [exact Hrun|].
  unfold QuantumCipher.encrypt, QuantumCipher.xor_bytes, os.urandom,
    time.time.
  prog_simpl. fold enc_key nonce. rewrite Hrun.
  cbn [clock set_oplog set_entropy]. rewrite Hts. reflexivity.
Qed.

Lemma encrypt_overflow (plaintext shared_secret : bytes) (w : world) :
  (137438953472 < N.of_nat (length plaintext))%N ->
  (QuantumCipher.encrypt plaintext shared_secret w).1 = Raise StructError.
Proof.
  intros Hlen. unfold QuantumCipher.encrypt, os.urandom. prog_simpl.
  pose proof (key_stream_overflow
                (hashlib.sha3_256 (shared_secret ++ b "enc_key"))
                (os.take_padded 16 (entropy w)) (length plaintext)
                (set_entropy (drop 16 (entropy w)) w) Hlen) as H.
  destruct (QuantumCipher._key_stream _ _ _ _) as [r w1].
  cbn [fst] in H. now subst r.
Qed.

Lemma decrypt_rejects (encrypted : pyval) (shared_secret : bytes)
    (ciphertext nonce mac : bytes) (w : world) :
  envelope_fields encrypted ciphertext nonce mac ->
  mac <> expected_mac shared_secret nonce ciphertext ->
  QuantumCipher.decrypt encrypted shared_secret w = (Ok None, w).
Proof.
  intros (Hc & Hn & Hm) Hne.
  unfold QuantumCipher.decrypt.
  unfold mbind, prog_bind, bind, lift. rewrite Hc, Hn, Hm.
  prog_simpl.
  fold (expected_mac shared_secret nonce ciphertext).
  now rewrite compare_digest_neq.
Qed.

Lemma decrypt_accepts (encrypted : pyval) (shared_secret : bytes)
    (ciphertext nonce : bytes) (key_stream : bytes) (log : list op)
    (w : world) :
  envelope_fields encrypted ciphertext nonce
    (expected_mac shared_secret nonce ciphertext) ->
  QuantumCipher._key_stream
    (hashlib.sha3_256 (shared_secret ++ b "enc_key")) nonce
    (length ciphertext) w
  = (Ok key_stream, set_oplog (oplog w ++ log) w) ->
  exists w1,
    QuantumCipher.decrypt encrypted shared_secret w
    = (Ok (Some (xor_zip ciphertext key_stream)), w1).
Proof.
  intros (Hc & Hn & Hm) Hks.
  unfold QuantumCipher.decrypt, QuantumCipher.xor_bytes.
  unfold mbind, prog_bind, bind, lift. rewrite Hc, Hn, Hm.
  prog_simpl.
  fold (expected_mac shared_secret nonce ciphertext).
  rewrite compare_digest_refl. cbn [negb]. rewrite Hks.
  eexists. reflexivity.
Qed.

(** C2, as the code behaves.  A plaintext of [2 ** 37 + 1] bytes needs a
    key-stream block numbered [2 ** 32], which [struct.pack(">I", ...)]
    refuses: [encrypt] raises [struct.error] and returns no envelope. *)
Lemma encrypt_raises_past_counter_range :
  (QuantumCipher.encrypt (repeat x00 (N.to_nat 137438953473))
     (repeat x00 32) (World [] [] [] [] [])).1
  = Raise StructError.
Proof.
  apply encrypt_overflow. rewrite repeat_length, N2Nat.id. reflexivity.
Qed.

(** C2, amended.  For every byte string [m] of at most [2 ** 37] bytes
    (the reach of the 32-bit block counter), the empty one included, and
    every shared secret [k], [encrypt] returns an envelope, whatever nonce
    and time the world supplies, and [decrypt] of that envelope under [k]
    returns [m], not the failure value. *)
Theorem aead_roundtrip (m k : bytes) (w w' : world) :
  (N.of_nat (length m) <= 137438953472)%N ->
  exists (env : dict) w1 w2,
    QuantumCipher.encrypt m k w = (Ok env, w1)
    /\ QuantumCipher.decrypt (PDict env) k w' = (Ok (Some m), w2).
Proof.
  intros Hlen.
  destruct (encrypt_run m k w Hlen)
    as (ks & log & ts & w1 & Hks & Hrun & Henc).
  set (nonce := os.take_padded 16 (entropy w)) in *.
  set (c := xor_zip m ks) in *.
  assert (Hc : length c = length m).
  { subst c. rewrite xor_zip_length. lia. }
  destruct (decrypt_accepts
              (PDict {[ "ciphertext" := PStr (base64.b64encode c);
                        "nonce" := PStr (base64.b64encode nonce);
                        "mac" := PStr (base64.b64encode
                                         (expected_mac k nonce c));
                        "timestamp" := PInt ts;
                        "algorithm" := PStr "VitalGuard-AE-SHA3-256" ]})
              k c nonce ks log w') as (w2 & Hdec).
  - unfold envelope_fields, QuantumCipher.field, getitem, mbind,
      result_bind, rbind.
    repeat split.
    + rewrite lookup_insert_eq. apply b64decode_b64encode.
    + rewrite lookup_insert_ne, lookup_insert_eq by done.
      apply b64decode_b64encode.
    + rewrite !lookup_insert_ne by done. rewrite lookup_insert_eq.
      apply b64decode_b64encode.
  - rewrite Hc. apply Hrun.
  - eexists _, w1, w2. split; [exact Henc|].
    rewrite Hdec. subst c. now rewrite xor_zip_cancel by auto.
Qed.

(** The fields of the envelope [encrypt] makes of [b"hello"]. *)
Example encrypt_hello :
  ((env ← QuantumCipher.encrypt (b "hello") secret_B;
    mret (env !! "ciphertext", env !! "nonce", env !! "mac",
          env !! "timestamp")) world_A).1
  = Ok (Some (PStr "oU1HyP8="), Some (PStr "QUFBQUFBQUFBQUFBQUFBQQ=="),
        Some (PStr "Ogx950VKbEpL/ZZS3/nh5iOLHnsL0HRdLeDo8wCv03U="),
        Some (PInt 1700000000)).
Proof. vm_compute. reflexivity. Qed.

Lemma aead_roundtrip_witness :
  exists (env : dict) w1 w2,
    QuantumCipher.encrypt (b "hello") secret_B world_A = (Ok env, w1)
    /\ QuantumCipher.decrypt (PDict env) secret_B world_A
       = (Ok (Some (b "hello")), w2).
Proof.
  apply (aead_roundtrip (b "hello") secret_B world_A world_A).
  vm_compute. discriminate.
Defined.

(** The outcome of the key stream does not depend on the world. *)
Lemma key_stream_loop_world key nonce len : forall fuel stream counter w w',
  (QuantumCipher._key_stream_loop fuel key nonce len stream counter w).1
  = (QuantumCipher._key_stream_loop fuel key nonce len stream counter w').1.
Proof.
  induction fuel as [|fuel IH]; intros stream counter w w';
    rewrite key_stream_loop_unfold;
    destruct (length stream <? len)%nat; try reflexivity.
  destruct (struct.pack_I_be counter); try reflexivity.
  prog_simpl. apply IH.
Qed.

Lemma decrypt_world (encrypted : pyval) (shared_secret : bytes)
    (w w' : world) :
  (QuantumCipher.decrypt encrypted shared_secret w).1
  = (QuantumCipher.decrypt encrypted shared_secret w').1.
Proof.
  unfold QuantumCipher.decrypt, QuantumCipher.xor_bytes,
    QuantumCipher._key_stream.
  unfold mbind, prog_bind, bind, lift.
  destruct (QuantumCipher.field encrypted "ciphertext") as [c| |];
    try reflexivity.
  destruct (QuantumCipher.field encrypted "nonce") as [n| |];
    try reflexivity.
  destruct (QuantumCipher.field encrypted "mac") as [m| |];
    try reflexivity.
  cbn beta iota zeta.
  destruct (negb _); [reflexivity|].
  pose proof (key_stream_loop_world
                (hashlib.sha3_256 (shared_secret ++ b "enc_key")) n
                (length c) (length c) [] 0%N w w') as H.
  destruct (QuantumCipher._key_stream_loop _ _ _ _ _ _ w) as [r1 w1].
  destruct (QuantumCipher._key_stream_loop _ _ _ _ _ _ w') as [r2 w2].
  cbn [fst] in H. subst r2. destruct r1; reflexivity.
Qed.

(** ** The channel *)

Section Frames.
Context {S T : Type} (proj : S -> T).

Lemma frames_ret {A} (a : A) : frames proj (mret a).
Proof. intros s w. reflexivity. Qed.

Lemma frames_raise {A} (e : exn) : frames proj (raise e : prog _ A).
Proof. intros s w. reflexivity. Qed.

Lemma frames_lift {A} (r : result A) : frames proj (lift r).
Proof. intros s w. reflexivity. Qed.

Lemma frames_self : frames proj self.
Proof. intros s w. reflexivity. Qed.

Lemma frames_call {A} (m : prog world A) : frames proj (call m).
Proof. intros s w. unfold call. cbn. now destruct (m w). Qed.

Lemma frames_assign (f : S -> S) :
  (forall s, proj (f s) = proj s) -> frames proj (assign f).
Proof. intros Hf s w. apply Hf. Qed.

Lemma frames_bind {A B} (m : prog (S * world) A)
    (k : A -> prog (S * world) B) :
  frames proj m -> (forall a, frames proj (k a)) -> frames proj (m ≫= k).
Proof.
  intros Hm Hk s w. specialize (Hm s w).
  unfold mbind, prog_bind, bind.
  destruct (m (s, w)) as [[a|e|] [s1 w1]]; cbn [fst snd] in *;
    try exact Hm.
  rewrite <- Hm. apply Hk.
Qed.

Lemma frames_for_each {A B} (f : A -> prog (S * world) B) (l : list A) :
  (forall x, frames proj (f x)) -> frames proj (for_each f l).
Proof.
  intros Hf. induction l as [|x l IH]; cbn [for_each].
  - apply frames_ret.
  - apply frames_bind; [apply Hf|]. intros y.
    apply frames_bind; [exact IH|]. intros ys. apply frames_ret.
Qed.

Lemma frames_for_loop {A} (body : A -> prog (S * world) unit)
    (l : list A) :
  (forall x, frames proj (body x)) -> frames proj (for_loop body l).
Proof.
  intros Hf. induction l as [|x l IH]; cbn [for_loop].
  - apply frames_ret.
  - apply frames_bind; [apply Hf|]. intros _. exact IH.
Qed.

End Frames.

(** Proves [frames] goals by following the structure of the method. *)
Ltac frames_step :=
  match goal with
  | |- frames _ (_ ≫= _) => apply frames_bind; [|intros ?]
  | |- frames _ (mret _) => apply frames_ret
  | |- frames _ (raise _) => apply frames_raise
  | |- frames _ (lift _) => apply frames_lift
  | |- frames _ self => apply frames_self
  | |- frames _ (call _) => apply frames_call
  | |- frames _ (assign _) => apply frames_assign; intros []; reflexivity
  | |- frames _ (for_each _ _) => apply frames_for_each; intros ?
  | |- frames _ (for_loop _ _) => apply frames_for_loop; intros ?
  | |- frames _ (if ?c then _ else _) => destruct c
  | |- frames _ (match ?x with _ => _ end) => destruct x
  end.

Ltac frames_auto := repeat frames_step.

Lemma encrypt_patient_data_frames `{Json} (data : pyval) :
  frames id (SecureChannel.encrypt_patient_data data).
Proof. unfold SecureChannel.encrypt_patient_data. frames_auto. Qed.

Lemma decrypt_patient_data_frames `{Json} (envelope : dict) :
  frames id (SecureChannel.decrypt_patient_data envelope).
Proof. unfold SecureChannel.decrypt_patient_data. frames_auto. Qed.

(** C10.  [encrypt_patient_data] and [decrypt_patient_data] leave every
    field of the channel as it was, whatever they return or raise; the
    three handshake methods are the ones that assign fields: each changes
    a newly constructed channel. *)
Theorem post_handshake_calls_preserve_channel `{Json} :
  (forall (c : SecureChannel.t) (w : world) (data : pyval),
     (SecureChannel.encrypt_patient_data data (c, w)).2.1 = c)
  /\ (forall (c : SecureChannel.t) (w : world) (envelope : dict),
        (SecureChannel.decrypt_patient_data envelope (c, w)).2.1 = c)
  /\ (forall w : world,
        (SecureChannel.init_server (SecureChannel.__init__, w)).2.1
        <> SecureChannel.__init__)
  /\ (forall (w : world) (public_key : bytes),
        (SecureChannel.init_client (PStr (base64.b64encode public_key))
           (SecureChannel.__init__, w)).2.1
        <> SecureChannel.__init__)
  /\ (forall (c : SecureChannel.t) (w : world) (ciphertext : pyval) r c' w',
        SecureChannel.complete_handshake ciphertext (c, w) = (r, (c', w')) ->
        (r = Ok tt /\ exists ss, c' = SecureChannel.set_shared_secret (Some ss) c)
        \/ (r <> Ok tt /\ c' = c)).
Proof.
  split; [|split; [|split; [|split]]].
  - intros c w data. apply (encrypt_patient_data_frames data c w).
  - intros c w envelope. apply (decrypt_patient_data_frames envelope c w).
  - intros w.
    destruct (init_server_run SecureChannel.__init__ w)
      as (info & kk & sk & sid & w1 & -> & _). discriminate.
  - intros w public_key.
    destruct (init_client_run public_key SecureChannel.__init__ w)
      as (resp & sid & w1 & -> & _). discriminate.
  - intros c w ciphertext r c' w'.
    unfold SecureChannel.complete_handshake. prog_simpl.
    destruct (subscript _ _) as [sk| |]; cbn [fst snd].
    + destruct (QuantumKEM.decapsulate sk ciphertext) as [ss| |];
        intros [= <- <- <-]; [left; eauto|right|right];
        split; (discriminate || reflexivity).
    + intros [= <- <- <-]. right. split; (discriminate || reflexivity).
    + intros [= <- <- <-]. right. split; (discriminate || reflexivity).
Qed.

(** C3, as the code behaves.  [decrypt] decodes the three fields before
    it compares MACs.  Take the record of [b"hello"] with its MAC field
    replaced by ["A"], which is no Base64 string and so differs from the
    MAC expected: [decrypt] raises [binascii.Error] where the claim has it
    return the failure marker, and [decrypt_patient_data] raises it too
    instead of returning [None].  A MAC field that is [None] raises
    [TypeError]. *)
Lemma decrypt_raises_on_undecodable_mac :
  QuantumCipher.field (PDict hello_encrypted) "ciphertext"
  = Ok [xa1; x4d; x47; xc8; xff]
  /\ QuantumCipher.field (PDict hello_encrypted) "nonce" = Ok (repeat x41 16)
  /\ base64.b64decode (PStr "A") = Raise BinasciiError
  /\ QuantumCipher.decrypt (PDict (<["mac" := PStr "A"]> hello_encrypted))
       secret_B world_A
     = (Raise BinasciiError, world_A)
  /\ SecureChannel.decrypt_patient_data (H := literal_json)
       {[ "encrypted" := PDict (<["mac" := PStr "A"]> hello_encrypted) ]}
       (SecureChannel.Channel None None (Some secret_B) None, world_A)
     = (Raise BinasciiError,
        (SecureChannel.Channel None None (Some secret_B) None, world_A))
  /\ QuantumCipher.decrypt (PDict (<["mac" := PNone]> hello_encrypted))
       secret_B world_A
     = (Raise TypeError, world_A).
Proof. vm_compute. auto 10. Qed.

(** C3, amended.  Fail-closed on authentication failure, for every record
    whose three fields decode from Base64.  When the decoded MAC field
    differs from the MAC recomputed over nonce and ciphertext, [decrypt]
    returns the failure marker and leaves the world as it was: in
    particular the log of cipher work is unchanged, no key-stream block
    was hashed and nothing was XORed.  On a channel holding a shared
    secret, [decrypt_patient_data] of an envelope with such an
    [encrypted] field returns [None]; it raises nothing and returns no
    data, and the channel and the world are as before. *)
Theorem decrypt_fails_closed `{Json} (encrypted : pyval) (shared_secret : bytes)
    (ciphertext nonce mac : bytes) :
  envelope_fields encrypted ciphertext nonce mac ->
  mac <> expected_mac shared_secret nonce ciphertext ->
  (forall w : world,
     QuantumCipher.decrypt encrypted shared_secret w = (Ok None, w))
  /\ (forall (c : SecureChannel.t) (envelope : dict) (w : world),
        SecureChannel.no_secret c = false ->
        SecureChannel.shared_secret c = Some shared_secret ->
        envelope !! "encrypted" = Some encrypted ->
        SecureChannel.decrypt_patient_data envelope (c, w)
        = (Ok PNone, (c, w))).
Proof.
  intros Hf Hne. split.
  - intros w. now apply (decrypt_rejects _ _ ciphertext nonce mac).
  - intros c envelope w Hsec Hss Henv.
    unfold SecureChannel.decrypt_patient_data.
    unfold mbind, prog_bind, bind, self, lift, call, getitem.
    cbn [fst snd]. rewrite Hsec, Henv. cbn [fst snd].
    unfold SecureChannel.the_secret. rewrite Hss. cbn [default].
    rewrite (decrypt_rejects _ _ ciphertext nonce mac) by assumption.
    reflexivity.
Qed.

Lemma decrypt_fails_closed_witness :
  (forall w : world,
     QuantumCipher.decrypt (PDict hello_tampered) secret_B w = (Ok None, w))
  /\ (forall (c : SecureChannel.t) (envelope : dict) (w : world),
        SecureChannel.no_secret c = false ->
        SecureChannel.shared_secret c = Some secret_B ->
        envelope !! "encrypted" = Some (PDict hello_tampered) ->
        SecureChannel.decrypt_patient_data envelope (c, w)
        = (Ok PNone, (c, w))).
Proof.
  apply (decrypt_fails_closed (PDict hello_tampered) secret_B
           [xa1; x4d; x47; xc8; xff] (repeat x41 16)
           [ x3b; x0c; x7d; xe7; x45; x4a; x6c; x4a; x4b; xfd; x96; x52;
             xdf; xf9; xe1; xe6; x23; x8b; x1e; x7b; x0b; xd0; x74; x5d;
             x2d; xe0; xe8; xf3; x00; xaf; xd3; x75 ]).
  - vm_compute. auto.
  - vm_compute. discriminate.
Defined.

(** C9.  The signature is never verified on receipt.  The outcome of
    [decrypt_patient_data] is a function of the envelope's [encrypted]
    field and of the channel's shared secret: two calls agree on what they
    return or raise as soon as those two agree, whatever the [signature],
    [session_id], [data_type] and [pqc_version] fields hold (present or
    not, forged or not), whatever the other fields of the channel, and
    whatever the world. *)
Theorem decrypt_ignores_signature `{Json}
    (c1 c2 : SecureChannel.t) (envelope1 envelope2 : dict) (w1 w2 : world) :
  SecureChannel.shared_secret c1 = SecureChannel.shared_secret c2 ->
  envelope1 !! "encrypted" = envelope2 !! "encrypted" ->
  (SecureChannel.decrypt_patient_data envelope1 (c1, w1)).1
  = (SecureChannel.decrypt_patient_data envelope2 (c2, w2)).1.
Proof.
  intros Hss Henv.
  destruct c1 as [kk1 sk1 ss1 sid1], c2 as [kk2 sk2 ss2 sid2].
  cbn [SecureChannel.shared_secret] in Hss. subst ss2.
  unfold SecureChannel.decrypt_patient_data.
  unfold mbind, prog_bind, bind, self, lift, call, getitem, raise.
  cbn [fst snd].
  unfold SecureChannel.no_secret, SecureChannel.the_secret.
  cbn [SecureChannel.shared_secret]. rewrite Henv.
  destruct ss1 as [[|x ss]|]; try reflexivity.
  destruct (envelope2 !! "encrypted") as [encrypted|]; try reflexivity.
  cbn [fst snd default from_option id SecureChannel.shared_secret].
  pose proof (decrypt_world encrypted (x :: ss) w1 w2) as Hw.
  destruct (QuantumCipher.decrypt encrypted (x :: ss) w1) as [r1 w1'].
  destruct (QuantumCipher.decrypt encrypted (x :: ss) w2) as [r2 w2'].
  cbn [fst] in Hw. subst r2.
  destruct r1 as [[plaintext|]| |]; reflexivity.
Qed.

Lemma decrypt_ignores_signature_witness :
  (SecureChannel.decrypt_patient_data
     (<["signature" := PStr "forged"]> {[ "encrypted" := PDict hello_encrypted ]})
     (SecureChannel.Channel None None (Some secret_B) None, world_A)).1
  = (SecureChannel.decrypt_patient_data
       {[ "encrypted" := PDict hello_encrypted ]}
       (SecureChannel.Channel None None (Some secret_B) (Some "s"),
        World [] [] [] [] [])).1.
Proof.
  apply (decrypt_ignores_signature
           (SecureChannel.Channel None None (Some secret_B) None)
           (SecureChannel.Channel None None (Some secret_B) (Some "s"))).
  - reflexivity.
  - vm_compute. reflexivity.
Defined.

(** ** BB84: the run with no qubits *)

(** C7, as the code behaves.  With [n_qubits = 0] the constructor returns
    an object, and [run_protocol] is not refused at the call: it reads the
    clock, prepares, measures and sifts (all on empty lists) and then
    raises [ValueError] in the error estimation, where one index is to be
    sampled from an empty key. *)
Lemma zero_qubits_are_not_rejected :
  BB84KeyExchange.__init__ 0 pyfloat.zero world_A
  = (Ok (BB84KeyExchange.BB84 0 pyfloat.zero [] [] [] [] [] None
           pyfloat.zero false), world_A)
  /\ BB84KeyExchange.run_protocol
       (BB84KeyExchange.BB84 0 pyfloat.zero [] [] [] [] [] None
          pyfloat.zero false, world_A)
     = (Raise ValueError,
        (BB84KeyExchange.BB84 0 pyfloat.zero [] [] [] [] [] None
           pyfloat.zero false, set_clock [] world_A))
  /\ (random.sample_range 0 1 (set_clock [] world_A)).1 = Raise ValueError.
Proof. repeat split. Qed.

(** C7, amended.  A run with no qubits is not rejected up front.  The
    constructor accepts [n_qubits = 0]; [run_protocol] then starts the
    protocol (the clock is read; preparation, measurement and sifting run
    on empty lists) and fails in the error estimation with the
    [ValueError] of [random.sample], the sample size being clamped to 1
    while the sifted key is empty.  No result is returned, no key is
    stored, and [qkd_key_exchange] passes the exception on. *)
Theorem zero_qubits_fail_in_error_estimation (noise : float) (w : world) :
  exists o,
    BB84KeyExchange.__init__ 0 noise w = (Ok o, w)
    /\ BB84KeyExchange.sample_size_of 0 pyfloat.lit_0_2 = Ok 1%Z
    /\ (forall w', (random.sample_range 0 1 w').1 = Raise ValueError)
    /\ BB84KeyExchange.run_protocol (o, w)
       = (Raise ValueError, (o, set_clock (tl (clock w)) w))
    /\ BB84KeyExchange.sifted_key o = []
    /\ BB84KeyExchange.final_key o = None
    /\ qkd_key_exchange 0 noise w
       = (Raise ValueError, set_clock (tl (clock w)) w).
Proof.
  eexists. split; [reflexivity|]. repeat split.
Qed.

(** ** BB84: what is hashed into the key *)

(** C5, on a run of four qubits.  The sifted key is [1, 0, 1].  The error
    estimation samples index 0, so the bits left over are [0, 1], as its
    report says ([remaining_key_bits] is 2).  The key that [run_protocol]
    returns is nevertheless the hash of all three bits [1, 0, 1]: the
    comprehension of step 5 draws samples of its own, one per index, and
    here none of them hits the index it is deciding.  The sacrificed bit
    is part of the key. *)
Theorem final_key_hashes_a_sacrificed_bit :
  exists o,
    BB84KeyExchange.__init__ 4 pyfloat.zero qkd_world = (Ok o, qkd_world)
    /\ (run_until_sifted (o, qkd_world)).1
       = Ok ([true; false; true], [true; false; true])
    /\ ((run_until_sifted;; call (random.sample_range 3 1)) (o, qkd_world)).1
       = Ok [0%nat]
    /\ BB84KeyExchange.without [true; false; true] [0%nat] = [false; true]
    /\ ((d ← BB84KeyExchange.run_protocol;
         e ← lift (getitem (PDict d) "error_estimation");
         r ← lift (getitem e "remaining_key_bits");
         mret (r, d !! "final_key_hex", d !! "secure")) (o, qkd_world)).1
       = Ok (PInt 2,
             Some (PStr "45215ce7cb6ff636f936d70dd12abf6ed3ae700ffc3905170c99d646e15f4510"),
             Some (PBool true))
    /\ hex (hashlib.sha3_256
              (BB84KeyExchange.bit_string [true; false; true]
               ++ b "vitalguard_qkd_pa"))
       = "45215ce7cb6ff636f936d70dd12abf6ed3ae700ffc3905170c99d646e15f4510"
    /\ hex (hashlib.sha3_256
              (BB84KeyExchange.bit_string [false; true]
               ++ b "vitalguard_qkd_pa"))
       = "a20157816ead4bbc9fce50c67c4fc52db31fde70a5bee475bcac34b3d249d158".
Proof.
  eexists. split; [reflexivity|].
  repeat split; vm_compute; reflexivity.
Qed.

(** ** BB84: the verdict and the key *)

Lemma alice_prepare_frames :
  frames verdict_fields BB84KeyExchange.alice_prepare.
Proof. unfold BB84KeyExchange.alice_prepare. frames_auto. Qed.

Lemma bob_measure_frames (circuits : list circuit) :
  frames verdict_fields (BB84KeyExchange.bob_measure circuits).
Proof. unfold BB84KeyExchange.bob_measure. frames_auto. Qed.

Lemma sift_keys_frames : frames verdict_fields BB84KeyExchange.sift_keys.
Proof. unfold BB84KeyExchange.sift_keys. frames_auto. Qed.

Lemma privacy_amplification_frames (key_bits : list bit) (target : Z) :
  frames verdict_fields
    (BB84KeyExchange.privacy_amplification key_bits target).
Proof. unfold BB84KeyExchange.privacy_amplification. frames_auto. Qed.

Lemma sift_loop_length (o : BB84KeyExchange.t) : forall idxs a c a' c',
  BB84KeyExchange.sift_loop o idxs a c = Ok (a', c') ->
  (length a' <= length a + length idxs)%nat.
Proof.
  induction idxs as [|i idxs IH]; intros a c a' c'; cbn [BB84KeyExchange.sift_loop].
  - intros [= <- <-]. cbn. lia.
  - unfold mbind, result_bind, rbind.
    destruct (index _ i); try discriminate.
    destruct (index _ i); try discriminate.
    destruct (basis_eqb _ _).
    + destruct (index _ i); try discriminate.
      destruct (index _ i); try discriminate.
      intros H. apply IH in H. rewrite length_app in H. cbn in *. lia.
    + intros H. apply IH in H. cbn. lia.
Qed.

Lemma sift_keys_length o w r o' w' :
  BB84KeyExchange.sift_keys (o, w) = (Ok r, (o', w')) ->
  (length r.1 <= Z.to_nat (BB84KeyExchange.n_qubits o))%nat.
Proof.
  unfold BB84KeyExchange.sift_keys. prog_simpl. cbn [fst snd].
  destruct (BB84KeyExchange.sift_loop _ _ _ _) as [[a c]| |] eqn:E;
    try discriminate.
  intros [= <- _ _]. apply sift_loop_length in E.
  unfold range in E. rewrite List.length_seq in E. cbn in *. lia.
Qed.

Lemma sample_size_of_positive n f k :
  BB84KeyExchange.sample_size_of n f = Ok k -> (1 <= k)%Z.
Proof.
  unfold BB84KeyExchange.sample_size_of, mbind, result_bind, rbind.
  destruct (pyfloat.of_int _); try discriminate.
  destruct (pyfloat.to_int _); try discriminate.
  intros [= <-]. lia.
Qed.

Lemma sample_range_ok n k w l w' :
  random.sample_range n k w = (Ok l, w') -> (k <= Z.of_nat n)%Z.
Proof.
  unfold random.sample_range.
  destruct ((k <? 0)%Z || (Z.of_nat n <? k)%Z) eqn:E; [discriminate|].
  intros _. apply orb_false_iff in E as [_ E]. apply Z.ltb_ge in E. lia.
Qed.

(** [estimate_error] either returns, with verdict and error rate in
    agreement and a non-empty sifted key, or leaves the object alone. *)
Lemma estimate_error_spec a c f o w r o' w' :
  BB84KeyExchange.estimate_error a c f (o, w) = (r, (o', w')) ->
  (exists d, r = Ok d
     /\ verdict_ok o'
     /\ BB84KeyExchange.n_qubits o' = BB84KeyExchange.n_qubits o
     /\ d !! "eavesdropper_detected"
        = Some (PBool (BB84KeyExchange.eavesdropper_detected o'))
     /\ (1 <= length a)%nat)
  \/ ((forall d, r <> Ok d) /\ o' = o).
Proof.
  unfold BB84KeyExchange.estimate_error. prog_simpl. cbn [fst snd].
  destruct (BB84KeyExchange.sample_size_of _ _) as [k| |] eqn:Ek;
    [|intros [= <- <- _]; right; split; [discriminate|reflexivity]..].
  destruct (random.sample_range _ _ _) as [[idx| |] w1] eqn:Es;
    [|intros [= <- <- _]; right; split; [discriminate|reflexivity]..].
  cbn [fst snd].
  destruct (BB84KeyExchange.count_errors _ _ _) as [errs| |];
    [|intros [= <- <- _]; right; split; [discriminate|reflexivity]..].
  destruct (if (0 <? k)%Z then _ else _) as [rate| |];
    [|intros [= <- <- _]; right; split; [discriminate|reflexivity]..].
  intros [= <- <- _]. left. eexists. split; [reflexivity|].
  apply sample_size_of_positive in Ek. apply sample_range_ok in Es.
  destruct o; cbn. repeat split; try reflexivity; try lia.
Qed.

Lemma overflow_threshold_large : (2 <= pyfloat.overflow_threshold)%Z.
Proof. vm_compute. discriminate. Qed.

Lemma int_truediv_ok (a c : Z) :
  (0 <= a <= c)%Z -> (0 < c)%Z -> exists f, pyfloat.int_truediv a c = Ok f.
Proof.
  intros Ha Hc. unfold pyfloat.int_truediv.
  assert (E1 : (c =? 0)%Z = false) by (apply Z.eqb_neq; lia).
  rewrite E1.
  assert (E2 : (pyfloat.overflow_threshold * Z.abs c <=? Z.abs a)%Z = false).
  { apply Z.leb_gt. pose proof overflow_threshold_large.
    rewrite !Z.abs_eq by lia. nia. }
  rewrite E2. eauto.
Qed.

Lemma bind_run {St A B} (m : prog St A) (k : A -> prog St B) (s : St) :
  (m ≫= k) s =
  match m s with
  | (Ok a, s1) => k a s1
  | (Raise e, s1) => (Raise e, s1)
  | (Diverge, s1) => (Diverge, s1)
  end.
Proof. reflexivity. Qed.

Lemma ret_run {St A} (a : A) (s : St) :
  (mret a : prog St A) s = (Ok a, s).
Proof. reflexivity. Qed.

Lemma self_run {S} (s : S * world) : self s = (Ok s.1, s).
Proof. reflexivity. Qed.

Lemma time_run {S} (o : S) (w : world) :
  call time.time (o, w)
  = (Ok (seconds (hd epoch (clock w))), (o, set_clock (tl (clock w)) w)).
Proof. reflexivity. Qed.

Lemma run_post_failure o r o' :
  verdict_ok o -> verdict_fields o' = verdict_fields o ->
  (forall d, r <> Ok d) -> run_post o r o'.
Proof.
  intros Hv Hf Hr. unfold verdict_fields in Hf. injection Hf as Hn He Hd.
  repeat split.
  - unfold verdict_ok in *. now rewrite Hd, He.
  - now apply Hr in H.
  - now apply Hr in H.
  - now apply Hr in H.
  - intros H1 H2. congruence.
Qed.

Lemma run_protocol_post o w r o' w' :
  verdict_ok o ->
  BB84KeyExchange.run_protocol (o, w) = (r, (o', w')) ->
  run_post o r o'.
Proof.
  intros Hv. unfold BB84KeyExchange.run_protocol.
  rewrite bind_run.
  rewrite time_run. cbn beta iota.
  (* preparation *)
  rewrite bind_run.
  pose proof (alice_prepare_frames o (set_clock (tl (clock w)) w)) as F1.
  destruct (BB84KeyExchange.alice_prepare _) as [[circuits|e|] [o1 w1]];
    cbn [fst snd] in F1;
    [|intros [= <- <- _]; apply run_post_failure; auto; discriminate..].
  (* measurement *)
  rewrite bind_run.
  pose proof (bob_measure_frames circuits o1 w1) as F2.
  destruct (BB84KeyExchange.bob_measure _ _) as [[results|e|] [o2 w2]];
    cbn [fst snd] in F2;
    [|intros [= <- <- _]; apply run_post_failure; auto; try congruence;
      discriminate..].
  (* sifting *)
  rewrite bind_run.
  pose proof (sift_keys_frames o2 w2) as F3.
  destruct (BB84KeyExchange.sift_keys _) as [[sifted|e|] [o3 w3]] eqn:Es;
    cbn [fst snd] in F3;
    [|intros [= <- <- _]; apply run_post_failure; auto; try congruence;
      discriminate..].
  apply sift_keys_length in Es.
  cbn beta iota zeta.
  (* error estimation *)
  rewrite bind_run.
  destruct (BB84KeyExchange.estimate_error _ _ _ _)
    as [r4 [o4 w4]] eqn:Ee.
  apply estimate_error_spec in Ee
    as [(d4 & -> & Hv4 & Hn4 & Hd4 & Hlen)|(Hr4 & ->)];
    [|destruct r4 as [d4|e|]; [exfalso; now apply (Hr4 d4)|..];
      intros [= <- <- _]; apply run_post_failure; auto; try congruence;
      discriminate].
  assert (Hn : BB84KeyExchange.n_qubits o3 = BB84KeyExchange.n_qubits o2).
  { unfold verdict_fields in F3. congruence. }
  rewrite bind_run. unfold lift at 1, getitem at 1. rewrite Hd4.
  cbn [truthy negb].
  destruct (BB84KeyExchange.eavesdropper_detected o4) eqn:Hdet; cbn [negb].
  - (* detected: no key, and the rest of the run goes through *)
    rewrite bind_run, ret_run. cbn beta iota.
    rewrite bind_run, time_run. cbn beta iota zeta.
    rewrite bind_run, self_run. cbn [fst snd].
    rewrite bind_run. unfold lift at 1.
    destruct (int_truediv_ok (Z.of_nat (length sifted.1))
                (BB84KeyExchange.n_qubits o4)) as (rate & ->);
      [lia|lia|].
    rewrite bind_run. unfold lift at 1, getitem at 1. rewrite Hd4.
    cbn beta iota zeta.
    rewrite bind_run, self_run. cbn [fst snd].
    intros [= <- <- _].
    repeat split.
    + exact Hv4.
    + injection H as <-. rewrite !lookup_insert_ne by done.
      rewrite lookup_insert_eq. now rewrite Hdet.
    + injection H as <-. rewrite !lookup_insert_ne by done.
      now rewrite lookup_insert_eq.
    + injection H as <-. rewrite !lookup_insert_ne by done.
      now rewrite lookup_insert_eq.
    + eauto.
  - (* not detected: whatever follows keeps the verdict *)
    assert (Hpost : forall r5 o5,
              verdict_fields o5 = verdict_fields o4 ->
              (forall d, r5 = Ok d ->
                 d !! "secure" = Some (PBool true)) ->
              run_post o r5 o5).
    { intros r5 o5 Hf Hs. unfold verdict_fields in Hf.
      injection Hf as Hn5 He5 Hd5.
      assert (Hd5' : BB84KeyExchange.eavesdropper_detected o5 = false)
        by congruence.
      repeat split.
      - unfold verdict_ok in *. now rewrite Hd5, He5.
      - rewrite Hd5'. now apply Hs.
      - congruence.
      - congruence.
      - congruence. }
    rewrite bind_run, bind_run.
    pose proof (frames_call verdict_fields
                  (BB84KeyExchange.remaining_of sifted.1
                     (seq 0 (length sifted.1))) o4 w4) as F5.
    destruct (call _ (o4, w4)) as [[remaining|e|] [o5 w5]];
      cbn [fst snd] in F5;
      [|intros [= <- <- _]; apply Hpost; auto; discriminate..].
    rewrite bind_run.
    pose proof (privacy_amplification_frames remaining 32 o5 w5) as F6.
    destruct (BB84KeyExchange.privacy_amplification _ _ _)
      as [[key|e|] [o6 w6]]; cbn [fst snd] in F6;
      [|intros [= <- <- _]; apply Hpost; try congruence; discriminate..].
    rewrite ret_run. cbn beta iota.
    rewrite bind_run, time_run. cbn beta iota zeta.
    rewrite bind_run, self_run. cbn [fst snd].
    rewrite bind_run. unfold lift at 1.
    destruct (pyfloat.int_truediv _ _) as [rate|e|];
      [|intros [= <- <- _]; apply Hpost; try congruence; discriminate..].
    rewrite bind_run. unfold lift at 1, getitem at 1. rewrite Hd4.
    cbn beta iota zeta.
    rewrite bind_run, self_run. cbn [fst snd].
    intros [= <- <- _]. apply Hpost; [congruence|].
    intros d [= <-]. rewrite !lookup_insert_ne by done.
    now rewrite lookup_insert_eq.
Qed.

(** The run on [noisy_world]: the flipped qubit is the one sampled, the
    error rate is 1.0, the verdict is positive and no key comes out. *)
Example noisy_run_is_withheld :
  let res := BB84KeyExchange.run_protocol
               (BB84KeyExchange.BB84 1 one_half [] [] [] [] [] None
                  pyfloat.zero false, noisy_world) in
  BB84KeyExchange.error_rate res.2.1 = S754_finite false 4503599627370496 (-52)
  /\ BB84KeyExchange.eavesdropper_detected res.2.1 = true
  /\ BB84KeyExchange.final_key res.2.1 = None
  /\ res.1 ≫= (fun d : dict => Ok (d !! "final_key_hex", d !! "secure"))
     = Ok (Some PNone, Some (PBool false))
  /\ (qkd_key_exchange 1 one_half noisy_world).1 = Ok None.
Proof. vm_compute. auto. Qed.

(* ===================================================================== *)
(** * Further properties of [quantum_crypto.py] *)
(* ===================================================================== *)

Lemma hmac_sha3_256_length (key msg : bytes) :
  length (hmac.sha3_256 key msg) = 32%nat.
Proof. unfold hmac.sha3_256, hmac.digest. apply sha3_256_length. Qed.

Lemma hmac_sha3_512_length (key msg : bytes) :
  length (hmac.sha3_512 key msg) = 64%nat.
Proof. unfold hmac.sha3_512, hmac.digest. apply sha3_512_length. Qed.

(** The record [encrypt] returns, given its nonce, ciphertext and time. *)
Lemma encrypted_record_fields (c nonce mac : bytes) (ts : Z) :
  envelope_fields
    (PDict {[ "ciphertext" := PStr (base64.b64encode c);
              "nonce" := PStr (base64.b64encode nonce);
              "mac" := PStr (base64.b64encode mac);
              "timestamp" := PInt ts;
              "algorithm" := PStr "VitalGuard-AE-SHA3-256" ]})
    c nonce mac.
Proof.
  unfold envelope_fields, QuantumCipher.field, getitem, mbind,
    result_bind, rbind.
  repeat split.
  - rewrite lookup_insert_eq. apply b64decode_b64encode.
  - rewrite lookup_insert_ne, lookup_insert_eq by done.
    apply b64decode_b64encode.
  - rewrite !lookup_insert_ne by done. rewrite lookup_insert_eq.
    apply b64decode_b64encode.
Qed.

(** Encryption followed by decryption under the same secret, in any two
    worlds. *)
Lemma encrypt_then_decrypt (m k : bytes) (w w' : world) :
  (N.of_nat (length m) <= 137438953472)%N ->
  exists (env : dict) w1 w2,
    QuantumCipher.encrypt m k w = (Ok env, w1)
    /\ QuantumCipher.decrypt (PDict env) k w' = (Ok (Some m), w2).
Proof.
  intros Hlen.
  destruct (encrypt_run m k w Hlen)
    as (ks & log & ts & w1 & Hks & Hrun & Henc).
  set (nonce := os.take_padded 16 (entropy w)) in *.
  set (c := xor_zip m ks) in *.
  assert (Hc : length c = length m).
  { subst c. rewrite xor_zip_length. lia. }
  destruct (decrypt_accepts _ k c nonce ks log w'
              (encrypted_record_fields c nonce (expected_mac k nonce c) ts))
    as (w2 & Hdec).
  - rewrite Hc. apply Hrun.
  - eexists _, w1, w2. split; [exact Henc|].
    rewrite Hdec. subst c. now rewrite xor_zip_cancel by auto.
Qed.

(** Transport between two channels that hold the same secret: the
    envelope, what the cipher makes of its record on the other side, and
    what the receiver returns. *)
Lemma transport_between_channels_detail `{Json}
    (sender receiver : SecureChannel.t) (ss : bytes)
    (data : pyval) (plaintext : bytes) (w w' : world) :
  SecureChannel.shared_secret sender = Some ss ->
  SecureChannel.shared_secret receiver = Some ss ->
  ss <> [] ->
  dumps_utf8 data = Ok plaintext ->
  (N.of_nat (length plaintext) <= 137438953472)%N ->
  (SecureChannel.has_sig_keys sender = false
   \/ exists v sk,
        subscript (SecureChannel.sig_keys sender) "signing_key" = Ok v
        /\ base64.b64decode v = Ok sk) ->
  exists (envelope : dict) (encrypted : pyval) w1 w2,
    SecureChannel.encrypt_patient_data data (sender, w)
    = (Ok envelope, (sender, w1))
    /\ envelope !! "encrypted" = Some encrypted
    /\ QuantumCipher.decrypt encrypted ss w' = (Ok (Some plaintext), w2)
    /\ SecureChannel.decrypt_patient_data envelope (receiver, w')
       = (loads_utf8 plaintext, (receiver, w2)).
Proof.
  intros Hs Hr Hne Hd Hlen Hsig.
  assert (Hns : SecureChannel.no_secret sender = false).
  { unfold SecureChannel.no_secret. rewrite Hs. now destruct ss. }
  assert (Hnr : SecureChannel.no_secret receiver = false).
  { unfold SecureChannel.no_secret. rewrite Hr. now destruct ss. }
  assert (Hts : SecureChannel.the_secret sender = ss)
    by (unfold SecureChannel.the_secret; now rewrite Hs).
  assert (Htr : SecureChannel.the_secret receiver = ss)
    by (unfold SecureChannel.the_secret; now rewrite Hr).
  destruct (encrypt_then_decrypt plaintext ss w w' Hlen)
    as (env & w1 & w2 & Henc & Hdec).
  assert (Hsg : exists signature,
            (if SecureChannel.has_sig_keys sender
             then c ← self;
                  signing_key ← lift (subscript (SecureChannel.sig_keys c)
                                        "signing_key");
                  sg ← lift (QuantumSignature.sign plaintext signing_key);
                  mret (PStr sg)
             else mret PNone) (sender, w1)
            = (Ok signature, (sender, w1))).
  { destruct Hsig as [->|(v & sk & Hv & Hsk)]; [eexists; reflexivity|].
    destruct (SecureChannel.has_sig_keys sender); [|eexists; reflexivity].
    rewrite bind_run, self_run. cbn [fst snd].
    rewrite bind_run. unfold lift at 1. rewrite Hv.
    rewrite bind_run. unfold lift at 1, QuantumSignature.sign.
    unfold mbind at 1, result_bind, rbind. rewrite Hsk.
    eexists. reflexivity. }
  destruct Hsg as (signature & Hsg).
  eexists _, (PDict env), w1, w2. split; [|split; [|split]].
  - unfold SecureChannel.encrypt_patient_data.
    rewrite bind_run, self_run. cbn [fst snd]. rewrite Hns.
    rewrite bind_run. unfold lift at 1. rewrite Hd.
    rewrite bind_run, self_run. cbn [fst snd].
    rewrite bind_run. unfold call at 1. cbn [fst snd].
    rewrite Hts, Henc.
    rewrite bind_run, self_run. cbn [fst snd].
    rewrite bind_run, Hsg.
    rewrite bind_run, self_run. cbn [fst snd].
    rewrite ret_run. reflexivity.
  - now rewrite lookup_insert_eq.
  - exact Hdec.
  - unfold SecureChannel.decrypt_patient_data.
    rewrite bind_run, self_run. cbn [fst snd]. rewrite Hnr.
    rewrite bind_run. unfold lift at 1, getitem.
    rewrite lookup_insert_eq.
    rewrite bind_run, self_run. cbn [fst snd].
    rewrite bind_run. unfold call at 1. cbn [fst snd].
    rewrite Htr, Hdec. reflexivity.
Qed.

(** Transport between two channels that hold the same secret. *)
Lemma transport_between_channels `{Json}
    (sender receiver : SecureChannel.t) (ss : bytes)
    (data : pyval) (plaintext : bytes) (w w' : world) :
  SecureChannel.shared_secret sender = Some ss ->
  SecureChannel.shared_secret receiver = Some ss ->
  ss <> [] ->
  dumps_utf8 data = Ok plaintext ->
  (N.of_nat (length plaintext) <= 137438953472)%N ->
  (SecureChannel.has_sig_keys sender = false
   \/ exists v sk,
        subscript (SecureChannel.sig_keys sender) "signing_key" = Ok v
        /\ base64.b64decode v = Ok sk) ->
  exists (envelope : dict) w1 w2,
    SecureChannel.encrypt_patient_data data (sender, w)
    = (Ok envelope, (sender, w1))
    /\ SecureChannel.decrypt_patient_data envelope (receiver, w')
       = (loads_utf8 plaintext, (receiver, w2)).
Proof.
  intros Hs Hr Hne Hd Hlen Hsig.
  destruct (transport_between_channels_detail sender receiver ss data
              plaintext w w' Hs Hr Hne Hd Hlen Hsig)
    as (envelope & encrypted & w1 & w2 & He & _ & _ & Hdec).
  eauto.
Qed.

(** X1.  What a sender's call makes, a receiver's call reads.  Take two
    channels that hold the same non-empty shared secret, a payload whose
    serialisation has at most [2 ** 37] bytes, and a sender that has no
    signing keys or has a signing key that decodes.  Then
    [encrypt_patient_data] returns an envelope; on the other channel the
    authentication of its [encrypted] record succeeds, the cipher
    returning the serialised payload and not its failure value; and
    [decrypt_patient_data] returns what [json.loads] makes of the
    serialised payload (for the payload [None] that is [None]).  Neither
    channel changes. *)
Theorem channel_roundtrip `{Json}
    (sender receiver : SecureChannel.t) (ss : bytes)
    (data : pyval) (plaintext : bytes) (w w' : world) :
  SecureChannel.shared_secret sender = Some ss ->
  SecureChannel.shared_secret receiver = Some ss ->
  ss <> [] ->
  dumps_utf8 data = Ok plaintext ->
  (N.of_nat (length plaintext) <= 137438953472)%N ->
  (SecureChannel.has_sig_keys sender = false
   \/ exists v sk,
        subscript (SecureChannel.sig_keys sender) "signing_key" = Ok v
        /\ base64.b64decode v = Ok sk) ->
  exists (envelope : dict) (encrypted : pyval) w1 w2,
    SecureChannel.encrypt_patient_data data (sender, w)
    = (Ok envelope, (sender, w1))
    /\ envelope !! "encrypted" = Some encrypted
    /\ QuantumCipher.decrypt encrypted ss w' = (Ok (Some plaintext), w2)
    /\ SecureChannel.decrypt_patient_data envelope (receiver, w')
       = (loads_utf8 plaintext, (receiver, w2)).
Proof. apply transport_between_channels_detail. Qed.

Lemma channel_roundtrip_witness :
  exists (envelope : dict) (encrypted : pyval) w1 w2,
    SecureChannel.encrypt_patient_data (PBool true)
      (SecureChannel.Channel None None (Some secret_B) None, world_A)
    = (Ok envelope,
       (SecureChannel.Channel None None (Some secret_B) None, w1))
    /\ envelope !! "encrypted" = Some encrypted
    /\ QuantumCipher.decrypt encrypted secret_B (World [] [] [] [] [])
       = (Ok (Some (b "true")), w2)
    /\ SecureChannel.decrypt_patient_data envelope
         (SecureChannel.Channel None None (Some secret_B) (Some "s"),
          World [] [] [] [] [])
       = (loads_utf8 (b "true"),
          (SecureChannel.Channel None None (Some secret_B) (Some "s"), w2)).
Proof.
  apply (channel_roundtrip
           (SecureChannel.Channel None None (Some secret_B) None)
           (SecureChannel.Channel None None (Some secret_B) (Some "s"))
           secret_B (PBool true) (b "true")).
  - reflexivity.
  - reflexivity.
  - discriminate.
  - reflexivity.
  - vm_compute. discriminate.
  - left. reflexivity.
Defined.

(** The state of a server after [init_server], with its signing key. *)
Lemma init_server_state (A0 : SecureChannel.t) (wa : world) :
  exists (info kk sk : dict) sid wa1 signing_seed,
    SecureChannel.init_server (A0, wa) =
    (Ok info,
     (SecureChannel.Channel (Some kk) (Some sk)
        (SecureChannel.shared_secret A0) (Some sid), wa1))
    /\ info !! "public_key" =
       Some (PStr (base64.b64encode
                     (hashlib.sha3_512 (os.take_padded 64 (entropy wa)
                                        ++ b "kyber_public"))))
    /\ kk !! "private_key"
       = Some (PStr (base64.b64encode (os.take_padded 64 (entropy wa))))
    /\ sk !! "signing_key" = Some (PStr (base64.b64encode signing_seed))
    /\ sk <> ∅.
Proof.
  do 6 eexists.
  split; [reflexivity|]. split; [reflexivity|]. split; [reflexivity|].
  split; [reflexivity|].
  intros E. apply (f_equal (fun m : dict => m !! "signing_key")) in E.
  rewrite lookup_insert_eq, lookup_empty in E. discriminate.
Qed.

(** The signature entry of an envelope. *)
Lemma envelope_signature `{Json} (c : SecureChannel.t) (data : pyval)
    (plaintext : bytes) (w : world) (envelope : dict) s' :
  dumps_utf8 data = Ok plaintext ->
  SecureChannel.encrypt_patient_data data (c, w) = (Ok envelope, s') ->
  (SecureChannel.has_sig_keys c = false /\ envelope !! "signature" = Some PNone)
  \/ (exists v sg,
        SecureChannel.has_sig_keys c = true
        /\ subscript (SecureChannel.sig_keys c) "signing_key" = Ok v
        /\ QuantumSignature.sign plaintext v = Ok sg
        /\ envelope !! "signature" = Some (PStr sg)).
Proof.
  intros Hd. unfold SecureChannel.encrypt_patient_data.
  rewrite bind_run, self_run. cbn [fst snd].
  destruct (SecureChannel.no_secret c); [discriminate|].
  rewrite bind_run. unfold lift at 1. rewrite Hd.
  rewrite bind_run, self_run. cbn [fst snd].
  rewrite bind_run. unfold call at 1. cbn [fst snd].
  destruct (QuantumCipher.encrypt _ _ _) as [[enc|e|] w1]; try discriminate.
  rewrite bind_run, self_run. cbn [fst snd].
  rewrite bind_run.
  destruct (SecureChannel.has_sig_keys c).
  - rewrite bind_run, self_run. cbn [fst snd].
    rewrite bind_run. unfold lift at 1.
    destruct (subscript _ _) as [v| |] eqn:Ev; try discriminate.
    rewrite bind_run. unfold lift at 1.
    destruct (QuantumSignature.sign plaintext v) as [sg| |] eqn:Esg;
      try discriminate.
    rewrite ret_run, bind_run, self_run. cbn [fst snd]. rewrite ret_run.
    intros [= <- _]. right. exists v, sg.
    split; [reflexivity|]. split; [reflexivity|]. split; [exact Esg|].
    rewrite lookup_insert_ne by done. now rewrite lookup_insert_eq.
  - rewrite ret_run, bind_run, self_run. cbn [fst snd]. rewrite ret_run.
    intros [= <- _]. left. split; [reflexivity|].
    rewrite lookup_insert_ne by done. now rewrite lookup_insert_eq.
Qed.

Lemma sign_then_verify (data : bytes) (signing_key_b64 verify_key_b64 : pyval)
    (sg : string) :
  QuantumSignature.sign data signing_key_b64 = Ok sg ->
  QuantumSignature.verify data (PStr sg) verify_key_b64 signing_key_b64
  = Ok true.
Proof.
  unfold QuantumSignature.sign, QuantumSignature.verify.
  unfold mbind, result_bind, rbind.
  destruct (base64.b64decode signing_key_b64) as [sk| |]; try discriminate.
  intros [= <-]. rewrite b64decode_b64encode.
  now rewrite compare_digest_refl.
Qed.

(** X2.  The pattern of the callers ([api/server.py], [run_live.py],
    [run_experiment.py], [data/writer.py]): two new channels, the three
    handshake calls, then transport.  For every payload whose
    serialisation has at most [2 ** 37] bytes, the server's envelope
    decrypts on the client to what [json.loads] makes of the serialised
    payload, and the client's envelope decrypts on the server likewise.
    The server's envelope carries a signature; the client, which has no
    signing keys, sends [signature = None]. *)
Theorem handshake_then_transport `{Json}
    (wa wb w w' : world) (data : pyval) (plaintext : bytes) :
  dumps_utf8 data = Ok plaintext ->
  (N.of_nat (length plaintext) <= 137438953472)%N ->
  exists (info resp : dict) server1 wa1 pk client wb1 ct server wa2,
    SecureChannel.init_server (SecureChannel.__init__, wa)
    = (Ok info, (server1, wa1))
    /\ info !! "public_key" = Some pk
    /\ SecureChannel.init_client pk (SecureChannel.__init__, wb)
       = (Ok resp, (client, wb1))
    /\ resp !! "ciphertext" = Some ct
    /\ SecureChannel.complete_handshake ct (server1, wa1)
       = (Ok tt, (server, wa2))
    /\ (exists (envelope : dict) sg w1 w2,
          SecureChannel.encrypt_patient_data data (server, w)
          = (Ok envelope, (server, w1))
          /\ envelope !! "signature" = Some (PStr sg)
          /\ SecureChannel.decrypt_patient_data envelope (client, w')
             = (loads_utf8 plaintext, (client, w2)))
    /\ (exists (envelope : dict) w1 w2,
          SecureChannel.encrypt_patient_data data (client, w)
          = (Ok envelope, (client, w1))
          /\ envelope !! "signature" = Some PNone
          /\ SecureChannel.decrypt_patient_data envelope (server, w')
             = (loads_utf8 plaintext, (server, w2))).
Proof.
  intros Hd Hlen.
  destruct (init_server_state SecureChannel.__init__ wa)
    as (info & kk & sk & sid & wa1 & seed & HA & Hpk & Hsk & Hsig & Hne).
  destruct (init_client_run
              (hashlib.sha3_512 (os.take_padded 64 (entropy wa)
                                 ++ b "kyber_public"))
              SecureChannel.__init__ wb)
    as (resp & sid' & wb1 & HB & Hct).
  set (ss := hashlib.sha3_256 _) in HB.
  assert (Hss : ss <> []).
  { intros E. pose proof (sha3_256_length
      (hashlib.sha3_512 (os.take_padded 64 (entropy wa) ++ b "kyber_public")
       ++ os.take_padded 32 (entropy wb) ++ b "kyber_shared_secret")) as L.
    fold ss in L. rewrite E in L. discriminate. }
  set (server1 := SecureChannel.Channel (Some kk) (Some sk) _ (Some sid)) in HA.
  set (client := SecureChannel.Channel _ _ (Some ss) (Some sid')) in HB.
  set (server := SecureChannel.set_shared_secret (Some ss) server1).
  assert (HC : SecureChannel.complete_handshake
                 (PStr (base64.b64encode
                          (hashlib.sha3_512
                             (hashlib.sha3_512
                                (os.take_padded 64 (entropy wa)
                                 ++ b "kyber_public")
                              ++ os.take_padded 32 (entropy wb)
                              ++ b "kyber_ciphertext")
                           ++ os.take_padded 32 (entropy wb))))
                 (server1, wa1) = (Ok tt, (server, wa1))).
  { eapply complete_handshake_run; [reflexivity|exact Hsk|].
    apply decapsulate_encapsulated. }
  exists info, resp, server1, wa1. eexists. exists client, wb1.
  eexists. exists server, wa1.
  split; [exact HA|]. split; [exact Hpk|]. split; [exact HB|].
  split; [exact Hct|]. split; [exact HC|]. split.
  - destruct (transport_between_channels server client ss data plaintext
                w w') as (env & w1 & w2 & He & Hdec); try reflexivity;
      try assumption.
    { right. eexists _, seed. split.
      - unfold subscript, getitem. cbn. now rewrite Hsig.
      - apply b64decode_b64encode. }
    destruct (envelope_signature server data plaintext w env _ Hd He)
      as [(Hno & _)|(v & sg & _ & _ & _ & Hsg)].
    + exfalso. unfold SecureChannel.has_sig_keys in Hno. cbn in Hno.
      apply negb_false_iff, bool_decide_eq_true in Hno. contradiction.
    + exists env, sg, w1, w2. auto.
  - destruct (transport_between_channels client server ss data plaintext
                w w') as (env & w1 & w2 & He & Hdec); try reflexivity;
      try assumption.
    { left. reflexivity. }
    destruct (envelope_signature client data plaintext w env _ Hd He)
      as [(_ & Hsg)|(v & sg & Hyes & _)].
    + exists env, w1, w2. auto.
    + discriminate.
Qed.

Lemma handshake_then_transport_witness :
  exists (info resp : dict) server1 wa1 pk client wb1 ct server wa2,
    SecureChannel.init_server (SecureChannel.__init__, world_A)
    = (Ok info, (server1, wa1))
    /\ info !! "public_key" = Some pk
    /\ SecureChannel.init_client pk (SecureChannel.__init__, world_A)
       = (Ok resp, (client, wb1))
    /\ resp !! "ciphertext" = Some ct
    /\ SecureChannel.complete_handshake ct (server1, wa1)
       = (Ok tt, (server, wa2))
    /\ (exists (envelope : dict) sg w1 w2,
          SecureChannel.encrypt_patient_data PNone (server, world_A)
          = (Ok envelope, (server, w1))
          /\ envelope !! "signature" = Some (PStr sg)
          /\ SecureChannel.decrypt_patient_data envelope (client, world_A)
             = (loads_utf8 (b "null"), (client, w2)))
    /\ (exists (envelope : dict) w1 w2,
          SecureChannel.encrypt_patient_data PNone (client, world_A)
          = (Ok envelope, (client, w1))
          /\ envelope !! "signature" = Some PNone
          /\ SecureChannel.decrypt_patient_data envelope (server, world_A)
             = (loads_utf8 (b "null"), (server, w2))).
Proof.
  apply (handshake_then_transport world_A world_A world_A world_A
           PNone (b "null")).
  - reflexivity.
  - vm_compute. discriminate.
Defined.

(** ** Calls out of order, and malformed input *)

Lemma init_server_keeps_secret (c : SecureChannel.t) (w : world) :
  SecureChannel.shared_secret (SecureChannel.init_server (c, w)).2.1
  = SecureChannel.shared_secret c.
Proof. reflexivity. Qed.

(** X3.  Transport needs the handshake.  On a channel whose
    [shared_secret] is [None] or empty, [encrypt_patient_data] and
    [decrypt_patient_data] raise [RuntimeError("Handshake not completed")]
    whatever their argument, before anything is serialised, read or
    drawn: channel and world are as before.  [init_server] does not
    change that: it returns its message and leaves the channel without a
    secret, so a server cannot transport before [complete_handshake]. *)
Theorem transport_before_handshake_raises `{Json}
    (c : SecureChannel.t) (w : world) (data : pyval) (envelope : dict) :
  SecureChannel.no_secret c = true ->
  SecureChannel.encrypt_patient_data data (c, w)
  = (Raise (RuntimeError "Handshake not completed"), (c, w))
  /\ SecureChannel.decrypt_patient_data envelope (c, w)
     = (Raise (RuntimeError "Handshake not completed"), (c, w))
  /\ forall w0, exists info c1 w1,
       SecureChannel.init_server (c, w0) = (Ok info, (c1, w1))
       /\ SecureChannel.no_secret c1 = true.
Proof.
  intros Hno. split; [|split].
  - unfold SecureChannel.encrypt_patient_data.
    rewrite bind_run, self_run. cbn [fst snd]. now rewrite Hno.
  - unfold SecureChannel.decrypt_patient_data.
    rewrite bind_run, self_run. cbn [fst snd]. now rewrite Hno.
  - intros w0.
    destruct (init_server_run c w0) as (info & kk & sk & sid & w1 & E & _).
    exists info. eexists. exists w1. split; [exact E|].
    unfold SecureChannel.no_secret in *. exact Hno.
Qed.

Lemma transport_before_handshake_raises_witness :
  SecureChannel.encrypt_patient_data (H := literal_json) PNone
    (SecureChannel.__init__, world_A)
  = (Raise (RuntimeError "Handshake not completed"),
     (SecureChannel.__init__, world_A))
  /\ SecureChannel.decrypt_patient_data (H := literal_json) ∅
       (SecureChannel.__init__, world_A)
     = (Raise (RuntimeError "Handshake not completed"),
        (SecureChannel.__init__, world_A))
  /\ forall w0, exists info c1 w1,
       SecureChannel.init_server (SecureChannel.__init__, w0)
       = (Ok info, (c1, w1))
       /\ SecureChannel.no_secret c1 = true.
Proof.
  apply (transport_before_handshake_raises SecureChannel.__init__ world_A
           PNone ∅).
  reflexivity.
Defined.

Lemma a2b_base64_returns (cs : list ascii) : forall q l p out,
  base64.a2b_base64 cs q l p out <> Diverge.
Proof.
  induction cs as [|ch cs IH]; intros q l p out; cbn [base64.a2b_base64].
  - destruct (q =? 0)%N; discriminate.
  - repeat match goal with
           | |- context [if ?c then _ else _] => destruct c
           | |- context [match ?c with Some _ => _ | None => _ end] =>
               destruct c
           end; solve [apply IH | discriminate].
Qed.

Lemma b64decode_returns (v : pyval) : base64.b64decode v <> Diverge.
Proof.
  destruct v; unfold base64.b64decode; try discriminate.
  - match goal with |- context [if ?c then _ else _] => destruct c end;
      [apply a2b_base64_returns|discriminate].
  - apply a2b_base64_returns.
Qed.

Lemma field_returns (enc : pyval) (key : string) :
  QuantumCipher.field enc key <> Diverge.
Proof.
  unfold QuantumCipher.field, getitem, mbind, result_bind, rbind.
  destruct enc; try discriminate.
  destruct (_ !! _); [apply b64decode_returns|discriminate].
Qed.

Lemma field_missing (d : dict) (key : string) :
  d !! key = None ->
  QuantumCipher.field (PDict d) key = Raise (KeyError key).
Proof.
  intros E. unfold QuantumCipher.field, getitem, mbind, result_bind, rbind.
  now rewrite E.
Qed.

Lemma field_not_dict (v : pyval) (key : string) :
  (forall d, v <> PDict d) ->
  QuantumCipher.field v key = Raise TypeError.
Proof.
  intros Hv. destruct v; try reflexivity. now destruct (Hv d).
Qed.

(** A record that lacks one of its three fields, or is no dictionary. *)
Lemma decrypt_malformed (encrypted : pyval) (ss : bytes) (w : world) :
  (forall d, encrypted <> PDict d)
  \/ (exists d key, encrypted = PDict d
        /\ In key ["ciphertext"; "nonce"; "mac"] /\ d !! key = None) ->
  exists e, QuantumCipher.decrypt encrypted ss w = (Raise e, w).
Proof.
  intros Hbad. unfold QuantumCipher.decrypt.
  rewrite bind_run. unfold lift at 1.
  destruct (QuantumCipher.field encrypted "ciphertext") as [ct|e|] eqn:Ect;
    [|eauto|now destruct (field_returns encrypted "ciphertext")].
  rewrite bind_run. unfold lift at 1.
  destruct (QuantumCipher.field encrypted "nonce") as [n|e|] eqn:En;
    [|eauto|now destruct (field_returns encrypted "nonce")].
  rewrite bind_run. unfold lift at 1.
  destruct (QuantumCipher.field encrypted "mac") as [m|e|] eqn:Em;
    [|eauto|now destruct (field_returns encrypted "mac")].
  exfalso. destruct Hbad as [Hv|(d & key & -> & Hin & Hnone)].
  - rewrite (field_not_dict _ _ Hv) in Ect. discriminate.
  - cbn [In] in Hin.
    destruct Hin as [<-|[<-|[<-|[]]]];
      rewrite (field_missing _ _ Hnone) in *; discriminate.
Qed.

(** X4.  A malformed envelope is an exception, not a [None].  After the
    handshake, [decrypt_patient_data] raises, with channel and world
    untouched, when the envelope has no ["encrypted"] entry, when that
    entry is no dictionary, or when it lacks one of ["ciphertext"],
    ["nonce"], ["mac"].  The [None] of a failed authentication is never
    the answer to a record that lacks a field. *)
Theorem malformed_envelope_raises `{Json}
    (c : SecureChannel.t) (w : world) (envelope : dict) :
  SecureChannel.no_secret c = false ->
  (envelope !! "encrypted" = None
   \/ (exists v, envelope !! "encrypted" = Some v
         /\ forall d, v <> PDict d)
   \/ (exists d key, envelope !! "encrypted" = Some (PDict d)
         /\ In key ["ciphertext"; "nonce"; "mac"] /\ d !! key = None)) ->
  exists e,
    SecureChannel.decrypt_patient_data envelope (c, w) = (Raise e, (c, w)).
Proof.
  intros Hs Hbad. unfold SecureChannel.decrypt_patient_data.
  rewrite bind_run, self_run. cbn [fst snd]. rewrite Hs.
  rewrite bind_run. unfold lift at 1, getitem.
  destruct (envelope !! "encrypted") as [enc|] eqn:Eenc; [|eauto].
  rewrite bind_run, self_run. cbn [fst snd].
  rewrite bind_run. unfold call at 1. cbn [fst snd].
  destruct (decrypt_malformed enc (SecureChannel.the_secret c) w) as (e & E).
  - destruct Hbad as [?|[(v & [= <-] & Hv)|(d & key & [= ->] & Hk)]];
      [discriminate|now left|right; eauto].
  - rewrite E. eauto.
Qed.

Lemma malformed_envelope_raises_witness :
  exists e,
    SecureChannel.decrypt_patient_data (H := literal_json)
      {[ "encrypted" := PDict {[ "ciphertext" := PStr "aGk=";
                                 "mac" := PStr "" ]} ]}
      (SecureChannel.Channel None None (Some secret_B) None, world_A)
    = (Raise e,
       (SecureChannel.Channel None None (Some secret_B) None, world_A)).
Proof.
  apply malformed_envelope_raises.
  - reflexivity.
  - right. right.
    exists {[ "ciphertext" := PStr "aGk="; "mac" := PStr "" ]}, "nonce".
    split; [reflexivity|]. split; [cbn; auto|reflexivity].
Defined.

(** X5.  A handshake step that raises has changed nothing.  When
    [init_client] or [complete_handshake] raises (the key or ciphertext
    is no Base64 string, or [complete_handshake] is called on a channel
    on which [init_server] never ran), the channel holds the keys,
    secret and session id it held before, and no entropy has been
    consumed. *)
Theorem failed_handshake_step_changes_nothing
    (c : SecureChannel.t) (w : world) (message : pyval) (e : exn)
    (after : SecureChannel.t * world) :
  SecureChannel.init_client message (c, w) = (Raise e, after)
  \/ SecureChannel.complete_handshake message (c, w) = (Raise e, after) ->
  after = (c, w).
Proof.
  intros [E|E].
  - unfold SecureChannel.init_client in E.
    rewrite bind_run in E. unfold call at 1 in E. cbn [fst snd] in E.
    unfold QuantumKEM.encapsulate in E.
    rewrite bind_run in E. unfold lift at 1 in E.
    destruct (base64.b64decode message); [discriminate| |discriminate].
    now injection E as _ <-.
  - unfold SecureChannel.complete_handshake in E.
    rewrite bind_run, self_run in E. cbn [fst snd] in E.
    rewrite bind_run in E. unfold lift at 1 in E.
    destruct (subscript _ _); [|now injection E as _ <-|discriminate].
    rewrite bind_run in E. unfold lift at 1 in E.
    destruct (QuantumKEM.decapsulate _ _);
      [discriminate|now injection E as _ <-|discriminate].
Qed.

Lemma failed_handshake_step_changes_nothing_witness :
  SecureChannel.complete_handshake (PStr "AAAA")
    (SecureChannel.__init__, world_A)
  = (Raise TypeError, (SecureChannel.__init__, world_A))
  /\ (SecureChannel.__init__, world_A) = (SecureChannel.__init__, world_A).
Proof.
  split; [reflexivity|].
  apply (failed_handshake_step_changes_nothing SecureChannel.__init__
           world_A (PStr "AAAA") TypeError).
  right. reflexivity.
Defined.

(** ** The shape of what is sent *)

(** X6.  What [encrypt] puts in a record.  For a plaintext of at most
    [2 ** 37] bytes the call returns; the ["ciphertext"] field decodes to
    exactly as many bytes as the plaintext has (nothing is padded, so the
    length of the message is visible), ["nonce"] to the next 16 bytes of
    entropy, ["mac"] to the 32-byte HMAC of nonce and ciphertext under
    the MAC key, and ["timestamp"] is the clock reading truncated to an
    integer.  The call consumes 16 bytes of entropy and one clock
    reading. *)
Theorem encrypted_record_shape (plaintext shared_secret : bytes) (w : world) :
  (N.of_nat (length plaintext) <= 137438953472)%N ->
  exists (record : dict) ciphertext nonce mac timestamp w1,
    QuantumCipher.encrypt plaintext shared_secret w = (Ok record, w1)
    /\ envelope_fields (PDict record) ciphertext nonce mac
    /\ length ciphertext = length plaintext
    /\ nonce = os.take_padded 16 (entropy w)
    /\ length nonce = 16%nat
    /\ mac = expected_mac shared_secret nonce ciphertext
    /\ length mac = 32%nat
    /\ record !! "timestamp" = Some (PInt timestamp)
    /\ pyfloat.to_int (seconds (hd epoch (clock w))) = Ok timestamp
    /\ entropy w1 = drop 16 (entropy w)
    /\ clock w1 = tl (clock w).
Proof.
  intros Hlen.
  destruct (key_stream_ok (hashlib.sha3_256 (shared_secret ++ b "enc_key"))
              (os.take_padded 16 (entropy w)) (length plaintext) Hlen)
    as (ks & log & Hks & Hrun).
  destruct (to_int_number (seconds (hd epoch (clock w)))
              (seconds_ok _)) as (ts & Hts).
  eexists _, (xor_zip plaintext ks), _, _, ts, _.
  split.
  { unfold QuantumCipher.encrypt, QuantumCipher.xor_bytes, os.urandom,
      time.time.
    prog_simpl. rewrite Hrun.
    cbn [clock set_oplog set_entropy]. rewrite Hts. reflexivity. }
  split; [apply encrypted_record_fields|].
  split; [rewrite xor_zip_length; lia|].
  split; [reflexivity|].
  split; [apply take_padded_length|].
  split; [reflexivity|].
  split; [apply hmac_sha3_256_length|].
  split.
  { rewrite !lookup_insert_ne by done. now rewrite lookup_insert_eq. }
  split; [exact Hts|]. split; reflexivity.
Qed.

Lemma encrypted_record_shape_witness :
  exists (record : dict) ciphertext nonce mac timestamp w1,
    QuantumCipher.encrypt (b "hello") secret_B world_A = (Ok record, w1)
    /\ envelope_fields (PDict record) ciphertext nonce mac
    /\ length ciphertext = length (b "hello")
    /\ nonce = os.take_padded 16 (entropy world_A)
    /\ length nonce = 16%nat
    /\ mac = expected_mac secret_B nonce ciphertext
    /\ length mac = 32%nat
    /\ record !! "timestamp" = Some (PInt timestamp)
    /\ pyfloat.to_int (seconds (hd epoch (clock world_A))) = Ok timestamp
    /\ entropy w1 = drop 16 (entropy world_A)
    /\ clock w1 = tl (clock world_A).
Proof.
  apply (encrypted_record_shape (b "hello") secret_B world_A).
  vm_compute. discriminate.
Defined.

(** X7.  Sizes in the key encapsulation.  [keygen] returns a public and
    a private key that decode to 64 bytes each, the private key being
    the 64 bytes of entropy drawn.  [encapsulate], for any public key
    whatever its length, returns a ciphertext that decodes to 96 bytes,
    the last 32 of them the ephemeral value drawn, and a secret of
    [SHARED_SECRET_BYTES = 32] bytes.  [decapsulate] returns 32 bytes
    for any private key and ciphertext that decode. *)
Theorem kem_sizes (w : world) :
  (exists (keys : dict) public_key private_key w1,
     QuantumKEM.keygen w = (Ok keys, w1)
     /\ QuantumCipher.field (PDict keys) "public_key" = Ok public_key
     /\ QuantumCipher.field (PDict keys) "private_key" = Ok private_key
     /\ length public_key = 64%nat
     /\ length private_key = 64%nat
     /\ private_key = os.take_padded 64 (entropy w))
  /\ (forall public_key : bytes,
        exists ciphertext ct_raw shared_secret w1,
          QuantumKEM.encapsulate (PStr (base64.b64encode public_key)) w
          = (Ok (ciphertext, shared_secret), w1)
          /\ base64.b64decode (PStr ciphertext) = Ok ct_raw
          /\ length ct_raw = 96%nat
          /\ slice_from 64 ct_raw = os.take_padded 32 (entropy w)
          /\ length shared_secret = QuantumKEM.SHARED_SECRET_BYTES)
  /\ (forall private_key ct_raw : bytes,
        exists shared_secret,
          QuantumKEM.decapsulate (PStr (base64.b64encode private_key))
            (PStr (base64.b64encode ct_raw)) = Ok shared_secret
          /\ length shared_secret = QuantumKEM.SHARED_SECRET_BYTES).
Proof.
  split; [|split].
  - rewrite keygen_run. eexists _, _, _, _. split; [reflexivity|].
    unfold QuantumCipher.field, getitem, mbind, result_bind, rbind.
    rewrite lookup_insert_eq, lookup_insert_ne, lookup_insert_eq by done.
    rewrite !b64decode_b64encode.
    split; [reflexivity|]. split; [reflexivity|].
    split; [apply sha3_512_length|].
    split; [apply take_padded_length|reflexivity].
  - intros public_key. pose proof (encapsulate_run public_key w) as E.
    cbn zeta in E. rewrite E. eexists _, _, _, _.
    split; [reflexivity|]. split; [apply b64decode_b64encode|].
    split; [|split].
    + rewrite length_app, sha3_512_length, take_padded_length. reflexivity.
    + unfold slice_from.
      now rewrite drop_app_length' by (symmetry; apply sha3_512_length).
    + apply sha3_256_length.
  - intros private_key ct_raw.
    erewrite decapsulate_run by apply b64decode_b64encode.
    eexists. split; [reflexivity|apply sha3_256_length].
Qed.

(** [encapsulate] on a key that decodes. *)
Lemma encapsulate_decoded (public_key_b64 : pyval) (public_key : bytes)
    (w : world) :
  base64.b64decode public_key_b64 = Ok public_key ->
  QuantumKEM.encapsulate public_key_b64 w =
  (Ok (base64.b64encode
         (hashlib.sha3_512
            (public_key ++ os.take_padded 32 (entropy w)
             ++ b "kyber_ciphertext")
          ++ os.take_padded 32 (entropy w)),
       hashlib.sha3_256
         (public_key ++ os.take_padded 32 (entropy w)
          ++ b "kyber_shared_secret")),
   set_entropy (drop 32 (entropy w)) w).
Proof.
  intros E. unfold QuantumKEM.encapsulate. prog_simpl. now rewrite E.
Qed.

(** X8.  The private key adds nothing to the two messages of the
    handshake.  Whenever [encapsulate] returns a ciphertext and a shared
    secret for a public key, that secret is the SHA3-256 digest of the
    decoded public key, the bytes of the decoded ciphertext after the
    64th, and the label [b"kyber_shared_secret"]: a function of the
    public key and the ciphertext alone, both of which travel in the
    clear. *)
Theorem shared_secret_follows_from_public_messages
    (public_key_b64 : pyval) (w w1 : world)
    (ciphertext : string) (shared_secret : bytes) :
  QuantumKEM.encapsulate public_key_b64 w
  = (Ok (ciphertext, shared_secret), w1) ->
  secret_from_transcript public_key_b64 (PStr ciphertext) = Ok shared_secret.
Proof.
  destruct (base64.b64decode public_key_b64) as [pk|e|] eqn:E.
  - rewrite (encapsulate_decoded _ _ _ E). intros H.
    apply (f_equal fst) in H. cbn [fst] in H.
    assert (Hc : ciphertext
                 = base64.b64encode
                     (hashlib.sha3_512
                        (pk ++ os.take_padded 32 (entropy w)
                         ++ b "kyber_ciphertext")
                      ++ os.take_padded 32 (entropy w)))
      by congruence.
    assert (Hs : shared_secret
                 = hashlib.sha3_256
                     (pk ++ os.take_padded 32 (entropy w)
                      ++ b "kyber_shared_secret"))
      by congruence.
    subst ciphertext shared_secret. clear H.
    unfold secret_from_transcript, mbind, result_bind, rbind.
    rewrite E, b64decode_b64encode. unfold slice_from.
    now rewrite drop_app_length' by (symmetry; apply sha3_512_length).
  - unfold QuantumKEM.encapsulate. rewrite bind_run. unfold lift at 1.
    rewrite E. discriminate.
  - unfold QuantumKEM.encapsulate. rewrite bind_run. unfold lift at 1.
    rewrite E. discriminate.
Qed.

Lemma shared_secret_follows_from_public_messages_witness :
  secret_from_transcript (PStr zero_seed_b64)
    (PStr (base64.b64encode
             (hashlib.sha3_512
                (repeat x00 64 ++ os.take_padded 32 (entropy world_A)
                 ++ b "kyber_ciphertext")
              ++ os.take_padded 32 (entropy world_A))))
  = Ok (hashlib.sha3_256
          (repeat x00 64 ++ os.take_padded 32 (entropy world_A)
           ++ b "kyber_shared_secret")).
Proof.
  apply (shared_secret_follows_from_public_messages (PStr zero_seed_b64)
           world_A (set_entropy (drop 32 (entropy world_A)) world_A)).
  vm_compute. reflexivity.
Defined.

(** ** One nonce, two messages *)

Lemma key_stream_blocks_length key nonce n : forall counter,
  length (key_stream_blocks key nonce n counter) = (32 * n)%nat.
Proof.
  induction n as [|n IH]; intros counter; cbn [key_stream_blocks].
  - reflexivity.
  - rewrite length_app, sha3_256_length, IH. lia.
Qed.

Lemma key_stream_blocks_app key nonce n m : forall counter,
  key_stream_blocks key nonce (n + m) counter
  = key_stream_blocks key nonce n counter
    ++ key_stream_blocks key nonce m (counter + N.of_nat n).
Proof.
  induction n as [|n IH]; intros counter.
  - cbn. now rewrite N.add_0_r.
  - cbn [key_stream_blocks Nat.add]. rewrite IH, <- app_assoc.
    do 3 f_equal. lia.
Qed.

(** The stream the loop returns is a prefix of the blocks hashed. *)
Lemma key_stream_loop_blocks key nonce len : forall k fuel stream counter w,
  (k <= fuel)%nat ->
  (len <= length stream + 32 * k)%nat ->
  (counter + N.of_nat k <= 4294967296)%N ->
  (QuantumCipher._key_stream_loop fuel key nonce len stream counter w).1
  = Ok (take len (stream ++ key_stream_blocks key nonce k counter)).
Proof.
  induction k as [|k IH]; intros fuel stream counter w Hfuel Hlen Hctr;
    rewrite key_stream_loop_unfold.
  - assert (E : (length stream <? len)%nat = false)
      by (apply Nat.ltb_ge; lia).
    rewrite E. cbn [key_stream_blocks]. now rewrite app_nil_r.
  - destruct (length stream <? len)%nat eqn:E.
    + destruct fuel as [|fuel]; [lia|].
      rewrite pack_I_be_ok by lia.
      pose (block := hashlib.sha3_256 (key ++ nonce ++ struct.be32 counter)).
      prog_simpl. fold block.
      rewrite IH.
      * cbn [key_stream_blocks]. fold block. now rewrite <- app_assoc.
      * lia.
      * rewrite length_app. subst block. rewrite sha3_256_length. lia.
      * lia.
    + apply Nat.ltb_ge in E. prog_simpl. cbn [fst]. unfold slice_to.
      now rewrite take_app_le by lia.
Qed.

Lemma key_stream_prefix key nonce len n w :
  (N.of_nat len <= 137438953472)%N ->
  ((len + 31) / 32 <= n)%nat ->
  (QuantumCipher._key_stream key nonce len w).1
  = Ok (take len (key_stream_blocks key nonce n 0)).
Proof.
  intros Hlen Hn. unfold QuantumCipher._key_stream.
  pose proof (Nat.div_mod_eq (len + 31) 32) as D.
  pose proof (Nat.mod_upper_bound (len + 31) 32) as M.
  rewrite (key_stream_loop_blocks key nonce len ((len + 31) / 32))
    by (cbn [length]; lia).
  cbn [app]. f_equal.
  replace n with ((len + 31) / 32 + (n - (len + 31) / 32))%nat by lia.
  rewrite key_stream_blocks_app.
  rewrite take_app_le; [reflexivity|].
  rewrite key_stream_blocks_length. lia.
Qed.

Lemma byte_xor_same_key (a c k : byte) :
  byte_xor (byte_xor a k) (byte_xor c k) = byte_xor a c.
Proof.
  unfold byte_xor.
  rewrite !to_N_byte_of_N by (apply lxor_lt_256; apply to_N_lt_256).
  f_equal.
  rewrite N.lxor_assoc, (N.lxor_comm (Byte.to_N c)), <- (N.lxor_assoc (Byte.to_N k)).
  now rewrite N.lxor_nilpotent, N.lxor_0_l.
Qed.

Lemma xor_zip_same_stream (stream : bytes) : forall m1 m2 : bytes,
  (length m1 <= length stream)%nat ->
  (length m2 <= length stream)%nat ->
  xor_zip (xor_zip m1 (take (length m1) stream))
          (xor_zip m2 (take (length m2) stream))
  = xor_zip m1 m2.
Proof.
  induction stream as [|s stream IH]; intros [|a m1] [|c m2] H1 H2;
    cbn in *; try reflexivity; try lia.
  rewrite byte_xor_same_key. f_equal. apply IH; lia.
Qed.

(** X9.  The cipher has no defence against a repeated nonce.  When two
    calls of [encrypt] under one shared secret draw the same 16 bytes
    from [os.urandom], the byte-wise XOR of the two ciphertexts is the
    byte-wise XOR of the two plaintexts (over the length of the shorter
    one): the key stream depends on key, nonce and block counter only,
    and the stream of the shorter message is a prefix of the stream of
    the longer. *)
Theorem nonce_reuse_reveals_plaintext_xor
    (m1 m2 shared_secret : bytes) (w1 w2 : world) :
  (N.of_nat (length m1) <= 137438953472)%N ->
  (N.of_nat (length m2) <= 137438953472)%N ->
  os.take_padded 16 (entropy w1) = os.take_padded 16 (entropy w2) ->
  exists (record1 record2 : dict) c1 c2 nonce mac1 mac2 w1' w2',
    QuantumCipher.encrypt m1 shared_secret w1 = (Ok record1, w1')
    /\ QuantumCipher.encrypt m2 shared_secret w2 = (Ok record2, w2')
    /\ envelope_fields (PDict record1) c1 nonce mac1
    /\ envelope_fields (PDict record2) c2 nonce mac2
    /\ xor_zip c1 c2 = xor_zip m1 m2.
Proof.
  intros H1 H2 Hn.
  destruct (encrypt_run m1 shared_secret w1 H1)
    as (ks1 & log1 & ts1 & w1' & Hk1 & Hr1 & He1).
  destruct (encrypt_run m2 shared_secret w2 H2)
    as (ks2 & log2 & ts2 & w2' & Hk2 & Hr2 & He2).
  cbn zeta in *. rewrite <- Hn in Hr2, He2.
  set (nonce := os.take_padded 16 (entropy w1)) in *.
  set (enc_key := hashlib.sha3_256 (shared_secret ++ b "enc_key")) in *.
  set (n := ((length m1 + 31) / 32 + (length m2 + 31) / 32)%nat).
  set (stream := key_stream_blocks enc_key nonce n 0).
  assert (E1 : ks1 = take (length m1) stream).
  { pose proof (key_stream_prefix enc_key nonce (length m1) n w1 H1) as P.
    rewrite Hr1 in P. cbn [fst] in P.
    assert (Ok ks1 = Ok (take (length m1) stream)) as [= ->]
      by (apply P; subst n; lia).
    reflexivity. }
  assert (E2 : ks2 = take (length m2) stream).
  { pose proof (key_stream_prefix enc_key nonce (length m2) n w1 H2) as P.
    rewrite Hr2 in P. cbn [fst] in P.
    assert (Ok ks2 = Ok (take (length m2) stream)) as [= ->]
      by (apply P; subst n; lia).
    reflexivity. }
  assert (L : length stream = (32 * n)%nat)
    by apply key_stream_blocks_length.
  pose proof (Nat.div_mod_eq (length m1 + 31) 32).
  pose proof (Nat.mod_upper_bound (length m1 + 31) 32).
  pose proof (Nat.div_mod_eq (length m2 + 31) 32).
  pose proof (Nat.mod_upper_bound (length m2 + 31) 32).
  eexists _, _, (xor_zip m1 ks1), (xor_zip m2 ks2), nonce, _, _, w1', w2'.
  split; [exact He1|]. split; [exact He2|].
  split; [apply encrypted_record_fields|].
  split; [apply encrypted_record_fields|].
  rewrite E1, E2. apply xor_zip_same_stream; subst n; lia.
Qed.

Lemma nonce_reuse_reveals_plaintext_xor_witness :
  exists (record1 record2 : dict) c1 c2 nonce mac1 mac2 w1' w2',
    QuantumCipher.encrypt (b "hello") secret_B world_A = (Ok record1, w1')
    /\ QuantumCipher.encrypt (b "HELLO!") secret_B world_A
       = (Ok record2, w2')
    /\ envelope_fields (PDict record1) c1 nonce mac1
    /\ envelope_fields (PDict record2) c2 nonce mac2
    /\ xor_zip c1 c2 = xor_zip (b "hello") (b "HELLO!").
Proof.
  apply (nonce_reuse_reveals_plaintext_xor (b "hello") (b "HELLO!")
           secret_B world_A world_A).
  - vm_compute. discriminate.
  - vm_compute. discriminate.
  - reflexivity.
Defined.

(** * Further properties of [bb84_qkd.py] *)
(* ===================================================================== *)

(** ** One qubit *)

(** X10.  One qubit from Alice to Bob.  When Bob measures in the basis
    Alice encoded in, the simulator is not consulted and his bit is
    determined: in basis [Z] it is Alice's bit, inverted when the channel
    flipped the qubit; in basis [X] it is Alice's bit whether or not the
    channel flipped it, since the X gate of the noise leaves [|+>] and
    [|->] as they are.  When Bob measures in the other basis his bit is
    the simulator's next shot, whatever Alice sent. *)
Theorem measurement_by_basis
    (basis_i : basis) (bit_i : bit) (flipped : bool) (w : world) :
  aer.measured_bit (bob_circuit basis_i (sent basis_i bit_i flipped)) w
  = (Ok (match basis_i with
         | Zbasis => xorb bit_i flipped
         | Xbasis => bit_i
         end), w)
  /\ forall other, other <> basis_i ->
       aer.measured_bit (bob_circuit other (sent basis_i bit_i flipped)) w
       = (Ok (hd false (shots w)), set_shots (tl (shots w)) w).
Proof.
  split.
  - destruct basis_i, bit_i, flipped; reflexivity.
  - intros other Hne.
    destruct basis_i, other, bit_i, flipped; try congruence; reflexivity.
Qed.

(** ** Loops *)

Lemma for_each_total {St A B} (f : A -> prog St B) (l : list A)
    (I : St -> Prop) (R : A -> B -> Prop) :
  (forall x s, In x l -> I s ->
     exists y s', f x s = (Ok y, s') /\ I s' /\ R x y) ->
  forall s, I s ->
    exists ys s', for_each f l s = (Ok ys, s') /\ I s' /\ Forall2 R l ys.
Proof.
  induction l as [|x l IH]; intros Hf s Hs; cbn [for_each].
  - exists [], s. rewrite ret_run. auto.
  - destruct (Hf x s) as (y & s1 & E1 & I1 & R1); [now left|exact Hs|].
    destruct IH with (s := s1) as (ys & s2 & E2 & I2 & R2);
      [intros; apply Hf; [now right|assumption]|exact I1|].
    exists (y :: ys), s2. rewrite bind_run, E1, bind_run, E2, ret_run. auto.
Qed.

Lemma for_loop_seq_total {St} (body : nat -> prog St unit)
    (I : nat -> St -> Prop) (len : nat) : forall start,
  (forall i s, (start <= i < start + len)%nat -> I i s ->
     exists s', body i s = (Ok tt, s') /\ I (S i) s') ->
  forall s, I start s ->
    exists s', for_loop body (seq start len) s = (Ok tt, s')
               /\ I (start + len)%nat s'.
Proof.
  induction len as [|len IH]; intros start Hb s Hs; cbn [seq for_loop].
  - exists s. rewrite ret_run, Nat.add_0_r. auto.
  - destruct (Hb start s) as (s1 & E1 & I1); [lia|exact Hs|].
    destruct (IH (S start)) with (s := s1) as (s2 & E2 & I2);
      [intros; apply Hb; [lia|assumption]|exact I1|].
    exists s2. rewrite bind_run, E1, E2.
    replace (start + S len)%nat with (S start + len)%nat by lia. auto.
Qed.

Lemma assign_run {S} (f : S -> S) (s : S * world) :
  assign f s = (Ok tt, (f s.1, s.2)).
Proof. reflexivity. Qed.

Lemma call_run {S A} (m : prog world A) (o : S) (w : world) :
  call m (o, w) = ((m w).1, (o, (m w).2)).
Proof. unfold call. cbn [fst snd]. now destruct (m w). Qed.

Lemma lift_run {St A} (r : result A) (s : St) : lift r s = (r, s).
Proof. reflexivity. Qed.

Lemma draws_total {B} (f : prog world B) (l : list nat) :
  (forall w, exists y w', f w = (Ok y, w')) ->
  forall w, exists ys w',
    for_each (fun _ => f) l w = (Ok ys, w') /\ length ys = length l.
Proof.
  intros Hf w.
  destruct (for_each_total (fun _ : nat => f) l (fun _ => True)
              (fun _ _ => True)) with (s := w)
    as (ys & w' & E & _ & F); [|exact I|].
  - intros x s _ _. destruct (Hf s) as (y & s' & Ey). eauto.
  - exists ys, w'. split; [exact E|].
    symmetry. eapply Forall2_length, F.
Qed.

Lemma randint_total (w : world) :
  exists y w', random.randint_0_1 w = (Ok y, w').
Proof. eexists _, _. reflexivity. Qed.

Lemma choice_total {A} (d : A) (l : list A) (w : world) :
  exists y w', random.choice d l w = (Ok y, w').
Proof. eexists _, _. reflexivity. Qed.

Lemma random_total (w : world) :
  exists y w', random.random w = (Ok y, w').
Proof. eexists _, _. reflexivity. Qed.

Lemma index_lt {A} (l : list A) (i : nat) :
  (i < length l)%nat -> exists x, l !! i = Some x /\ index l i = Ok x.
Proof.
  intros H. destruct (lookup_lt_is_Some_2 l i H) as (x & E).
  exists x. unfold index. now rewrite E.
Qed.

Lemma index_ge {A} (l : list A) (i : nat) :
  (length l <= i)%nat -> index l i = Raise IndexError.
Proof.
  intros H. unfold index. now rewrite (lookup_ge_None_2 l i H).
Qed.

(** ** Preparation and measurement *)

(** [alice_prepare] returns one circuit per qubit and never raises. *)
Lemma alice_prepare_run (o : BB84KeyExchange.t) (w : world) :
  let n := Z.to_nat (BB84KeyExchange.n_qubits o) in
  exists bits bases circuits w1,
    BB84KeyExchange.alice_prepare (o, w)
    = (Ok circuits,
       (BB84KeyExchange.set_alice_bases bases
          (BB84KeyExchange.set_alice_bits bits o), w1))
    /\ length bits = n
    /\ length bases = n
    /\ Forall2
         (fun i qc =>
            exists a x flipped,
              bases !! i = Some a /\ bits !! i = Some x
              /\ qc = sent a x flipped
              /\ (pyfloat.gtb (BB84KeyExchange.noise_prob o) pyfloat.zero
                  = false -> flipped = false))
         (seq 0 n) circuits.
Proof.
  intros n. unfold BB84KeyExchange.alice_prepare.
  rewrite bind_run, self_run. cbn [fst snd].
  destruct (draws_total random.randint_0_1
              (range (BB84KeyExchange.n_qubits o)) randint_total w)
    as (bits & w1 & E1 & L1).
  rewrite bind_run, call_run, E1. cbn [fst snd].
  rewrite bind_run, assign_run. cbn [fst snd].
  rewrite bind_run, self_run. cbn [fst snd].
  destruct (draws_total (random.choice Zbasis [Zbasis; Xbasis])
              (range (BB84KeyExchange.n_qubits o))
              (choice_total Zbasis [Zbasis; Xbasis]) w1)
    as (bases & w2 & E2 & L2).
  rewrite bind_run, call_run.
  change (BB84KeyExchange.n_qubits (BB84KeyExchange.set_alice_bits bits o))
    with (BB84KeyExchange.n_qubits o).
  rewrite E2. cbn [fst snd].
  rewrite bind_run, assign_run. cbn [fst snd].
  rewrite bind_run, self_run. cbn [fst snd].
  set (o1 := BB84KeyExchange.set_alice_bases bases
               (BB84KeyExchange.set_alice_bits bits o)).
  change (BB84KeyExchange.n_qubits o1) with (BB84KeyExchange.n_qubits o).
  unfold range in *. rewrite List.length_seq in L1, L2. fold n in L1, L2 |- *.
  match goal with
  | |- context [for_each ?f (seq 0 n) (o1, w2)] =>
      destruct (for_each_total f (seq 0 n)
                  (fun s : BB84KeyExchange.t * world => s.1 = o1)
                  (fun i qc =>
                     exists a x flipped,
                       bases !! i = Some a /\ bits !! i = Some x
                       /\ qc = sent a x flipped
                       /\ (pyfloat.gtb (BB84KeyExchange.noise_prob o)
                             pyfloat.zero = false -> flipped = false)))
        with (s := (o1, w2)) as (circuits & [o' w3] & E3 & I3 & F3)
  end.
  - intros i [o' w'] Hi Ho'. cbn [fst] in Ho'. subst o'.
    apply in_seq in Hi.
    destruct (index_lt bases i) as (a & Ha & Ea); [lia|].
    destruct (index_lt bits i) as (x & Hx & Ex); [lia|].
    rewrite bind_run, self_run. cbn [fst snd].
    rewrite bind_run, lift_run.
    change (BB84KeyExchange.alice_bases o1) with bases. rewrite Ea.
    rewrite bind_run, lift_run.
    change (BB84KeyExchange.alice_bits o1) with bits. rewrite Ex.
    cbn zeta.
    rewrite bind_run, self_run. cbn [fst snd].
    rewrite bind_run.
    change (BB84KeyExchange.noise_prob o1)
      with (BB84KeyExchange.noise_prob o).
    destruct (pyfloat.gtb (BB84KeyExchange.noise_prob o) pyfloat.zero)
      eqn:Enoise.
    + rewrite bind_run, call_run.
      destruct (random_total w') as (r & w'' & Er). rewrite Er.
      cbn [fst snd]. rewrite bind_run, self_run. cbn [fst snd].
      rewrite !ret_run.
      eexists _, (o1, w''). split; [reflexivity|]. split; [reflexivity|].
      exists a, x, (pyfloat.ltb r (BB84KeyExchange.noise_prob o1)).
      repeat split; auto. discriminate.
    + rewrite !ret_run.
      eexists _, (o1, w'). split; [reflexivity|]. split; [reflexivity|].
      exists a, x, false. repeat split; auto.
  - reflexivity.
  - cbn [fst] in I3. subst o'.
    exists bits, bases, circuits, w3. rewrite E3. auto.
Qed.

(** X18.  [alice_prepare] never raises.  Whatever the object held
    before, it stores [n_qubits] fresh bits and bases (none when
    [n_qubits <= 0]) and returns one circuit per qubit, the encoding of
    bit [i] in basis [i], followed by an X gate where the channel
    flipped it; with [noise_prob <= 0] no qubit is flipped. *)
Theorem alice_prepare_circuits (o : BB84KeyExchange.t) (w : world) :
  let n := Z.to_nat (BB84KeyExchange.n_qubits o) in
  exists bits bases circuits w1,
    BB84KeyExchange.alice_prepare (o, w)
    = (Ok circuits,
       (BB84KeyExchange.set_alice_bases bases
          (BB84KeyExchange.set_alice_bits bits o), w1))
    /\ length bits = n
    /\ length bases = n
    /\ Forall2
         (fun i qc =>
            exists a x flipped,
              bases !! i = Some a /\ bits !! i = Some x
              /\ qc = sent a x flipped
              /\ (pyfloat.gtb (BB84KeyExchange.noise_prob o) pyfloat.zero
                  = false -> flipped = false))
         (seq 0 n) circuits.
Proof. apply alice_prepare_run. Qed.

Lemma run_from_total (qc : circuit) : forall q creg w,
  exists x w', aer.run_from qc q creg w = (Ok x, w').
Proof.
  induction qc as [|g qc IH]; intros q creg w; cbn [aer.run_from].
  - eexists _, _. reflexivity.
  - destruct g; [apply IH|apply IH|].
    destruct q; [apply IH|apply IH|..];
      rewrite bind_run; unfold aer.next_shot; cbn beta iota; apply IH.
Qed.

(** [bob_measure] on at least as many circuits as there are qubits. *)
Lemma bob_measure_run (o : BB84KeyExchange.t) (w : world)
    (circuits : list circuit) :
  let n := Z.to_nat (BB84KeyExchange.n_qubits o) in
  (n <= length circuits)%nat ->
  exists bases results w1,
    BB84KeyExchange.bob_measure circuits (o, w)
    = (Ok results,
       (BB84KeyExchange.set_bob_results results
          (BB84KeyExchange.set_bob_bases bases o), w1))
    /\ length bases = n
    /\ length results = n
    /\ forall i qc c x,
         circuits !! i = Some qc -> bases !! i = Some c ->
         (forall w', (aer.measured_bit (bob_circuit c qc) w').1 = Ok x) ->
         (i < n)%nat ->
         results !! i = Some x.
Proof.
  intros n Hn. unfold BB84KeyExchange.bob_measure.
  rewrite bind_run, self_run. cbn [fst snd].
  destruct (draws_total (random.choice Zbasis [Zbasis; Xbasis])
              (range (BB84KeyExchange.n_qubits o))
              (choice_total Zbasis [Zbasis; Xbasis]) w)
    as (bases & w1 & E1 & L1).
  rewrite bind_run, call_run, E1. cbn [fst snd].
  rewrite bind_run, assign_run. cbn [fst snd].
  rewrite bind_run, assign_run. cbn [fst snd].
  rewrite bind_run, self_run. cbn [fst snd].
  unfold range in *. rewrite List.length_seq in L1. fold n in L1.
  set (o1 := BB84KeyExchange.set_bob_bases bases o).
  change (BB84KeyExchange.n_qubits
            (BB84KeyExchange.set_bob_results [] o1))
    with (BB84KeyExchange.n_qubits o).
  fold n.
  pose (P := fun rs : list bit =>
               forall i qc c x,
                 circuits !! i = Some qc -> bases !! i = Some c ->
                 (forall w', (aer.measured_bit (bob_circuit c qc) w').1
                             = Ok x) ->
                 (i < length rs)%nat -> rs !! i = Some x).
  match goal with
  | |- context [for_loop ?body (seq 0 n)] =>
      destruct (for_loop_seq_total body
                  (fun k (s : BB84KeyExchange.t * world) =>
                     exists rs,
                       s.1 = BB84KeyExchange.set_bob_results rs o1
                       /\ length rs = k /\ P rs)
                  n 0)
        with (s := (BB84KeyExchange.set_bob_results [] o1, w1))
        as ([o2 w2] & E2 & rs & I2 & L2 & P2)
  end.
  - intros i [o' w'] Hi (rs & Ho' & Lrs & Prs). cbn [fst] in Ho'. subst o'.
    destruct (index_lt circuits i) as (qc & Hqc & Eqc); [lia|].
    destruct (index_lt bases i) as (c & Hc & Ec); [lia|].
    rewrite bind_run, lift_run, Eqc.
    rewrite bind_run, self_run. cbn [fst snd].
    rewrite bind_run, lift_run.
    change (BB84KeyExchange.bob_bases
              (BB84KeyExchange.set_bob_results rs o1)) with bases.
    rewrite Ec. cbn zeta.
    fold (bob_circuit c qc).
    destruct (run_from_total (bob_circuit c qc) Q0 false w')
      as (m & w'' & Em).
    fold (aer.measured_bit (bob_circuit c qc)) in Em.
    rewrite bind_run, call_run, Em. cbn [fst snd].
    rewrite assign_run. cbn [fst snd].
    eexists. split; [reflexivity|].
    exists (rs ++ [m]). split; [reflexivity|].
    split; [rewrite length_app; cbn; lia|].
    intros i' qc' c' x Hqc' Hc' Hdet Hi'.
    rewrite length_app in Hi'. cbn [length] in Hi'.
    destruct (decide (i' < length rs)%nat) as [Hlt|Hge].
    + rewrite lookup_app_l by exact Hlt. eapply Prs; eauto.
    + assert (i' = i) by lia. subst i'.
      rewrite lookup_app_r by lia.
      replace (i - length rs)%nat with 0%nat by lia. cbn.
      assert (qc' = qc) by congruence. assert (c' = c) by congruence.
      subst qc' c'. specialize (Hdet w'). rewrite Em in Hdet.
      cbn [fst] in Hdet. congruence.
  - exists []. split; [reflexivity|]. split; [reflexivity|].
    intros i qc c x _ _ _ Hi. cbn in Hi. lia.
  - cbn [fst] in I2. subst o2.
    rewrite bind_run, E2. rewrite bind_run, self_run. cbn [fst snd].
    rewrite ret_run.
    exists bases, rs, w2. split; [reflexivity|].
    split; [exact L1|]. split; [cbn in L2; lia|].
    intros i qc c x Hqc Hc Hdet Hi. eapply P2; eauto. cbn in L2. lia.
Qed.

(** ** Sifting *)

(** The loop of [sift_keys] on indices within the four lists: it returns
    two lists of one length, equal when Bob's result is Alice's bit
    wherever their bases agree. *)
Lemma sift_loop_run (o : BB84KeyExchange.t) (agree : Prop) :
  forall idxs a0 c0,
  (forall i, In i idxs ->
     exists a c x y,
       BB84KeyExchange.alice_bases o !! i = Some a
       /\ BB84KeyExchange.bob_bases o !! i = Some c
       /\ BB84KeyExchange.alice_bits o !! i = Some x
       /\ BB84KeyExchange.bob_results o !! i = Some y
       /\ (agree -> a = c -> y = x)) ->
  exists a c,
    BB84KeyExchange.sift_loop o idxs a0 c0 = Ok (a0 ++ a, c0 ++ c)
    /\ length a = length c
    /\ (length a <= length idxs)%nat
    /\ (agree -> a = c).
Proof.
  induction idxs as [|i idxs IH]; intros a0 c0 Hall;
    cbn [BB84KeyExchange.sift_loop].
  - exists [], []. rewrite !app_nil_r. cbn. auto.
  - destruct (Hall i) as (a & c & x & y & Ha & Hc & Hx & Hy & Hxy);
      [now left|].
    unfold index, mbind, result_bind, rbind. rewrite Ha, Hc.
    destruct (basis_eqb a c) eqn:Eb.
    + rewrite Hx, Hy.
      assert (a = c) by (destruct a, c; congruence || discriminate).
      destruct (IH (a0 ++ [x]) (c0 ++ [y])) as (a' & c' & E & L & L' & Heq);
        [intros; apply Hall; now right|].
      exists (x :: a'), (y :: c'). rewrite E, <- !app_assoc. cbn.
      split; [reflexivity|]. split; [lia|]. split; [lia|].
      intros Hag. rewrite (Hxy Hag H), (Heq Hag). reflexivity.
    + destruct (IH a0 c0) as (a' & c' & E & L & L' & Heq);
        [intros; apply Hall; now right|].
      exists a', c'. cbn. auto.
Qed.

(** Preparation, measurement and sifting never raise, whatever the
    object, the noise and the draws. *)
Lemma steps_until_sifted (o : BB84KeyExchange.t) (w : world) :
  exists circuits results a c o1 w1 o2 w2,
    BB84KeyExchange.alice_prepare (o, w) = (Ok circuits, (o1, w1))
    /\ BB84KeyExchange.bob_measure circuits (o1, w1)
       = (Ok results, (o2, w2))
    /\ BB84KeyExchange.sift_keys (o2, w2)
       = (Ok (a, c), (BB84KeyExchange.set_sifted_key a o2, w2))
    /\ length a = length c
    /\ (length a <= Z.to_nat (BB84KeyExchange.n_qubits o))%nat
    /\ (pyfloat.gtb (BB84KeyExchange.noise_prob o) pyfloat.zero = false ->
        a = c)
    /\ BB84KeyExchange.n_qubits o2 = BB84KeyExchange.n_qubits o
    /\ BB84KeyExchange.noise_prob o2 = BB84KeyExchange.noise_prob o
    /\ BB84KeyExchange.final_key o2 = BB84KeyExchange.final_key o
    /\ BB84KeyExchange.error_rate o2 = BB84KeyExchange.error_rate o
    /\ BB84KeyExchange.eavesdropper_detected o2
       = BB84KeyExchange.eavesdropper_detected o.
Proof.
  destruct (alice_prepare_run o w)
    as (bits & bases & circuits & w1 & E1 & Lbits & Lbases & F1).
  cbn zeta in *.
  set (n := Z.to_nat (BB84KeyExchange.n_qubits o)) in *.
  set (o1 := BB84KeyExchange.set_alice_bases bases
               (BB84KeyExchange.set_alice_bits bits o)) in *.
  assert (Lc : length circuits = n).
  { apply Forall2_length in F1. rewrite List.length_seq in F1. lia. }
  destruct (bob_measure_run o1 w1 circuits)
    as (bbases & results & w2 & E2 & Lbb & Lres & Hres).
  { change (BB84KeyExchange.n_qubits o1) with (BB84KeyExchange.n_qubits o).
    fold n. lia. }
  cbn zeta in *.
  change (BB84KeyExchange.n_qubits o1)
    with (BB84KeyExchange.n_qubits o) in *. fold n in Lbb, Lres, Hres.
  set (o2 := BB84KeyExchange.set_bob_results results
               (BB84KeyExchange.set_bob_bases bbases o1)) in *.
  destruct (sift_loop_run o2
              (pyfloat.gtb (BB84KeyExchange.noise_prob o) pyfloat.zero
               = false)
              (range (BB84KeyExchange.n_qubits o2)) [] [])
    as (a & c & Ekey & Lac & La & Hagree).
  { intros i Hi. unfold range in Hi. apply in_seq in Hi.
    change (BB84KeyExchange.n_qubits o2)
      with (BB84KeyExchange.n_qubits o) in Hi. fold n in Hi.
    change (BB84KeyExchange.alice_bases o2) with bases.
    change (BB84KeyExchange.bob_bases o2) with bbases.
    change (BB84KeyExchange.alice_bits o2) with bits.
    change (BB84KeyExchange.bob_results o2) with results.
    destruct (lookup_lt_is_Some_2 bbases i) as (cb & Hc); [lia|].
    destruct (lookup_lt_is_Some_2 results i) as (y & Hy); [lia|].
    destruct (lookup_lt_is_Some_2 circuits i) as (qc & Hqc); [lia|].
    destruct (Forall2_lookup_r _ _ _ _ _ F1 Hqc)
      as (j & Hj & ab & x & flipped & Ha & Hx & -> & Hflip).
    apply lookup_seq in Hj as [-> _]. cbn [Nat.add] in *.
    exists ab, cb, x, y. repeat split; auto.
    intros Hnoise <-. rewrite (Hflip Hnoise) in Hqc.
    assert (results !! i = Some x) as Hx'.
    { eapply Hres; eauto; [|lia].
      intros w'. destruct ab, x; reflexivity. }
    congruence. }
  cbn [app] in Ekey.
  exists circuits, results, a, c, o1, w1, o2, w2.
  split; [exact E1|]. split; [exact E2|]. split.
  { unfold BB84KeyExchange.sift_keys.
    rewrite bind_run, self_run. cbn [fst snd].
    rewrite bind_run, lift_run, Ekey.
    rewrite bind_run, assign_run. cbn [fst snd]. now rewrite ret_run. }
  split; [exact Lac|]. split.
  { unfold range in La. rewrite List.length_seq in La. exact La. }
  split; [exact Hagree|]. repeat split.
Qed.

Lemma run_until_sifted_run (o : BB84KeyExchange.t) (w : world) :
  exists a c o' w',
    run_until_sifted (o, w) = (Ok (a, c), (o', w'))
    /\ BB84KeyExchange.sifted_key o' = a
    /\ length a = length c
    /\ (length a <= Z.to_nat (BB84KeyExchange.n_qubits o))%nat
    /\ (pyfloat.gtb (BB84KeyExchange.noise_prob o) pyfloat.zero = false ->
        a = c).
Proof.
  unfold run_until_sifted.
  rewrite bind_run, time_run. cbn beta iota.
  destruct (steps_until_sifted o (set_clock (tl (clock w)) w))
    as (circuits & results & a & c & o1 & w1 & o2 & w2
        & E1 & E2 & E3 & L & Ln & Hag & _).
  rewrite bind_run, E1, bind_run, E2, E3.
  eexists a, c, _, _. split; [reflexivity|]. auto.
Qed.

(** X11.  The steps of a run up to the sifting never raise, whatever
    the object, the noise and the random draws: preparation, measurement
    and sifting return two sifted keys of one length, at most
    [n_qubits], and [sifted_key] holds Alice's.  Over a channel without
    noise ([noise_prob <= 0]) the two sifted keys are equal: wherever the
    bases agree, Bob has read Alice's bit. *)
Theorem sifting_is_total_and_noiseless_keys_agree
    (o : BB84KeyExchange.t) (w : world) :
  exists a c o' w',
    run_until_sifted (o, w) = (Ok (a, c), (o', w'))
    /\ BB84KeyExchange.sifted_key o' = a
    /\ length a = length c
    /\ (length a <= Z.to_nat (BB84KeyExchange.n_qubits o))%nat
    /\ (pyfloat.gtb (BB84KeyExchange.noise_prob o) pyfloat.zero = false ->
        a = c).
Proof. apply run_until_sifted_run. Qed.

(** ** [random.sample] *)

Lemma nth_lookup_default (l : list nat) (i : nat) (x : nat) :
  l !! i = Some x -> nth i l 0%nat = x.
Proof.
  intros H. rewrite nth_lookup. now rewrite H. 
Qed.

(** Taking position [j] out of the first [m] elements of the pool and
    moving the last of them into the hole. *)
Lemma pool_step (pool : list nat) (m j : nat) :
  (j < m)%nat -> (m <= length pool)%nat ->
  take m pool
  ≡ₚ nth j pool 0%nat
     :: take (m - 1) (<[j := nth (m - 1) pool 0%nat]> pool).
Proof.
  intros Hj Hm.
  destruct (lookup_lt_is_Some_2 pool (m - 1)) as (y & Hy); [lia|].
  destruct (lookup_lt_is_Some_2 pool j) as (x & Hx); [lia|].
  rewrite (nth_lookup_default _ _ _ Hy), (nth_lookup_default _ _ _ Hx).
  replace m with (S (m - 1)) at 1 by lia.
  rewrite (take_S_r _ _ _ Hy).
  destruct (decide (j = m - 1)%nat) as [->|Hne].
  - rewrite take_insert_ge by lia.
    assert (x = y) by congruence. subst x.
    now rewrite Permutation_app_comm.
  - rewrite take_insert_lt by lia.
    set (L := take (m - 1) pool).
    assert (HL : L !! j = Some x).
    { subst L. rewrite lookup_take_lt by lia. exact Hx. }
    rewrite Permutation_app_comm. cbn [app].
    rewrite (delete_Permutation L j x HL) at 1.
    rewrite insert_take_drop by (apply lookup_lt_Some in HL; exact HL).
    rewrite <- Permutation_middle.
    rewrite (Permutation_swap y x). do 2 f_equiv.
    now rewrite delete_take_drop.
Qed.

Lemma sample_loop_spec (n : nat) : forall k i pool result w,
  (i + k <= n)%nat ->
  length pool = n ->
  result ++ take (n - i) pool ≡ₚ seq 0 n ->
  exists drawn rest w',
    random.sample_loop k i n pool result w = (Ok (result ++ drawn), w')
    /\ length drawn = k
    /\ result ++ drawn ++ rest ≡ₚ seq 0 n.
Proof.
  induction k as [|k IH]; intros i pool result w Hk Hlen Hperm;
    cbn [random.sample_loop].
  - exists [], (take (n - i) pool), w. rewrite ret_run, app_nil_r. auto.
  - rewrite bind_run. unfold random.randbelow at 1.
    rewrite bind_run. unfold random.next at 1. cbn beta iota.
    rewrite ret_run.
    set (j := N.to_nat (hd 0%N (draws w) mod N.of_nat (n - i))).
    assert (Hj : (j < n - i)%nat).
    { subst j. pose proof (N.mod_upper_bound (hd 0%N (draws w))
                             (N.of_nat (n - i))). lia. }
    destruct (IH (S i) (<[j := nth (n - i - 1) pool 0%nat]> pool)
                (result ++ [nth j pool 0%nat])
                (set_draws (tl (draws w)) w))
      as (drawn & rest & w' & E & L & P).
    + lia.
    + now rewrite length_insert.
    + rewrite <- app_assoc. cbn [app].
      replace (n - S i)%nat with (n - i - 1)%nat by lia.
      rewrite <- (pool_step pool (n - i) j) by lia. exact Hperm.
    + exists (nth j pool 0%nat :: drawn), rest, w'.
      rewrite E, <- app_assoc. cbn [app length].
      split; [reflexivity|]. split; [lia|].
      rewrite <- app_assoc in P. exact P.
Qed.

(** [random.sample(range(n), k)] returns, for [0 <= k <= n], [k]
    distinct members of [range(n)]. *)
Lemma sample_range_spec (n : nat) (k : Z) (w : world) :
  (0 <= k <= Z.of_nat n)%Z ->
  exists drawn rest w',
    random.sample_range n k w = (Ok drawn, w')
    /\ length drawn = Z.to_nat k
    /\ drawn ++ rest ≡ₚ seq 0 n.
Proof.
  intros Hk. unfold random.sample_range.
  assert (E : ((k <? 0) || (Z.of_nat n <? k))%Z = false).
  { apply orb_false_iff. split; [apply Z.ltb_ge|apply Z.ltb_ge]; lia. }
  rewrite E.
  destruct (sample_loop_spec n (Z.to_nat k) 0 (seq 0 n) [] w)
    as (drawn & rest & w' & Es & L & P).
  - lia.
  - apply List.length_seq.
  - cbn [app]. rewrite Nat.sub_0_r.
    rewrite take_ge by (rewrite List.length_seq; lia). reflexivity.
  - exists drawn, rest, w'. auto.
Qed.

Lemma sample_range_raises (n : nat) (k : Z) (w : world) :
  (k < 0 \/ Z.of_nat n < k)%Z ->
  random.sample_range n k w = (Raise ValueError, w).
Proof.
  intros Hk. unfold random.sample_range.
  assert (E : ((k <? 0) || (Z.of_nat n <? k))%Z = true).
  { apply orb_true_iff. destruct Hk; [left|right]; apply Z.ltb_lt; lia. }
  now rewrite E.
Qed.

(** A sample and what it leaves of [range(n)]. *)
Lemma sample_facts (n : nat) (drawn rest : list nat) :
  drawn ++ rest ≡ₚ seq 0 n ->
  NoDup drawn
  /\ (forall i, i ∈ drawn -> (i < n)%nat)
  /\ (forall i, i ∈ rest -> (i < n)%nat /\ i ∉ drawn)
  /\ (length drawn + length rest = n)%nat.
Proof.
  intros P.
  assert (ND : NoDup (drawn ++ rest)) by (rewrite P; apply NoDup_seq).
  apply NoDup_app in ND as (ND1 & Hdis & ND2).
  assert (Hin : forall i, i ∈ drawn ++ rest -> (i < n)%nat).
  { intros i Hi. rewrite P in Hi. apply elem_of_seq in Hi. lia. }
  split; [exact ND1|]. split; [|split].
  - intros i Hi. apply Hin, elem_of_app. now left.
  - intros i Hi. split; [apply Hin, elem_of_app; now right|].
    intros Hd. now apply (Hdis i Hd).
  - apply Permutation_length in P.
    rewrite length_app, List.length_seq in P. exact P.
Qed.

Lemma omap_all_none {A B} (f : A -> option B) (l : list A) :
  (forall x, x ∈ l -> f x = None) -> omap f l = [].
Proof.
  induction l as [|x l IH]; intros H; cbn; [reflexivity|].
  rewrite (H x) by now left. apply IH. intros; apply H. now right.
Qed.

Lemma omap_all_some {A B} (f : A -> option B) (l : list A) :
  (forall x, x ∈ l -> is_Some (f x)) -> length (omap f l) = length l.
Proof.
  induction l as [|x l IH]; intros H; cbn; [reflexivity|].
  destruct (H x) as (y & ->); [now left|]. cbn.
  rewrite IH; [reflexivity|]. intros; apply H. now right.
Qed.

(** What is left of a key once the sampled positions are removed. *)
Lemma without_length (l : list bit) (drawn rest : list nat) :
  drawn ++ rest ≡ₚ seq 0 (length l) ->
  length (BB84KeyExchange.without l drawn) = length rest.
Proof.
  intros P. destruct (sample_facts _ _ _ P) as (_ & _ & Hrest & _).
  unfold BB84KeyExchange.without.
  rewrite <- (Permutation_length
                (omap_Permutation
                   (fun i => if bool_decide (i ∈ drawn) then None
                             else l !! i) _ _ P)).
  rewrite omap_app, length_app.
  rewrite omap_all_none.
  - cbn [length]. apply omap_all_some.
    intros i Hi. destruct (Hrest i Hi) as (Hlt & Hnot).
    rewrite bool_decide_eq_false_2 by exact Hnot.
    now apply lookup_lt_is_Some_2.
  - intros i Hi. now rewrite bool_decide_eq_true_2.
Qed.

Lemma count_errors_total (a c : list bit) : forall indices,
  length c = length a ->
  (forall i, i ∈ indices -> (i < length a)%nat) ->
  exists e, BB84KeyExchange.count_errors a c indices = Ok e
            /\ (0 <= e <= Z.of_nat (length indices))%Z.
Proof.
  intros indices Hlen.
  induction indices as [|i indices IH]; intros Hin;
    cbn [BB84KeyExchange.count_errors].
  - exists 0%Z. cbn. split; [reflexivity|lia].
  - destruct IH as (e & E & He); [intros; apply Hin; now right|].
    assert (Hi : (i < length a)%nat) by (apply Hin; now left).
    destruct (lookup_lt_is_Some_2 a i Hi) as (x & Hx).
    destruct (lookup_lt_is_Some_2 c i) as (y & Hy); [lia|].
    unfold index, mbind, result_bind, rbind. rewrite Hx, Hy, E.
    eexists. split; [reflexivity|].
    cbn [length]. destruct (negb (eqb x y)); lia.
Qed.

(** ** Error estimation *)

Lemma count_errors_same (key : list bit) : forall indices e,
  BB84KeyExchange.count_errors key key indices = Ok e -> e = 0%Z.
Proof.
  induction indices as [|i indices IH]; intros e;
    cbn [BB84KeyExchange.count_errors].
  - now intros [= <-].
  - unfold mbind, result_bind, rbind.
    destruct (index key i) as [a| |]; try discriminate.
    destruct (BB84KeyExchange.count_errors key key indices) as [rest| |];
      try discriminate.
    rewrite eqb_reflx. cbn [negb]. intros [= <-]. now apply IH.
Qed.

Lemma int_truediv_zero (k : Z) :
  (0 < k)%Z -> pyfloat.int_truediv 0 k = Ok pyfloat.zero.
Proof.
  intros Hk. destruct k as [|p|p]; try lia.
  unfold pyfloat.int_truediv.
  assert (E : (pyfloat.overflow_threshold * Z.abs (Z.pos p) <=? Z.abs 0)%Z
              = false).
  { apply Z.leb_gt. pose proof overflow_threshold_large. cbn [Z.abs]. lia. }
  cbn [Z.eqb]. rewrite E. reflexivity.
Qed.

Lemma sample_size_of_cases (n : nat) (f : float) :
  (exists k, BB84KeyExchange.sample_size_of n f = Ok k /\ (1 <= k)%Z)
  \/ BB84KeyExchange.sample_size_of n f = Raise ValueError
  \/ BB84KeyExchange.sample_size_of n f = Raise OverflowError.
Proof.
  unfold BB84KeyExchange.sample_size_of, mbind, result_bind, rbind,
    pyfloat.of_int.
  destruct (_ <=? _)%Z; [now right; right|].
  destruct (pyfloat.mul _ f) as [s|s| |s m e]; cbn [pyfloat.to_int].
  - left. eexists. split; [reflexivity|lia].
  - now right; right.
  - now right; left.
  - left. eexists. split; [reflexivity|lia].
Qed.

(** The two ways [estimate_error] ends on keys of one length: it raises
    before anything is assigned or drawn, or it returns with every bit
    of the key accounted for. *)
Lemma estimate_error_cases (a c : list bit) (f : float)
    (o : BB84KeyExchange.t) (w : world) :
  length c = length a ->
  (exists e,
     BB84KeyExchange.estimate_error a c f (o, w) = (Raise e, (o, w))
     /\ (e = ValueError \/ e = OverflowError)
     /\ (forall k, BB84KeyExchange.sample_size_of (length a) f = Ok k ->
         (Z.of_nat (length a) < k)%Z))
  \/ (exists k drawn rest errors rate (d : dict) w',
        BB84KeyExchange.sample_size_of (length a) f = Ok k
        /\ (1 <= k <= Z.of_nat (length a))%Z
        /\ random.sample_range (length a) k w = (Ok drawn, w')
        /\ drawn ++ rest ≡ₚ seq 0 (length a)
        /\ length drawn = Z.to_nat k
        /\ BB84KeyExchange.count_errors a c drawn = Ok errors
        /\ (0 <= errors <= k)%Z
        /\ pyfloat.int_truediv errors k = Ok rate
        /\ BB84KeyExchange.estimate_error a c f (o, w)
           = (Ok d,
              (BB84KeyExchange.set_eavesdropper_detected
                 (pyfloat.gtb rate pyfloat.lit_0_11)
                 (BB84KeyExchange.set_error_rate rate o), w'))
        /\ d !! "error_rate" = Some (PFloat (pyfloat.round rate 4))
        /\ d !! "sample_size" = Some (PInt k)
        /\ d !! "errors_found" = Some (PInt errors)
        /\ d !! "eavesdropper_detected"
           = Some (PBool (pyfloat.gtb rate pyfloat.lit_0_11))
        /\ d !! "remaining_key_bits"
           = Some (PInt (Z.of_nat (length a) - k))
        /\ d !! "secure"
           = Some (PBool (negb (pyfloat.gtb rate pyfloat.lit_0_11)))).
Proof.
  intros Hlen. unfold BB84KeyExchange.estimate_error. cbn zeta.
  rewrite bind_run, lift_run.
  destruct (sample_size_of_cases (length a) f) as [(k & Ek & Hk)|[Ek|Ek]];
    rewrite Ek;
    [|left; eexists; split; [reflexivity|]; split; [auto|discriminate]..].
  rewrite bind_run, call_run.
  destruct (Z_lt_le_dec (Z.of_nat (length a)) k) as [Hbig|Hfit].
  { rewrite sample_range_raises by lia. cbn [fst snd].
    left. eexists. split; [reflexivity|]. split; [auto|].
    intros k' [= <-]. exact Hbig. }
  destruct (sample_range_spec (length a) k w) as (drawn & rest & w' & Es & Ld & P);
    [lia|].
  rewrite Es. cbn [fst snd].
  destruct (sample_facts _ _ _ P) as (ND & Hin & _ & Hsum).
  destruct (count_errors_total a c drawn Hlen Hin) as (errors & Ec & He).
  rewrite bind_run, lift_run, Ec.
  assert (E0 : (0 <? k)%Z = true) by (apply Z.ltb_lt; lia).
  destruct (int_truediv_ok errors k) as (rate & Er); [lia|lia|].
  rewrite bind_run, lift_run, E0, Er.
  rewrite bind_run, assign_run. cbn [fst snd].
  rewrite bind_run, self_run. cbn [fst snd].
  rewrite bind_run, assign_run. cbn [fst snd].
  rewrite bind_run, self_run. cbn [fst snd]. rewrite ret_run.
  right. exists k, drawn, rest, errors, rate. eexists. exists w'.
  split; [reflexivity|]. split; [lia|]. split; [exact Es|].
  split; [exact P|]. split; [exact Ld|]. split; [exact Ec|].
  split; [lia|]. split; [exact Er|]. split; [reflexivity|].
  split; [now rewrite lookup_insert_eq|].
  split; [rewrite !lookup_insert_ne by done; now rewrite lookup_insert_eq|].
  split; [rewrite !lookup_insert_ne by done; now rewrite lookup_insert_eq|].
  split; [rewrite !lookup_insert_ne by done; now rewrite lookup_insert_eq|].
  split.
  { rewrite !lookup_insert_ne by done. rewrite lookup_insert_eq.
    rewrite (without_length a drawn rest P). do 2 f_equal. lia. }
  rewrite !lookup_insert_ne by done. now rewrite lookup_singleton_eq.
Qed.

(** ** Hexadecimal *)

Lemma hex_digits_of_byte (x : byte) :
  let hi := hex_digit (N.shiftr (Byte.to_N x) 4) in
  let lo := hex_digit (N.land (Byte.to_N x) 15) in
  is_space hi = false
  /\ hex_value hi = Some (N.shiftr (Byte.to_N x) 4)
  /\ hex_value lo = Some (N.land (Byte.to_N x) 15)
  /\ byte_of_N (16 * N.shiftr (Byte.to_N x) 4 + N.land (Byte.to_N x) 15) = x.
Proof. destruct x; vm_compute; auto. Qed.

(** [bytes.fromhex(bs.hex())] is [bs]. *)
Lemma fromhex_hex (bs : bytes) : fromhex (hex bs) = Ok bs.
Proof.
  unfold fromhex, hex. rewrite list_ascii_of_string_of_list_ascii.
  induction bs as [|x bs IH]; [reflexivity|].
  cbn [flat_map app].
  destruct (hex_digits_of_byte x) as (Hs & Hh & Hl & Hb).
  cbn zeta in *. cbn [fromhex_chars]. rewrite Hs, Hh, Hl, IH.
  cbn [rbind]. now rewrite Hb.
Qed.

Lemma hex_truthy (bs : bytes) :
  bs <> [] -> truthy (PStr (hex bs)) = true.
Proof. destruct bs as [|x bs]; [congruence|reflexivity]. Qed.

(** ** The rest of the run *)

Lemma remaining_of_run (a : list bit) (k : Z) :
  BB84KeyExchange.sample_size_of (length a) pyfloat.lit_0_2 = Ok k ->
  (0 <= k <= Z.of_nat (length a))%Z ->
  forall idxs w,
    (forall i, In i idxs -> (i < length a)%nat) ->
    exists remaining w',
      BB84KeyExchange.remaining_of a idxs w = (Ok remaining, w').
Proof.
  intros Ek Hk.
  induction idxs as [|i idxs IH]; intros w Hin;
    cbn [BB84KeyExchange.remaining_of].
  - eexists _, _. reflexivity.
  - rewrite bind_run, lift_run, Ek.
    destruct (sample_range_spec (length a) k w Hk)
      as (drawn & rest & w1 & Es & _).
    rewrite bind_run, Es.
    destruct (IH w1) as (rem & w2 & Er); [intros; apply Hin; now right|].
    destruct (bool_decide (i ∈ drawn)).
    + eauto.
    + destruct (index_lt a i) as (x & _ & Ex); [apply Hin; now left|].
      rewrite bind_run, lift_run, Ex, bind_run, Er, ret_run. eauto.
Qed.

(** The outcomes of [run_protocol]: it raises in the error estimation,
    or returns with a positive verdict and no key, or returns with a
    negative verdict and a key. *)
Lemma privacy_amplification_run (key_bits : list bit) (target_bytes : Z)
    (o : BB84KeyExchange.t) (w : world) :
  let key :=
    hashlib.sha3_256
      (BB84KeyExchange.bit_string key_bits ++ b "vitalguard_qkd_pa") in
  BB84KeyExchange.privacy_amplification key_bits target_bytes (o, w)
  = (Ok key, (BB84KeyExchange.set_final_key (Some key) o, w)).
Proof. reflexivity. Qed.

Lemma run_protocol_cases (o : BB84KeyExchange.t) (w : world) :
  exists a c o3 w3,
    run_until_sifted (o, w) = (Ok (a, c), (o3, w3))
    /\ length a = length c
    /\ (pyfloat.gtb (BB84KeyExchange.noise_prob o) pyfloat.zero = false ->
        a = c)
    /\ BB84KeyExchange.final_key o3 = BB84KeyExchange.final_key o
    /\ BB84KeyExchange.error_rate o3 = BB84KeyExchange.error_rate o
    /\ BB84KeyExchange.eavesdropper_detected o3
       = BB84KeyExchange.eavesdropper_detected o
    /\ BB84KeyExchange.sifted_key o3 = a
    /\ ((exists e,
           BB84KeyExchange.estimate_error a c pyfloat.lit_0_2 (o3, w3)
           = (Raise e, (o3, w3))
           /\ (e = ValueError \/ e = OverflowError)
           /\ BB84KeyExchange.run_protocol (o, w) = (Raise e, (o3, w3)))
        \/ (exists (info d : dict) rate errors w4 w',
              BB84KeyExchange.estimate_error a c pyfloat.lit_0_2 (o3, w3)
              = (Ok info,
                 (BB84KeyExchange.set_eavesdropper_detected
                    (pyfloat.gtb rate pyfloat.lit_0_11)
                    (BB84KeyExchange.set_error_rate rate o3), w4))
              /\ info !! "errors_found" = Some (PInt errors)
              /\ (errors = 0%Z -> rate = pyfloat.zero)
              /\ (a = c -> errors = 0%Z)
              /\ d !! "error_estimation" = Some (PDict info)
              /\ d !! "sifted_key_length" = Some (PInt (Z.of_nat (length a)))
              /\ d !! "secure"
                 = Some (PBool (negb (pyfloat.gtb rate pyfloat.lit_0_11)))
              /\ if pyfloat.gtb rate pyfloat.lit_0_11 then
                   BB84KeyExchange.run_protocol (o, w)
                   = (Ok d,
                      (BB84KeyExchange.set_eavesdropper_detected true
                         (BB84KeyExchange.set_error_rate rate o3), w'))
                   /\ d !! "final_key_hex" = Some PNone
                   /\ d !! "final_key_bits" = Some (PInt 0)
                 else
                   exists remaining,
                     let key :=
                       hashlib.sha3_256
                         (BB84KeyExchange.bit_string remaining
                          ++ b "vitalguard_qkd_pa") in
                     BB84KeyExchange.run_protocol (o, w)
                     = (Ok d,
                        (BB84KeyExchange.set_final_key (Some key)
                           (BB84KeyExchange.set_eavesdropper_detected false
                              (BB84KeyExchange.set_error_rate rate o3)),
                         w'))
                     /\ d !! "final_key_hex" = Some (PStr (hex key))
                     /\ d !! "final_key_bits" = Some (PInt 256))).
Proof.
  destruct (steps_until_sifted o (set_clock (tl (clock w)) w))
    as (circuits & results & a & c & o1 & w1 & o2 & w2
        & E1 & E2 & E3 & L & Ln & Hag & Hn & Hnoise & Hfk & Her & Hdet).
  set (o3 := BB84KeyExchange.set_sifted_key a o2) in *.
  exists a, c, o3, w2.
  split.
  { unfold run_until_sifted. rewrite bind_run, time_run. cbn beta iota.
    now rewrite bind_run, E1, bind_run, E2, E3. }
  unfold BB84KeyExchange.run_protocol.
  rewrite bind_run, time_run. cbn beta iota.
  rewrite bind_run, E1, bind_run, E2, bind_run, E3. cbn beta iota zeta.
  cbn [fst snd].
  split; [exact L|]. split; [exact Hag|].
  split; [exact Hfk|]. split; [exact Her|]. split; [exact Hdet|].
  split; [reflexivity|].
  destruct (estimate_error_cases a c pyfloat.lit_0_2 o3 w2 (eq_sym L))
    as [(e & Ee & He & _)
       |(k & drawn & rest & errors & rate & info & w4 & Ek & Hk & Es & P
         & Ld & Ec & Herr & Er & Ee & _ & _ & Ierr & Idet & _ & _)].
  { left. exists e. rewrite bind_run, Ee. auto. }
  right. rewrite bind_run, Ee.
  set (o4 := BB84KeyExchange.set_eavesdropper_detected
               (pyfloat.gtb rate pyfloat.lit_0_11)
               (BB84KeyExchange.set_error_rate rate o3)).
  assert (G : getitem (PDict info) "eavesdropper_detected"
              = Ok (PBool (pyfloat.gtb rate pyfloat.lit_0_11)))
    by (unfold getitem; now rewrite Idet).
  rewrite bind_run, lift_run, G.
  cbn [truthy].
  assert (Hrate0 : errors = 0%Z -> rate = pyfloat.zero).
  { intros ->. rewrite int_truediv_zero in Er by lia. congruence. }
  assert (Hsame : a = c -> errors = 0%Z).
  { intros <-. now apply count_errors_same in Ec. }
  destruct (int_truediv_ok (Z.of_nat (length a))
              (BB84KeyExchange.n_qubits o)) as (sift_rate & Esr);
    [lia|lia|].
  destruct (pyfloat.gtb rate pyfloat.lit_0_11) eqn:Egt; cbn [negb].
  - rewrite bind_run, ret_run. cbn beta iota.
    rewrite bind_run, time_run. cbn beta iota zeta.
    rewrite bind_run, self_run. cbn [fst snd].
    rewrite bind_run, lift_run.
    change (BB84KeyExchange.n_qubits o4)
      with (BB84KeyExchange.n_qubits o2).
    rewrite Hn, Esr.
    rewrite bind_run, lift_run.
    cbn beta iota zeta.
    rewrite bind_run, self_run. cbn [fst snd]. rewrite ret_run.
    match goal with
    | |- context [(Ok ?dd, (_, set_clock ?x ?y)) = (Ok _, _)] =>
        exists info, dd, rate, errors, w4, (set_clock x y)
    end.
    rewrite Egt. cbn [negb].
    split; [reflexivity|]. split; [exact Ierr|].
    split; [exact Hrate0|]. split; [exact Hsame|].
    split; [rewrite !lookup_insert_ne by done; now rewrite lookup_insert_eq|].
    split; [rewrite !lookup_insert_ne by done; now rewrite lookup_insert_eq|].
    split; [rewrite !lookup_insert_ne by done; now rewrite lookup_insert_eq|].
    split; [reflexivity|].
    split; rewrite !lookup_insert_ne by done; now rewrite lookup_insert_eq.
  - destruct (remaining_of_run a k Ek ltac:(lia) (seq 0 (length a)) w4)
      as (remaining & w5 & Erem).
    { intros i Hi. apply in_seq in Hi. lia. }
    rewrite bind_run, bind_run, call_run, Erem. cbn [fst snd].
    set (key := hashlib.sha3_256
                  (BB84KeyExchange.bit_string remaining
                   ++ b "vitalguard_qkd_pa")).
    rewrite bind_run, (privacy_amplification_run remaining 32 o4 w5).
    fold key. rewrite ret_run.
    rewrite bind_run, time_run. cbn beta iota zeta.
    rewrite bind_run, self_run. cbn [fst snd].
    rewrite bind_run, lift_run.
    change (BB84KeyExchange.n_qubits
              (BB84KeyExchange.set_final_key (Some key) o4))
      with (BB84KeyExchange.n_qubits o2).
    rewrite Hn, Esr.
    rewrite bind_run, lift_run.
    cbn beta iota zeta.
    rewrite bind_run, self_run. cbn [fst snd]. rewrite ret_run.
    assert (Htruthy : truthy (PBytes key) = true).
    { cbn [truthy]. subst key. now rewrite sha3_256_length. }
    change (BB84KeyExchange.final_key
              (BB84KeyExchange.set_final_key (Some key) o4))
      with (Some key).
    cbn [from_option default id]. rewrite Htruthy.
    match goal with
    | |- context [(Ok ?dd, (_, set_clock ?x ?y)) = (Ok _, _)] =>
        exists info, dd, rate, errors, w4, (set_clock x y)
    end.
    rewrite Egt. cbn [negb].
    split; [reflexivity|]. split; [exact Ierr|].
    split; [exact Hrate0|]. split; [exact Hsame|].
    split; [rewrite !lookup_insert_ne by done; now rewrite lookup_insert_eq|].
    split; [rewrite !lookup_insert_ne by done; now rewrite lookup_insert_eq|].
    split; [rewrite !lookup_insert_ne by done; now rewrite lookup_insert_eq|].
    exists remaining. cbn zeta. fold key.
    split; [reflexivity|].
    split; rewrite !lookup_insert_ne by done; now rewrite lookup_insert_eq.
Qed.

(** X12.  The three outcomes of [run_protocol], for every object and
    world.  (1) It raises [ValueError] or [OverflowError] in the error
    estimation, and then key, error rate and verdict of the object are
    those it had before the run.  (2) It returns with a positive
    verdict, [secure = False], no key in the result; the [final_key]
    attribute is not reset, it still holds what it held before the run.
    (3) It returns with a negative verdict, [secure = True], and
    [final_key_hex] is the hexadecimal form of the 32 bytes stored in
    [final_key].  The run never diverges and raises nothing else. *)
Theorem run_protocol_outcomes (o : BB84KeyExchange.t) (w : world) :
  exists r o' w',
    BB84KeyExchange.run_protocol (o, w) = (r, (o', w'))
    /\ ((exists e,
           r = Raise e
           /\ (e = ValueError \/ e = OverflowError)
           /\ BB84KeyExchange.final_key o' = BB84KeyExchange.final_key o
           /\ BB84KeyExchange.error_rate o' = BB84KeyExchange.error_rate o
           /\ BB84KeyExchange.eavesdropper_detected o'
              = BB84KeyExchange.eavesdropper_detected o)
        \/ (exists d : dict,
              r = Ok d
              /\ BB84KeyExchange.eavesdropper_detected o' = true
              /\ d !! "secure" = Some (PBool false)
              /\ d !! "final_key_hex" = Some PNone
              /\ d !! "final_key_bits" = Some (PInt 0)
              /\ BB84KeyExchange.final_key o' = BB84KeyExchange.final_key o)
        \/ (exists (d : dict) key,
              r = Ok d
              /\ BB84KeyExchange.eavesdropper_detected o' = false
              /\ d !! "secure" = Some (PBool true)
              /\ BB84KeyExchange.final_key o' = Some key
              /\ length key = 32%nat
              /\ d !! "final_key_hex" = Some (PStr (hex key))
              /\ d !! "final_key_bits" = Some (PInt 256))).
Proof.
  destruct (run_protocol_cases o w)
    as (a & c & o3 & w3 & _ & _ & _ & Hfk & Her & Hdet & _
        & [(e & _ & He & Erun)
          |(info & d & rate & errors & w4 & w' & _ & _ & _ & _ & _ & _
            & Hsec & Hcase)]).
  - exists (Raise e), o3, w3. split; [exact Erun|]. left. exists e. auto.
  - destruct (pyfloat.gtb rate pyfloat.lit_0_11); cbn [negb] in Hsec.
    + destruct Hcase as (Erun & Hhex & Hbits).
      eexists _, _, _. split; [exact Erun|]. right. left.
      exists d. repeat split; auto.
    + destruct Hcase as (remaining & Erun & Hhex & Hbits). cbn zeta in *.
      eexists _, _, _. split; [exact Erun|]. right. right.
      eexists d, _. repeat split; auto.
Qed.

(** X13.  A channel without noise raises no alarm.  With
    [noise_prob <= 0] a run that returns reports no error in its sample,
    an error rate of [0.0], a negative verdict and a key; a run that
    raises leaves the verdict of the object as it was. *)
Theorem noiseless_run_raises_no_alarm (o : BB84KeyExchange.t) (w : world) :
  pyfloat.gtb (BB84KeyExchange.noise_prob o) pyfloat.zero = false ->
  exists r o' w',
    BB84KeyExchange.run_protocol (o, w) = (r, (o', w'))
    /\ ((exists e,
           r = Raise e
           /\ BB84KeyExchange.eavesdropper_detected o'
              = BB84KeyExchange.eavesdropper_detected o)
        \/ (exists (d info : dict) key,
              r = Ok d
              /\ BB84KeyExchange.eavesdropper_detected o' = false
              /\ BB84KeyExchange.error_rate o' = pyfloat.zero
              /\ d !! "secure" = Some (PBool true)
              /\ d !! "error_estimation" = Some (PDict info)
              /\ info !! "errors_found" = Some (PInt 0)
              /\ BB84KeyExchange.final_key o' = Some key
              /\ d !! "final_key_hex" = Some (PStr (hex key)))).
Proof.
  intros Hnoise.
  destruct (run_protocol_cases o w)
    as (a & c & o3 & w3 & _ & _ & Hag & Hfk & Her & Hdet & _
        & [(e & _ & He & Erun)
          |(info & d & rate & errors & w4 & w' & _ & Ierr & Hrate & Hsame
            & Hinfo & _ & Hsec & Hcase)]).
  - exists (Raise e), o3, w3. split; [exact Erun|]. left. exists e. auto.
  - assert (errors = 0%Z) by auto. subst errors.
    assert (rate = pyfloat.zero) by auto. subst rate.
    change (pyfloat.gtb pyfloat.zero pyfloat.lit_0_11) with false in *.
    cbn [negb] in *.
    destruct Hcase as (remaining & Erun & Hhex & Hbits). cbn zeta in *.
    eexists _, _, _. split; [exact Erun|]. right.
    eexists d, info, _. repeat split; auto.
Qed.

Lemma noiseless_run_raises_no_alarm_witness :
  exists r o' w',
    BB84KeyExchange.run_protocol
      (BB84KeyExchange.BB84 4 pyfloat.zero [] [] [] [] [] None
         pyfloat.zero false, qkd_world)
    = (r, (o', w'))
    /\ ((exists e,
           r = Raise e
           /\ BB84KeyExchange.eavesdropper_detected o' = false)
        \/ (exists (d info : dict) key,
              r = Ok d
              /\ BB84KeyExchange.eavesdropper_detected o' = false
              /\ BB84KeyExchange.error_rate o' = pyfloat.zero
              /\ d !! "secure" = Some (PBool true)
              /\ d !! "error_estimation" = Some (PDict info)
              /\ info !! "errors_found" = Some (PInt 0)
              /\ BB84KeyExchange.final_key o' = Some key
              /\ d !! "final_key_hex" = Some (PStr (hex key)))).
Proof.
  apply (noiseless_run_raises_no_alarm
           (BB84KeyExchange.BB84 4 pyfloat.zero [] [] [] [] [] None
              pyfloat.zero false) qkd_world).
  reflexivity.
Defined.

(** X14.  What [qkd_key_exchange] gives its caller, for every qubit
    count, noise and world: [None], or a key of exactly 32 bytes, or a
    [ValueError] or [OverflowError] raised by the error estimation.
    Without noise it never returns [None]. *)
Theorem qkd_key_exchange_outcomes (n_qubits : Z) (noise : float)
    (w : world) :
  exists r w',
    qkd_key_exchange n_qubits noise w = (r, w')
    /\ (r = Ok None
        \/ (exists key, r = Ok (Some key) /\ length key = 32%nat)
        \/ r = Raise ValueError
        \/ r = Raise OverflowError)
    /\ (pyfloat.gtb noise pyfloat.zero = false -> r <> Ok None).
Proof.
  unfold qkd_key_exchange.
  rewrite bind_run. unfold BB84KeyExchange.__init__ at 1. rewrite ret_run.
  set (o := BB84KeyExchange.BB84 n_qubits noise [] [] [] [] [] None
              pyfloat.zero false).
  unfold with_object. rewrite bind_run.
  destruct (run_protocol_cases o w)
    as (a & c & o3 & w3 & _ & _ & Hag & Hfk & Her & Hdet & _
        & [(e & _ & He & Erun)
          |(info & d & rate & errors & w4 & w' & _ & Ierr & Hrate & Hsame
            & Hinfo & _ & Hsec & Hcase)]).
  - rewrite Erun. cbn [snd]. eexists _, _. split; [reflexivity|].
    split; [|discriminate]. destruct He as [->| ->]; auto.
  - assert (G : getitem (PDict d) "secure"
                = Ok (PBool (negb (pyfloat.gtb rate pyfloat.lit_0_11))))
      by (unfold getitem; now rewrite Hsec).
    destruct (pyfloat.gtb rate pyfloat.lit_0_11) eqn:Egt; cbn [negb] in *.
    + destruct Hcase as (Erun & Hhex & Hbits). rewrite Erun.
      rewrite bind_run, lift_run, G. cbn [truthy]. rewrite ret_run.
      cbn [snd]. eexists _, _. split; [reflexivity|]. split; [auto|].
      intros Hnoise. exfalso.
      assert (errors = 0%Z) by auto. subst errors.
      assert (rate = pyfloat.zero) by auto. subst rate.
      discriminate Egt.
    + destruct Hcase as (remaining & Erun & Hhex & Hbits). cbn zeta in *.
      set (key := hashlib.sha3_256 _) in *.
      rewrite Erun.
      rewrite bind_run, lift_run, G. cbn [truthy].
      rewrite bind_run, lift_run. unfold getitem. rewrite Hhex.
      assert (Hkey : key <> []).
      { intros E. pose proof (sha3_256_length
          (BB84KeyExchange.bit_string remaining ++ b "vitalguard_qkd_pa")).
        fold key in H. rewrite E in H. discriminate. }
      rewrite (hex_truthy key Hkey).
      rewrite bind_run, lift_run, fromhex_hex, ret_run. cbn [snd].
      eexists _, _. split; [reflexivity|]. split; [|discriminate].
      right. left. exists key. split; [reflexivity|].
      apply sha3_256_length.
Qed.

(** X15.  The accounting of [estimate_error].  On two keys of one
    length, when the sample size [max(1, int(n * fraction))] does not
    exceed the key length [n], the call returns; [errors_found] lies
    between 0 and [sample_size]; [error_rate] is their quotient, stored
    in the object together with the verdict [error_rate > 0.11]; and
    [remaining_key_bits] is [n - sample_size]: the sampled positions are
    distinct, and every bit is either sampled or remaining.  [final_key]
    and [sifted_key] are not touched. *)
Theorem estimate_error_accounts_for_every_bit
    (alice_sifted bob_sifted : list bit) (sample_fraction : float)
    (sample_size : Z) (o : BB84KeyExchange.t) (w : world) :
  length bob_sifted = length alice_sifted ->
  BB84KeyExchange.sample_size_of (length alice_sifted) sample_fraction
  = Ok sample_size ->
  (sample_size <= Z.of_nat (length alice_sifted))%Z ->
  exists (d : dict) errors rate o' w',
    BB84KeyExchange.estimate_error alice_sifted bob_sifted sample_fraction
      (o, w) = (Ok d, (o', w'))
    /\ d !! "sample_size" = Some (PInt sample_size)
    /\ d !! "errors_found" = Some (PInt errors)
    /\ d !! "remaining_key_bits"
       = Some (PInt (Z.of_nat (length alice_sifted) - sample_size))
    /\ (1 <= sample_size)%Z
    /\ (0 <= errors <= sample_size)%Z
    /\ pyfloat.int_truediv errors sample_size = Ok rate
    /\ BB84KeyExchange.error_rate o' = rate
    /\ BB84KeyExchange.eavesdropper_detected o'
       = pyfloat.gtb rate pyfloat.lit_0_11
    /\ d !! "error_rate" = Some (PFloat (pyfloat.round rate 4))
    /\ d !! "eavesdropper_detected"
       = Some (PBool (pyfloat.gtb rate pyfloat.lit_0_11))
    /\ d !! "secure"
       = Some (PBool (negb (pyfloat.gtb rate pyfloat.lit_0_11)))
    /\ BB84KeyExchange.final_key o' = BB84KeyExchange.final_key o
    /\ BB84KeyExchange.sifted_key o' = BB84KeyExchange.sifted_key o.
Proof.
  intros Hlen Ek Hfit.
  destruct (estimate_error_cases alice_sifted bob_sifted sample_fraction
              o w Hlen)
    as [(e & _ & _ & Hbig)
       |(k & drawn & rest & errors & rate & d & w' & Ek' & Hk & _ & _ & _
         & _ & Herr & Er & Ee & D1 & D2 & D3 & D4 & D5 & D6)].
  - specialize (Hbig _ Ek). lia.
  - assert (k = sample_size) by congruence. subst k.
    exists d, errors, rate. eexists _, w'.
    split; [exact Ee|]. repeat split; auto; lia.
Qed.

Lemma estimate_error_accounts_for_every_bit_witness :
  exists (d : dict) errors rate o' w',
    BB84KeyExchange.estimate_error
      [true; false; true; true; false; false]
      [true; true; true; true; false; false] pyfloat.lit_0_2
      (BB84KeyExchange.BB84 6 pyfloat.zero [] [] [] [] [] None
         pyfloat.zero false, qkd_world) = (Ok d, (o', w'))
    /\ d !! "sample_size" = Some (PInt 1)
    /\ d !! "errors_found" = Some (PInt errors)
    /\ d !! "remaining_key_bits" = Some (PInt (Z.of_nat 6 - 1))
    /\ (1 <= 1)%Z
    /\ (0 <= errors <= 1)%Z
    /\ pyfloat.int_truediv errors 1 = Ok rate
    /\ BB84KeyExchange.error_rate o' = rate
    /\ BB84KeyExchange.eavesdropper_detected o'
       = pyfloat.gtb rate pyfloat.lit_0_11
    /\ d !! "error_rate" = Some (PFloat (pyfloat.round rate 4))
    /\ d !! "eavesdropper_detected"
       = Some (PBool (pyfloat.gtb rate pyfloat.lit_0_11))
    /\ d !! "secure"
       = Some (PBool (negb (pyfloat.gtb rate pyfloat.lit_0_11)))
    /\ BB84KeyExchange.final_key o' = None
    /\ BB84KeyExchange.sifted_key o' = [].
Proof.
  apply (estimate_error_accounts_for_every_bit
           [true; false; true; true; false; false]
           [true; true; true; true; false; false] pyfloat.lit_0_2 1
           (BB84KeyExchange.BB84 6 pyfloat.zero [] [] [] [] [] None
              pyfloat.zero false) qkd_world).
  - reflexivity.
  - vm_compute. reflexivity.
  - vm_compute. discriminate.
Defined.

Lemma sample_size_of_empty (f : float) :
  BB84KeyExchange.sample_size_of 0 f = Ok 1%Z
  \/ BB84KeyExchange.sample_size_of 0 f = Raise ValueError.
Proof. destruct f as [s|s| |s m e]; vm_compute; auto. Qed.

(** X16.  An empty sifted key ends in [ValueError].  [estimate_error]
    on an empty key of Alice raises [ValueError] for every sample
    fraction and every key of Bob, before anything is assigned or drawn:
    the sample size is at least 1 and [random.sample] cannot draw it
    from an empty range (a fraction that is not a number fails in
    [int]).  So a run in which Alice and Bob agree on no basis raises
    [ValueError] rather than returning a result. *)
Theorem empty_sifted_key_raises (bob_sifted : list bit)
    (sample_fraction : float) (o : BB84KeyExchange.t) (w : world) :
  BB84KeyExchange.estimate_error [] bob_sifted sample_fraction (o, w)
  = (Raise ValueError, (o, w))
  /\ ((run_until_sifted (o, w)).1 ≫= (fun sifted => Ok sifted.1) = Ok [] ->
      (BB84KeyExchange.run_protocol (o, w)).1 = Raise ValueError).
Proof.
  assert (E : forall c f o w,
            BB84KeyExchange.estimate_error [] c f (o, w)
            = (Raise ValueError, (o, w))).
  { intros c f o0 w0. unfold BB84KeyExchange.estimate_error. cbn zeta.
    rewrite bind_run, lift_run. cbn [length].
    destruct (sample_size_of_empty f) as [-> | ->]; [|reflexivity].
    reflexivity. }
  split; [apply E|].
  destruct (run_protocol_cases o w)
    as (a & c & o3 & w3 & Es & _ & _ & _ & _ & _ & _
        & [(e & Ee & _ & Erun)
          |(info & d & rate & errors & w4 & w' & Ee & _)]);
    rewrite Es; cbn; intros [= ->]; rewrite E in Ee.
  - injection Ee as <-. now rewrite Erun.
  - discriminate.
Qed.

Lemma bit_string_length (key_bits : list bit) :
  length (BB84KeyExchange.bit_string key_bits) = length key_bits.
Proof. unfold BB84KeyExchange.bit_string. apply List.length_map. Qed.

Lemma bit_string_inj (tag : bytes) : forall k1 k2 : list bit,
  length k1 = length k2 ->
  BB84KeyExchange.bit_string k1 ++ tag = BB84KeyExchange.bit_string k2 ++ tag ->
  k1 = k2.
Proof.
  induction k1 as [|x k1 IH]; intros [|y k2] L E; cbn in L; try lia.
  - reflexivity.
  - cbn in E. injection E as Exy E. f_equal.
    + destruct x, y; congruence || discriminate.
    + apply IH; [lia|exact E].
Qed.

(** X17.  What [privacy_amplification] computes.  For every list of
    bits and every [target_bytes], which is never read, the call returns
    the SHA3-256 digest of the bits written as the characters [0] and
    [1] and followed by [b"vitalguard_qkd_pa"]; the digest has 32 bytes
    whatever the target asks for; it is stored in [final_key], and no
    other attribute and nothing of the world changes.  The bytes hashed
    determine the bits: two lists of one length that give the same
    input to the hash are equal. *)
Theorem privacy_amplification_ignores_target
    (key_bits : list bit) (target_bytes : Z)
    (o : BB84KeyExchange.t) (w : world) :
  BB84KeyExchange.privacy_amplification key_bits target_bytes (o, w)
  = (Ok (hashlib.sha3_256
           (List.map (fun x : bit => if x then x31 else x30) key_bits
            ++ b "vitalguard_qkd_pa")),
     (BB84KeyExchange.BB84
        (BB84KeyExchange.n_qubits o) (BB84KeyExchange.noise_prob o)
        (BB84KeyExchange.alice_bits o) (BB84KeyExchange.alice_bases o)
        (BB84KeyExchange.bob_bases o) (BB84KeyExchange.bob_results o)
        (BB84KeyExchange.sifted_key o)
        (Some (hashlib.sha3_256
                 (List.map (fun x : bit => if x then x31 else x30) key_bits
                  ++ b "vitalguard_qkd_pa")))
        (BB84KeyExchange.error_rate o)
        (BB84KeyExchange.eavesdropper_detected o), w))
  /\ length (hashlib.sha3_256
               (List.map (fun x : bit => if x then x31 else x30) key_bits
                ++ b "vitalguard_qkd_pa")) = 32%nat
  /\ (forall other_bits : list bit,
        length other_bits = length key_bits ->
        List.map (fun x : bit => if x then x31 else x30) other_bits
        ++ b "vitalguard_qkd_pa"
        = List.map (fun x : bit => if x then x31 else x30) key_bits
          ++ b "vitalguard_qkd_pa" ->
        other_bits = key_bits).
Proof.
  split; [reflexivity|]. split; [apply sha3_256_length|].
  intros other_bits L E. now apply (bit_string_inj (b "vitalguard_qkd_pa")).
Qed.

(** ** Too few circuits, and an interceptor *)

Lemma for_loop_app {St A} (body : A -> prog St unit) (l1 l2 : list A)
    (s : St) :
  for_loop body (l1 ++ l2) s
  = match for_loop body l1 s with
    | (Ok _, s') => for_loop body l2 s'
    | (Raise e, s') => (Raise e, s')
    | (Diverge, s') => (Diverge, s')
    end.
Proof.
  revert s. induction l1 as [|x l1 IH]; intros s; cbn [app for_loop].
  - now rewrite ret_run.
  - rewrite !bind_run. destruct (body x s) as [[[]|e|] s1]; auto.
Qed.

(** X19.  [bob_measure] needs a circuit for every qubit.  Handed fewer
    circuits than [n_qubits] it raises [IndexError], after it has
    replaced [bob_bases] by [n_qubits] fresh bases and measured every
    circuit it was given: [bob_results] holds one result per circuit
    handed over, not the results of an earlier run. *)
Theorem bob_measure_needs_every_circuit (o : BB84KeyExchange.t) (w : world)
    (circuits : list circuit) :
  (length circuits < Z.to_nat (BB84KeyExchange.n_qubits o))%nat ->
  exists bases results w',
    BB84KeyExchange.bob_measure circuits (o, w)
    = (Raise IndexError,
       (BB84KeyExchange.set_bob_results results
          (BB84KeyExchange.set_bob_bases bases o), w'))
    /\ length bases = Z.to_nat (BB84KeyExchange.n_qubits o)
    /\ length results = length circuits.
Proof.
  intros Hshort. set (n := Z.to_nat (BB84KeyExchange.n_qubits o)) in *.
  set (m := length circuits) in *.
  unfold BB84KeyExchange.bob_measure.
  rewrite bind_run, self_run. cbn [fst snd].
  destruct (draws_total (random.choice Zbasis [Zbasis; Xbasis])
              (range (BB84KeyExchange.n_qubits o))
              (choice_total Zbasis [Zbasis; Xbasis]) w)
    as (bases & w1 & E1 & L1).
  rewrite bind_run, call_run, E1. cbn [fst snd].
  rewrite bind_run, assign_run. cbn [fst snd].
  rewrite bind_run, assign_run. cbn [fst snd].
  rewrite bind_run, self_run. cbn [fst snd].
  unfold range in *. rewrite List.length_seq in L1. fold n in L1.
  set (o1 := BB84KeyExchange.set_bob_bases bases o).
  change (BB84KeyExchange.n_qubits
            (BB84KeyExchange.set_bob_results [] o1))
    with (BB84KeyExchange.n_qubits o).
  fold n.
  assert (Eseq : seq 0 n = seq 0 m ++ m :: seq (S m) (n - m - 1)).
  { replace n with (m + S (n - m - 1))%nat at 1 by lia.
    now rewrite seq_app. }
  rewrite Eseq, bind_run, for_loop_app.
  match goal with
  | |- context [for_loop ?body (seq 0 m)] =>
      destruct (for_loop_seq_total body
                  (fun k (s : BB84KeyExchange.t * world) =>
                     exists rs,
                       s.1 = BB84KeyExchange.set_bob_results rs o1
                       /\ length rs = k)
                  m 0)
        with (s := (BB84KeyExchange.set_bob_results [] o1, w1))
        as ([o2 w2] & E2 & rs & I2 & L2)
  end.
  - intros i [o' w'] Hi (rs & Ho' & Lrs). cbn [fst] in Ho'. subst o'.
    destruct (index_lt circuits i) as (qc & Hqc & Eqc); [fold m; lia|].
    destruct (index_lt bases i) as (c & Hc & Ec); [lia|].
    rewrite bind_run, lift_run, Eqc.
    rewrite bind_run, self_run. cbn [fst snd].
    rewrite bind_run, lift_run.
    change (BB84KeyExchange.bob_bases
              (BB84KeyExchange.set_bob_results rs o1)) with bases.
    rewrite Ec. cbn zeta.
    fold (bob_circuit c qc).
    destruct (run_from_total (bob_circuit c qc) Q0 false w')
      as (x & w'' & Em).
    fold (aer.measured_bit (bob_circuit c qc)) in Em.
    rewrite bind_run, call_run, Em. cbn [fst snd].
    rewrite assign_run. cbn [fst snd].
    eexists. split; [reflexivity|].
    exists (rs ++ [x]). split; [reflexivity|].
    rewrite length_app. cbn. lia.
  - exists []. split; reflexivity.
  - cbn [fst] in I2. subst o2. rewrite E2.
    cbn [for_loop]. rewrite bind_run, bind_run, lift_run.
    rewrite index_ge by (fold m; lia).
    exists bases, rs, w2. split; [reflexivity|]. split; [exact L1|].
    cbn in L2. lia.
Qed.

Lemma bob_measure_needs_every_circuit_witness :
  exists bases results w',
    BB84KeyExchange.bob_measure [[GX]; []]
      (BB84KeyExchange.BB84 4 pyfloat.zero [] [] [] [] [] None
         pyfloat.zero false, qkd_world)
    = (Raise IndexError,
       (BB84KeyExchange.set_bob_results results
          (BB84KeyExchange.set_bob_bases bases
             (BB84KeyExchange.BB84 4 pyfloat.zero [] [] [] [] [] None
                pyfloat.zero false)), w'))
    /\ length bases = Z.to_nat 4
    /\ length results = length [[GX]; ([] : circuit)].
Proof.
  apply (bob_measure_needs_every_circuit
           (BB84KeyExchange.BB84 4 pyfloat.zero [] [] [] [] [] None
              pyfloat.zero false) qkd_world [[GX]; []]).
  vm_compute. lia.
Defined.

(** The loop of [intercept], from a record of [bits0]. *)
Lemma intercept_loop (circuits : list circuit) : forall bits0 w,
  exists bases bits w',
    for_each
      (fun qc : circuit =>
         eve_basis ← call (random.choice Zbasis [Zbasis; Xbasis]);
         let measure_qc :=
           if basis_eqb eve_basis Xbasis then qc ++ [GH] else qc in
         let measure_qc := measure_qc ++ [GMeasure] in
         eve_bit ← call (aer.measured_bit measure_qc);
         assign (fun e => EveInterceptor.Eve
                            (EveInterceptor.intercepted_bits e ++ [eve_bit]));;
         mret (match eve_basis with
               | Zbasis => if eve_bit : bool then [GX] else []
               | Xbasis => if eve_bit : bool then [GX; GH] else [GH]
               end))
      circuits (EveInterceptor.Eve bits0, w)
    = (Ok (zip_with BB84KeyExchange.encode bases bits),
       (EveInterceptor.Eve (bits0 ++ bits), w'))
    /\ length bases = length circuits
    /\ length bits = length circuits
    /\ forall i qc basis_i bit_i,
         circuits !! i = Some qc -> bases !! i = Some basis_i ->
         bits !! i = Some bit_i ->
         exists w1 w2,
           aer.measured_bit (bob_circuit basis_i qc) w1 = (Ok bit_i, w2).
Proof.
  match goal with |- context [for_each ?f] => set (body := f) end.
  induction circuits as [|qc circuits IH]; intros bits0 w; cbn [for_each].
  - exists [], [], w. rewrite ret_run, app_nil_r.
    split; [reflexivity|]. split; [reflexivity|]. split; [reflexivity|].
    intros i ? ? ? H. now rewrite lookup_nil in H.
  - rewrite bind_run. unfold body at 1. cbn beta.
    rewrite bind_run, call_run.
    destruct (choice_total Zbasis [Zbasis; Xbasis] w) as (c & w1 & Ec).
    rewrite Ec. cbn [fst snd]. cbn zeta.
    fold (bob_circuit c qc).
    destruct (run_from_total (bob_circuit c qc) Q0 false w1)
      as (x & w2 & Em).
    fold (aer.measured_bit (bob_circuit c qc)) in Em.
    rewrite bind_run, call_run, Em. cbn [fst snd].
    rewrite bind_run, assign_run. cbn [fst snd EveInterceptor.intercepted_bits].
    rewrite ret_run.
    destruct (IH (bits0 ++ [x]) w2) as (bases & bits & w' & E & Lb & Lx & Hm).
    rewrite bind_run, E, ret_run.
    exists (c :: bases), (x :: bits), w'.
    rewrite <- app_assoc. cbn [app zip_with length].
    split; [destruct c, x; reflexivity|].
    split; [lia|]. split; [lia|].
    intros [|i] qc' basis_i bit_i H1 H2 H3; cbn in H1, H2, H3.
    + injection H1 as <-. injection H2 as <-. injection H3 as <-. eauto.
    + eapply Hm; eauto.
Qed.

(** X20.  [EveInterceptor.intercept] never raises.  It discards the
    record of an earlier call, measures every circuit in a basis of its
    own choice, records one bit per circuit in [intercepted_bits], and
    returns as many circuits as it received, circuit [i] being the plain
    encoding of Eve's bit [i] in Eve's basis [i].  Where Eve's basis is
    the basis Alice encoded in, Eve's bit is the bit Bob would have read
    in that basis (Alice's bit, inverted by a channel flip in basis
    [Z]). *)
Theorem intercept_resends_what_eve_read
    (circuits : list circuit) (e : EveInterceptor.t) (w : world) :
  exists bases bits w',
    EveInterceptor.intercept circuits (e, w)
    = (Ok (zip_with BB84KeyExchange.encode bases bits),
       (EveInterceptor.Eve bits, w'))
    /\ length bases = length circuits
    /\ length bits = length circuits
    /\ forall i a x flipped,
         circuits !! i = Some (sent a x flipped) ->
         bases !! i = Some a ->
         bits !! i = Some (match a with
                           | Zbasis => xorb x flipped
                           | Xbasis => x
                           end).
Proof.
  unfold EveInterceptor.intercept.
  rewrite bind_run, assign_run. cbn [fst snd].
  destruct (intercept_loop circuits [] w)
    as (bases & bits & w' & E & Lb & Lx & Hm).
  exists bases, bits, w'. split; [exact E|].
  split; [exact Lb|]. split; [exact Lx|].
  intros i a x flipped Hq Ha.
  destruct (lookup_lt_is_Some_2 bits i) as (y & Hy).
  { apply lookup_lt_Some in Hq. lia. }
  destruct (Hm i _ a y Hq Ha Hy) as (w1 & w2 & Hrun).
  rewrite Hy. f_equal.
  destruct a, x, flipped;
    unfold bob_circuit, sent, aer.measured_bit in Hrun;
    cbn in Hrun; rewrite ret_run in Hrun; cbn; congruence.
Qed.

(** * Properties of [quantum_demo.py] *)
(* ===================================================================== *)

(** ** The demonstration's copies of the primitives *)

Lemma demo_key_stream_loop_eq key nonce len fuel stream ctr :
  quantum_demo.key_stream_loop fuel key nonce len stream ctr
  = QuantumCipher._key_stream_loop fuel key nonce len stream ctr.
Proof. reflexivity. Qed.

Lemma demo_key_stream_eq key nonce len :
  quantum_demo.key_stream key nonce len
  = QuantumCipher._key_stream key nonce len.
Proof. apply demo_key_stream_loop_eq. Qed.

(** X21.  The key encapsulation of the demonstration is the library's
    on raw bytes.  [kyber_keygen] returns the pair that
    [QuantumKEM.keygen] returns Base64-encoded; [kyber_encap] returns the
    ciphertext and secret of [QuantumKEM.encapsulate], and
    [QuantumKEM.decapsulate] returns what [kyber_decap] computes.  Under
    the public key of a secret key, [kyber_decap] recovers the secret
    of [kyber_encap]. *)
Theorem demo_kem_is_the_library_kem (w : world) (sk pk ct : bytes) :
  (exists w1,
     quantum_demo.kyber_keygen w
     = (Ok (os.take_padded 64 (entropy w),
            hashlib.sha3_512 (os.take_padded 64 (entropy w)
                              ++ b "kyber_public")), w1)
     /\ exists keys : dict,
          QuantumKEM.keygen w = (Ok keys, w1)
          /\ QuantumCipher.field (PDict keys) "private_key"
             = Ok (os.take_padded 64 (entropy w))
          /\ QuantumCipher.field (PDict keys) "public_key"
             = Ok (hashlib.sha3_512 (os.take_padded 64 (entropy w)
                                     ++ b "kyber_public")))
  /\ (exists ct' ss w1,
        quantum_demo.kyber_encap pk w = (Ok (ct', ss), w1)
        /\ QuantumKEM.encapsulate (PStr (base64.b64encode pk)) w
           = (Ok (base64.b64encode ct', ss), w1)
        /\ (pk = hashlib.sha3_512 (sk ++ b "kyber_public") ->
            quantum_demo.kyber_decap sk ct' = ss))
  /\ QuantumKEM.decapsulate (PStr (base64.b64encode sk))
       (PStr (base64.b64encode ct))
     = Ok (quantum_demo.kyber_decap sk ct).
Proof.
  split; [|split].
  - eexists. split; [reflexivity|]. eexists. split; [apply keygen_run|].
    unfold QuantumCipher.field, getitem, mbind, result_bind, rbind.
    rewrite lookup_insert_ne, !lookup_insert_eq by done.
    now rewrite !b64decode_b64encode.
  - eexists _, _, _. split; [reflexivity|].
    split; [apply encapsulate_run|].
    intros ->. unfold quantum_demo.kyber_decap, slice_from.
    now rewrite drop_app_length' by (symmetry; apply sha3_512_length).
  - now rewrite (decapsulate_run _ _ sk ct)
      by apply b64decode_b64encode.
Qed.

(** X22.  The authenticated encryption of the demonstration.  For a
    plaintext of at most [2 ** 37] bytes [encrypt_aead] returns a nonce,
    a ciphertext as long as the plaintext and a tag; [decrypt_aead] on
    these returns the plaintext, and on any other tag returns [None]
    with no key stream computed.  The triple is what
    [QuantumCipher.encrypt] puts, Base64-encoded, in the fields of its
    record under the same entropy. *)
Theorem demo_aead_roundtrip (plaintext shared_secret : bytes)
    (w w' : world) :
  (N.of_nat (length plaintext) <= 137438953472)%N ->
  exists nonce ciphertext tag w1,
    quantum_demo.encrypt_aead plaintext shared_secret w
    = (Ok (nonce, ciphertext, tag), w1)
    /\ length ciphertext = length plaintext
    /\ nonce = os.take_padded 16 (entropy w)
    /\ tag = expected_mac shared_secret nonce ciphertext
    /\ (quantum_demo.decrypt_aead nonce ciphertext tag shared_secret w').1
       = Ok (Some plaintext)
    /\ (forall other_tag,
          other_tag <> tag ->
          quantum_demo.decrypt_aead nonce ciphertext other_tag
            shared_secret w' = (Ok None, w'))
    /\ (exists (record : dict) w2,
          QuantumCipher.encrypt plaintext shared_secret w = (Ok record, w2)
          /\ envelope_fields (PDict record) ciphertext nonce tag).
Proof.
  intros Hlen.
  destruct (encrypt_run plaintext shared_secret w Hlen)
    as (ks & log & ts & w2 & Hks & Hrun & Henc).
  cbn zeta in *.
  set (nonce := os.take_padded 16 (entropy w)) in *.
  set (ct := xor_zip plaintext ks) in *.
  assert (Lct : length ct = length plaintext).
  { subst ct. rewrite xor_zip_length. lia. }
  exists nonce, ct, (expected_mac shared_secret nonce ct). eexists.
  split.
  { unfold quantum_demo.encrypt_aead, QuantumCipher.xor_bytes, os.urandom.
    prog_simpl. fold nonce. rewrite demo_key_stream_eq, Hrun.
    reflexivity. }
  split; [exact Lct|]. split; [reflexivity|]. split; [reflexivity|].
  split; [|split].
  - unfold quantum_demo.decrypt_aead, QuantumCipher.xor_bytes.
    fold (expected_mac shared_secret nonce ct).
    rewrite compare_digest_refl. cbn [negb].
    prog_simpl. rewrite demo_key_stream_eq, Lct, Hrun. cbn [fst]. subst ct.
    now rewrite xor_zip_cancel by auto.
  - intros other_tag Hne. unfold quantum_demo.decrypt_aead.
    fold (expected_mac shared_secret nonce ct).
    now rewrite compare_digest_neq.
  - eexists _, w2. split; [exact Henc|]. apply encrypted_record_fields.
Qed.

Lemma demo_aead_roundtrip_witness :
  exists nonce ciphertext tag w1,
    quantum_demo.encrypt_aead (b "hello") secret_B world_A
    = (Ok (nonce, ciphertext, tag), w1)
    /\ length ciphertext = length (b "hello")
    /\ nonce = os.take_padded 16 (entropy world_A)
    /\ tag = expected_mac secret_B nonce ciphertext
    /\ (quantum_demo.decrypt_aead nonce ciphertext tag secret_B world_A).1
       = Ok (Some (b "hello"))
    /\ (forall other_tag,
          other_tag <> tag ->
          quantum_demo.decrypt_aead nonce ciphertext other_tag
            secret_B world_A = (Ok None, world_A))
    /\ (exists (record : dict) w2,
          QuantumCipher.encrypt (b "hello") secret_B world_A
          = (Ok record, w2)
          /\ envelope_fields (PDict record) ciphertext nonce tag).
Proof.
  apply (demo_aead_roundtrip (b "hello") secret_B world_A world_A).
  vm_compute. discriminate.
Defined.

(** ** The simulated exchange *)

Lemma eve_loop_total (e_bases a_bases : list basis) : forall idxs tx w,
  (forall i, In i idxs ->
     (i < length e_bases)%nat /\ (i < length a_bases)%nat
     /\ (i < length tx)%nat) ->
  exists tx' w',
    quantum_demo.eve_loop e_bases a_bases idxs tx w = (Ok tx', w')
    /\ length tx' = length tx.
Proof.
  induction idxs as [|i idxs IH]; intros tx w Hin;
    cbn [quantum_demo.eve_loop].
  - exists tx, w. now rewrite ret_run.
  - destruct (Hin i) as (He & Ha & Ht); [now left|].
    destruct (index_lt e_bases i He) as (e & _ & Ee).
    destruct (index_lt a_bases i Ha) as (a & _ & Ea).
    rewrite bind_run, lift_run, Ee, bind_run, lift_run, Ea.
    destruct (negb (basis_eqb e a)).
    + rewrite bind_run.
      destruct (randint_total w) as (r & w1 & Er). rewrite Er.
      rewrite bind_run, lift_run. unfold setitem.
      apply Nat.ltb_lt in Ht. rewrite Ht. apply Nat.ltb_lt in Ht.
      destruct (IH (<[i := r]> tx) w1) as (tx' & w' & E & L).
      { intros j Hj. rewrite length_insert. apply Hin. now right. }
      exists tx', w'. rewrite E, L, length_insert. auto.
    + apply IH. intros j Hj. apply Hin. now right.
Qed.

Lemma demo_sift_run (a_bases b_bases : list basis) (a_bits b_bits : list bit)
    (agree : Prop) : forall idxs sA0 sB0,
  (forall i, In i idxs ->
     exists a c x y,
       a_bases !! i = Some a /\ b_bases !! i = Some c
       /\ a_bits !! i = Some x /\ b_bits !! i = Some y
       /\ (agree -> a = c -> y = x)) ->
  exists sA sB,
    quantum_demo.sift a_bases b_bases a_bits b_bits idxs sA0 sB0
    = Ok (sA0 ++ sA, sB0 ++ sB)
    /\ length sA = length sB
    /\ (length sA <= length idxs)%nat
    /\ (agree -> sA = sB).
Proof.
  induction idxs as [|i idxs IH]; intros sA0 sB0 Hall;
    cbn [quantum_demo.sift].
  - exists [], []. rewrite !app_nil_r. cbn. auto.
  - destruct (Hall i) as (a & c & x & y & Ha & Hc & Hx & Hy & Hxy);
      [now left|].
    unfold index, mbind, result_bind, rbind. rewrite Ha, Hc.
    destruct (basis_eqb a c) eqn:Eb.
    + rewrite Hx, Hy.
      assert (a = c) by (destruct a, c; congruence || discriminate).
      destruct (IH (sA0 ++ [x]) (sB0 ++ [y]))
        as (sA & sB & E & L & L' & Heq);
        [intros; apply Hall; now right|].
      exists (x :: sA), (y :: sB). rewrite E, <- !app_assoc. cbn.
      split; [reflexivity|]. split; [lia|]. split; [lia|].
      intros Hag. rewrite (Hxy Hag H), (Heq Hag). reflexivity.
    + destruct (IH sA0 sB0) as (sA & sB & E & L & L' & Heq);
        [intros; apply Hall; now right|].
      exists sA, sB. cbn. auto.
Qed.

(** X23.  The outcomes of [bb84_sim], for every [n], with or without
    Eve.  The steps up to the sifting never raise and give two lists
    [sA] and [sB] of one length, at most [n], equal when there is no
    Eve.  Then either the sample of size
    [ss = max(1, int(len(sA) * 0.2))] cannot be drawn and the call
    raises [ValueError] or [OverflowError]; or [idx] is drawn, [ss]
    distinct positions of [sA], and the call returns
    [(qber, key, len(sA), len(rem))] where [rem] is [sA] without the
    positions in [idx], [len(rem) = len(sA) - ss], [qber] is the number
    of positions of [idx] on which [sA] and [sB] differ divided by
    [ss], and [key] is the SHA3-256 digest of the bits of [rem] written
    as characters and followed by [b"vitalguard"].  Without Eve [qber]
    is [0.0]. *)
Theorem bb84_sim_outcomes (n : Z) (eve : bool) (w : world) :
  exists sA sB w5,
    bb84_sim_until_sifted n eve w = (Ok (sA, sB), w5)
    /\ length sB = length sA
    /\ (length sA <= Z.to_nat n)%nat
    /\ (eve = false -> sB = sA)
    /\ ((exists e,
           quantum_demo.bb84_sim n eve w = (Raise e, w5)
           /\ (e = ValueError \/ e = OverflowError)
           /\ forall ss,
                BB84KeyExchange.sample_size_of (length sA) pyfloat.lit_0_2
                = Ok ss ->
                (Z.of_nat (length sA) < ss)%Z)
        \/ (exists ss idx errs qber w6,
              BB84KeyExchange.sample_size_of (length sA) pyfloat.lit_0_2
              = Ok ss
              /\ (1 <= ss <= Z.of_nat (length sA))%Z
              /\ random.sample_range (length sA) ss w5 = (Ok idx, w6)
              /\ NoDup idx
              /\ length idx = Z.to_nat ss
              /\ (forall i, i ∈ idx -> (i < length sA)%nat)
              /\ BB84KeyExchange.count_errors sA sB idx = Ok errs
              /\ pyfloat.int_truediv errs ss = Ok qber
              /\ quantum_demo.bb84_sim n eve w
                 = (Ok (qber,
                        hashlib.sha3_256
                          (BB84KeyExchange.bit_string
                             (BB84KeyExchange.without sA idx)
                           ++ b "vitalguard"),
                        length sA,
                        length (BB84KeyExchange.without sA idx)), w6)
              /\ Z.of_nat (length (BB84KeyExchange.without sA idx))
                 = (Z.of_nat (length sA) - ss)%Z
              /\ (eve = false -> qber = pyfloat.zero))).
Proof.
  set (P := bb84_sim_until_sifted n eve w).
  unfold quantum_demo.bb84_sim.
  set (N := Z.to_nat n).
  destruct (draws_total random.randint_0_1 (range n) randint_total w)
    as (a_bits & w1 & E1 & L1).
  rewrite bind_run, E1.
  destruct (draws_total (random.choice Zbasis [Zbasis; Xbasis]) (range n)
              (choice_total Zbasis [Zbasis; Xbasis]) w1)
    as (a_bases & w2 & E2 & L2).
  rewrite bind_run, E2.
  unfold range in L1, L2. rewrite List.length_seq in L1, L2.
  fold N in L1, L2.
  assert (Htx : exists tx w3,
            (if eve
             then
               e_bases ← for_each
                           (fun _ => random.choice Zbasis [Zbasis; Xbasis])
                           (range n);
               quantum_demo.eve_loop e_bases a_bases (range n) a_bits
             else mret a_bits) w2 = (Ok tx, w3)
            /\ length tx = N /\ (eve = false -> tx = a_bits)).
  { destruct eve.
    - destruct (draws_total (random.choice Zbasis [Zbasis; Xbasis])
                  (range n) (choice_total Zbasis [Zbasis; Xbasis]) w2)
        as (e_bases & w' & E & L).
      unfold range in L. rewrite List.length_seq in L. fold N in L.
      rewrite bind_run, E.
      destruct (eve_loop_total e_bases a_bases (range n) a_bits w')
        as (tx & w3 & Et & Lt).
      { intros i Hi. unfold range in Hi. apply in_seq in Hi.
        fold N in Hi. lia. }
      exists tx, w3. split; [exact Et|]. split; [lia|discriminate].
    - exists a_bits, w2. rewrite ret_run. auto. }
  destruct Htx as (tx & w3 & E3 & L3 & Hno_eve).
  rewrite bind_run, E3.
  destruct (draws_total (random.choice Zbasis [Zbasis; Xbasis]) (range n)
              (choice_total Zbasis [Zbasis; Xbasis]) w3)
    as (b_bases & w4 & E4 & L4).
  unfold range in L4. rewrite List.length_seq in L4. fold N in L4.
  rewrite bind_run, E4, bind_run.
  match goal with
  | |- context [for_each ?f (range n) w4] =>
      destruct (for_each_total f (range n) (fun _ : world => True)
                  (fun i y =>
                     forall c, b_bases !! i = Some c ->
                               a_bases !! i = Some c -> tx !! i = Some y))
        with (s := w4) as (b_bits & w5 & E5 & _ & F5)
  end.
  { intros i s Hi _. unfold range in Hi. apply in_seq in Hi. fold N in Hi.
    destruct (index_lt b_bases i) as (c & Hc & Ec); [lia|].
    destruct (index_lt a_bases i) as (a & Ha & Ea); [lia|].
    destruct (index_lt tx i) as (x & Hx & Ex); [lia|].
    rewrite bind_run, lift_run, Ec, bind_run, lift_run, Ea.
    destruct (basis_eqb c a) eqn:Eb.
    - rewrite lift_run, Ex. eexists _, _. split; [reflexivity|].
      split; [exact I|]. intros; exact Hx.
    - destruct (randint_total s) as (r & s' & Er). rewrite Er.
      eexists _, _. split; [reflexivity|]. split; [exact I|].
      intros c' H1 H2. assert (c = a) by congruence. subst.
      destruct a; discriminate. }
  { exact I. }
  rewrite E5.
  assert (L5 : length b_bits = N).
  { apply Forall2_length in F5. unfold range in F5.
    rewrite List.length_seq in F5. fold N in F5. lia. }
  destruct (demo_sift_run a_bases b_bases a_bits b_bits (eve = false)
              (range n) [] [])
    as (sA & sB & E6 & L6 & L6' & Hag).
  { intros i Hi. unfold range in Hi. apply in_seq in Hi. fold N in Hi.
    destruct (lookup_lt_is_Some_2 a_bases i) as (a & Ha); [lia|].
    destruct (lookup_lt_is_Some_2 b_bases i) as (c & Hc); [lia|].
    destruct (lookup_lt_is_Some_2 a_bits i) as (x & Hx); [lia|].
    destruct (lookup_lt_is_Some_2 b_bits i) as (y & Hy); [lia|].
    exists a, c, x, y. repeat split; auto.
    intros Hne <-.
    destruct (Forall2_lookup_r _ _ _ _ _ F5 Hy) as (j & Hj & Hrel).
    unfold range in Hj. apply lookup_seq in Hj as [-> _]. cbn [Nat.add] in *.
    specialize (Hrel a Hc Ha). rewrite (Hno_eve Hne) in Hrel. congruence. }
  cbn [app] in E6. rewrite bind_run, lift_run, E6. cbn zeta. cbn [fst snd].
  unfold range in L6'. rewrite List.length_seq in L6'. fold N in L6'.
  exists sA, sB, w5. split.
  { subst P. unfold bb84_sim_until_sifted.
    rewrite bind_run, E1, bind_run, E2, bind_run, E3, bind_run, E4.
    now rewrite bind_run, E5, lift_run, E6. }
  split; [lia|]. split; [exact L6'|].
  split; [intros Hne; now rewrite (Hag Hne)|].
  rewrite bind_run, lift_run.
  destruct (sample_size_of_cases (length sA) pyfloat.lit_0_2)
    as [(k & Ek & Hk)|[Ek|Ek]]; rewrite Ek;
    [|left; eexists; split; [reflexivity|]; split; [auto|discriminate]..].
  rewrite bind_run.
  destruct (Z_lt_le_dec (Z.of_nat (length sA)) k) as [Hbig|Hfit].
  { rewrite sample_range_raises by lia.
    left. eexists. split; [reflexivity|]. split; [auto|].
    intros ss [= <-]. exact Hbig. }
  destruct (sample_range_spec (length sA) k w5)
    as (drawn & rest & w6 & Es & Ld & Pm); [lia|].
  rewrite Es.
  destruct (sample_facts _ _ _ Pm) as (ND & Hin & _ & Hsum).
  destruct (count_errors_total sA sB drawn (eq_sym L6) Hin)
    as (errors & Ec & He).
  rewrite bind_run, lift_run, Ec.
  destruct (int_truediv_ok errors k) as (rate & Er); [lia|lia|].
  rewrite bind_run, lift_run, Er. cbn zeta. rewrite ret_run.
  right. exists k, drawn, errors, rate, w6.
  split; [reflexivity|]. split; [lia|]. split; [exact Es|].
  split; [exact ND|]. split; [exact Ld|]. split; [exact Hin|].
  split; [exact Ec|]. split; [exact Er|]. split; [reflexivity|].
  split; [rewrite (without_length sA drawn rest Pm); lia|].
  intros Hne. specialize (Hag Hne). subst sB.
  apply count_errors_same in Ec. subst errors.
  rewrite int_truediv_zero in Er by lia. congruence.
Qed.

(** * The signature of an envelope *)
(* ===================================================================== *)

(** X24.  The signature a server puts on an envelope.  On a channel
    after the handshake that holds signing keys, for a payload whose
    serialisation has at most [2 ** 37] bytes, [encrypt_patient_data]
    returns an envelope whose ["signature"] is the Base64 of
    HMAC-SHA3-512 of the serialised payload under the signing key, and
    [QuantumSignature.verify] accepts it for that payload, given the
    signing key, whatever is passed as the verify key. *)
Theorem envelope_signature_verifies `{Json}
    (c : SecureChannel.t) (shared_secret : bytes) (data : pyval)
    (plaintext : bytes) (signing_key : pyval) (sk : bytes) (w : world) :
  SecureChannel.shared_secret c = Some shared_secret ->
  shared_secret <> [] ->
  dumps_utf8 data = Ok plaintext ->
  (N.of_nat (length plaintext) <= 137438953472)%N ->
  SecureChannel.has_sig_keys c = true ->
  subscript (SecureChannel.sig_keys c) "signing_key" = Ok signing_key ->
  base64.b64decode signing_key = Ok sk ->
  exists (envelope : dict) w1,
    SecureChannel.encrypt_patient_data data (c, w)
    = (Ok envelope, (c, w1))
    /\ envelope !! "signature"
       = Some (PStr (base64.b64encode (hmac.sha3_512 sk plaintext)))
    /\ forall verify_key,
         QuantumSignature.verify plaintext
           (PStr (base64.b64encode (hmac.sha3_512 sk plaintext)))
           verify_key signing_key = Ok true.
Proof.
  intros Hss Hne Hd Hlen Hyes Hkey Hsk.
  destruct (transport_between_channels c c shared_secret data plaintext w w)
    as (envelope & w1 & w2 & He & _); auto.
  { right. eauto. }
  assert (Hsign : QuantumSignature.sign plaintext signing_key
                  = Ok (base64.b64encode (hmac.sha3_512 sk plaintext))).
  { unfold QuantumSignature.sign, mbind, result_bind, rbind.
    now rewrite Hsk. }
  exists envelope, w1. split; [exact He|]. split.
  - destruct (envelope_signature c data plaintext w envelope _ Hd He)
      as [(Hno & _)|(v & sg & _ & Hv & Hsg & Henv)]; [congruence|].
    assert (v = signing_key) by congruence. subst v.
    rewrite Henv. congruence.
  - intros vk. now apply sign_then_verify.
Qed.

Lemma envelope_signature_verifies_witness :
  exists (envelope : dict) w1,
    SecureChannel.encrypt_patient_data (H := literal_json) PNone
      (SecureChannel.Channel None
         (Some {[ "signing_key" := PStr zero_seed_b64 ]})
         (Some secret_B) None, world_A)
    = (Ok envelope,
       (SecureChannel.Channel None
          (Some {[ "signing_key" := PStr zero_seed_b64 ]})
          (Some secret_B) None, w1))
    /\ envelope !! "signature"
       = Some (PStr (base64.b64encode
                       (hmac.sha3_512 (repeat x00 64) (b "null"))))
    /\ forall verify_key,
         QuantumSignature.verify (b "null")
           (PStr (base64.b64encode
                    (hmac.sha3_512 (repeat x00 64) (b "null"))))
           verify_key (PStr zero_seed_b64) = Ok true.
Proof.
  apply (envelope_signature_verifies
           (SecureChannel.Channel None
              (Some {[ "signing_key" := PStr zero_seed_b64 ]})
              (Some secret_B) None)
           secret_B PNone (b "null") (PStr zero_seed_b64) (repeat x00 64)
           world_A).
  - reflexivity.
  - discriminate.
  - reflexivity.
  - vm_compute. discriminate.
  - vm_compute. reflexivity.
  - reflexivity.
  - vm_compute. reflexivity.
Defined.

(* ===================================================================== *)
(** * The verdict of a run *)
(* ===================================================================== *)

